(** * IR-Memo backend: orchestration core

    A shallow embedding of the Python backend (agents/orchestrator.py,
    agents/sec_edgar.py, agents/market_data.py, agents/research.py,
    agents/drafting.py, config.py) and the properties of its fallback
    resolver, its event stream and its regeneration engine.

    Conventions of the embedding:
    - Python [str] is [string]; text is taken to be ASCII (case mapping
      and the whitespace class are the ASCII ones).
    - an insertion-ordered [dict] whose key order is observable is an
      association list with unique keys ([PyDict]); the process-wide
      memo store, which is only read by key, is a [gmap].
    - network, file, clock and language-model calls are fields of a
      [world] record; a call that may raise returns an [outcome].
    - an async generator is a pair of the events it yielded and the
      outcome it ended with. *)

From Stdlib Require Import Ascii String QArith.QArith_base.
From stdpp Require Import base option list strings gmap pretty sorting.

Local Open Scope stdpp_scope.

(* ===================================================================== *)
(** * Python strings *)
(* ===================================================================== *)

Module PyStr.

Definition chars (s : string) : list ascii := String.list_ascii_of_string s.
Definition of_chars (l : list ascii) : string := String.string_of_list_ascii l.

Definition code (c : ascii) : nat := nat_of_ascii c.

Definition in_range (lo hi : nat) (c : ascii) : bool :=
  (lo <=? code c)%nat && (code c <=? hi)%nat.

Definition is_upper (c : ascii) : bool := in_range 65 90 c.
Definition is_lower (c : ascii) : bool := in_range 97 122 c.

(** [str.isspace] / the regex class [\s] on ASCII: TAB..CR, FS..US, SPACE. *)
Definition is_space (c : ascii) : bool :=
  in_range 9 13 c || in_range 28 32 c.

Definition upper_char (c : ascii) : ascii :=
  if is_lower c then ascii_of_nat (code c - 32) else c.
Definition lower_char (c : ascii) : ascii :=
  if is_upper c then ascii_of_nat (code c + 32) else c.

Definition upper (s : string) : string := of_chars (map upper_char (chars s)).
Definition lower (s : string) : string := of_chars (map lower_char (chars s)).

Definition truthy (s : string) : bool :=
  match s with EmptyString => false | _ => true end.

Definition len (s : string) : nat := String.length s.

(** [s[:n]] *)
Definition slice_to (n : nat) (s : string) : string := of_chars (take n (chars s)).
(** [s[n:]] *)
Definition slice_from (n : nat) (s : string) : string := of_chars (drop n (chars s)).

Fixpoint starts_with (p l : list ascii) : bool :=
  match p, l with
  | [], _ => true
  | a :: p', b :: l' => if ascii_dec a b then starts_with p' l' else false
  | _ :: _, [] => false
  end.

(** [l.find(p)]: index of the first occurrence, if any. *)
Fixpoint find_chars (p l : list ascii) : option nat :=
  if starts_with p l then Some 0
  else match l with
       | [] => None
       | _ :: l' => S <$> find_chars p l'
       end.

Definition find (sub s : string) : option nat := find_chars (chars sub) (chars s).

(** [sub in s] *)
Definition contains (sub s : string) : bool :=
  match find sub s with Some _ => true | None => false end.

(** [s.replace(old, new)] for a non-empty [old]: left to right, without
    overlap.  [skip] counts the characters of a match still to be dropped. *)
Fixpoint replace_chars (old new : list ascii) (l : list ascii) (skip : nat)
  : list ascii :=
  match l with
  | [] => []
  | c :: l' =>
      match skip with
      | S n => replace_chars old new l' n
      | O =>
          if starts_with old l
          then new ++ replace_chars old new l' (length old - 1)
          else c :: replace_chars old new l' 0
      end
  end.

Definition replace (old new s : string) : string :=
  match old with
  | EmptyString => s
  | _ => of_chars (replace_chars (chars old) (chars new) (chars s) 0)
  end.

(** [s.split(sep)] on a single separator character (always at least one
    field), and the generalisation to a class of separators, which is
    [re.split] on a one-character class. *)
Fixpoint split_on (sep : ascii -> bool) (l : list ascii) (cur : list ascii)
  : list (list ascii) :=
  match l with
  | [] => [reverse cur]
  | c :: l' =>
      if sep c then reverse cur :: split_on sep l' []
      else split_on sep l' (c :: cur)
  end.

Definition split_class (sep : ascii -> bool) (s : string) : list string :=
  map of_chars (split_on sep (chars s) []).

Definition split_char (c : ascii) (s : string) : list string :=
  split_class (fun x => if ascii_dec x c then true else false) s.

(** [s.split()]: fields separated by runs of whitespace, no empty field. *)
Definition split_ws (s : string) : list string :=
  filter (fun f => f <> EmptyString) (split_class is_space s).

Fixpoint lstrip_chars (l : list ascii) : list ascii :=
  match l with
  | c :: l' => if is_space c then lstrip_chars l' else l
  | [] => []
  end.

(** [s.strip()] *)
Definition strip (s : string) : string :=
  of_chars (reverse (lstrip_chars (reverse (lstrip_chars (chars s))))).

Definition join (sep : string) (l : list string) : string :=
  match l with
  | [] => EmptyString
  | x :: l' => fold_left (fun acc y => acc +:+ sep +:+ y) l' x
  end.

End PyStr.

(* ===================================================================== *)
(** * The fragment of [re] the backend uses *)
(* ===================================================================== *)

Module Re.

Inductive regex : Type :=
| Lit (s : list ascii)                     (* a literal word *)
| Rep (cls : ascii -> bool) (lo : nat) (hi : option nat)
                                           (* greedy cls{lo,hi}; hi = None is unbounded *)
| Seq (r1 r2 : regex)
| Alt (r1 r2 : regex)                      (* r1|r2, r1 preferred *)
| Group (r : regex)                        (* capturing group *)
| Bol.                                     (* ^ under re.MULTILINE *)

(** The position of the scan: the character before it (if any) and the
    text that remains. *)
Definition pos : Type := option ascii * list ascii.

Definition advance (n : nat) (p : pos) : pos :=
  (match last (take n p.2) with Some c => Some c | None => p.1 end, drop n p.2).

(** Length of the longest prefix in the class, capped by [cap]. *)
Fixpoint run_length (cls : ascii -> bool) (cap : option nat) (l : list ascii) : nat :=
  match l with
  | c :: l' =>
      if cls c then
        match cap with
        | Some O => O
        | Some (S n) => S (run_length cls (Some n) l')
        | None => S (run_length cls None l')
        end
      else O
  | [] => O
  end.

(** Try [n], [n-1], ... down to [lo] repetitions. *)
Fixpoint try_counts {R : Type} (n lo : nat) (p : pos) (k : pos -> option R) : option R :=
  if (n <? lo)%nat then None
  else match k (advance n p) with
       | Some r => Some r
       | None => match n with
                 | O => None
                 | S n' => try_counts n' lo p k
                 end
       end.

(** Backtracking matcher in continuation-passing style: [k] receives the
    position after the match and the groups captured so far. *)
Fixpoint rmatch {R : Type} (r : regex) (p : pos) (caps : list string)
    (k : pos -> list string -> option R) : option R :=
  match r with
  | Lit s =>
      if PyStr.starts_with s p.2 then k (advance (length s) p) caps else None
  | Rep cls lo hi =>
      try_counts (run_length cls hi p.2) lo p (fun p' => k p' caps)
  | Seq r1 r2 =>
      rmatch r1 p caps (fun p' caps' => rmatch r2 p' caps' k)
  | Alt r1 r2 =>
      match rmatch r1 p caps k with
      | Some x => Some x
      | None => rmatch r2 p caps k
      end
  | Group r1 =>
      rmatch r1 p caps (fun p' caps' =>
        k p' (caps' ++ [PyStr.of_chars (take (length p.2 - length p'.2) p.2)]))
  | Bol =>
      match p.1 with
      | None => k p caps
      | Some c => if ascii_dec c "010"%char then k p caps else None
      end
  end.

(** A match anchored at [p]: the number of characters used and the groups. *)
Definition match_at (r : regex) (p : pos) : option (nat * list string) :=
  rmatch r p [] (fun p' caps => Some (length p.2 - length p'.2, caps)).

(** [re.finditer]: leftmost matches, left to right, without overlap.  Each
    match is given by its groups. *)
Fixpoint finditer_from (r : regex) (prev : option ascii) (l : list ascii)
    (skip : nat) {struct l} : list (list string) :=
  match skip with
  | S n =>
      match l with
      | [] => []
      | c :: l' => finditer_from r (Some c) l' n
      end
  | O =>
      match match_at r (prev, l) with
      | Some (used, caps) =>
          caps :: match l with
                  | [] => []
                  | c :: l' => finditer_from r (Some c) l' (used - 1)
                  end
      | None =>
          match l with
          | [] => []
          | c :: l' => finditer_from r (Some c) l' 0
          end
      end
  end.

Definition finditer (r : regex) (s : string) : list (list string) :=
  finditer_from r None (PyStr.chars s) 0.

(** [len(re.findall(r, s))] *)
Definition count_matches (r : regex) (s : string) : nat := length (finditer r s).

Definition word (s : string) : regex := Lit (PyStr.chars s).
Definition ws_plus : regex := Rep PyStr.is_space 1 None.      (* \s+ *)
Definition ws_star : regex := Rep PyStr.is_space 0 None.      (* \s* *)

End Re.

(* ===================================================================== *)
(** * Python lists and insertion-ordered dicts *)
(* ===================================================================== *)

Module PyList.

(** [x in l] for strings *)
Definition mem (x : string) (l : list string) : bool := bool_decide (x ∈ l).

(** [l.index(x)], for an [x] that occurs in [l] *)
Fixpoint index (x : string) (l : list string) : nat :=
  match l with
  | [] => O
  | y :: l' => if decide (x = y) then O else S (index x l')
  end.

(** [l.remove(x)]: drops the first occurrence *)
Fixpoint remove (x : string) (l : list string) : list string :=
  match l with
  | [] => []
  | y :: l' => if decide (x = y) then l' else y :: remove x l'
  end.

End PyList.

Module PyDict.

Definition t (V : Type) : Type := list (string * V).

Fixpoint get {V} (k : string) (d : t V) : option V :=
  match d with
  | [] => None
  | (k', v) :: d' => if decide (k = k') then Some v else get k d'
  end.

(** [d[k] = v]: an existing key keeps its place, a new one goes last. *)
Fixpoint set {V} (k : string) (v : V) (d : t V) : t V :=
  match d with
  | [] => [(k, v)]
  | (k', v') :: d' =>
      if decide (k = k') then (k, v) :: d' else (k', v') :: set k v d'
  end.

Definition keys {V} (d : t V) : list string := map fst d.
Definition values {V} (d : t V) : list V := map snd d.

(** [{}] followed by [d[k] = v] for each pair, in order. *)
Definition of_pairs {V} (l : list (string * V)) : t V :=
  fold_left (fun d kv => set kv.1 kv.2 d) l [].

End PyDict.

(* ===================================================================== *)
(** * agents/orchestrator.py: _parse_ticker_changes *)
(* ===================================================================== *)

(** [A-Z]{1,5} *)
Definition ticker_re : Re.regex := Re.Rep PyStr.is_upper 1 (Some 5).

(** (?:REPLACE|SWAP)\s+([A-Z]{1,5})\s+(?:WITH|FOR)\s+([A-Z]{1,5}) *)
Definition replace_re : Re.regex :=
  Re.Seq (Re.Alt (Re.word "REPLACE") (Re.word "SWAP"))
  (Re.Seq Re.ws_plus
  (Re.Seq (Re.Group ticker_re)
  (Re.Seq Re.ws_plus
  (Re.Seq (Re.Alt (Re.word "WITH") (Re.word "FOR"))
  (Re.Seq Re.ws_plus (Re.Group ticker_re)))))).

(** (?:ADD|INCLUDE)\s+([A-Z]{1,5}) *)
Definition add_re : Re.regex :=
  Re.Seq (Re.Alt (Re.word "ADD") (Re.word "INCLUDE"))
  (Re.Seq Re.ws_plus (Re.Group ticker_re)).

(** (?:REMOVE|DROP|EXCLUDE)\s+([A-Z]{1,5}) *)
Definition remove_re : Re.regex :=
  Re.Seq (Re.Alt (Re.word "REMOVE") (Re.Alt (Re.word "DROP") (Re.word "EXCLUDE")))
  (Re.Seq Re.ws_plus (Re.Group ticker_re)).

(** The loop state: the working copy [tickers] and the flag [changed]. *)
Definition edit_state : Type := list string * bool.

Definition replace_step (target : string) (st : edit_state) (m : list string)
  : edit_state :=
  match m with
  | [old; new] =>
      if PyList.mem old st.1 && negb (bool_decide (old = target))
      then (<[PyList.index old st.1 := new]> st.1, true)
      else st
  | _ => st
  end.

Definition add_step (st : edit_state) (m : list string) : edit_state :=
  match m with
  | [new] => if negb (PyList.mem new st.1) then (st.1 ++ [new], true) else st
  | _ => st
  end.

Definition remove_step (target : string) (st : edit_state) (m : list string)
  : edit_state :=
  match m with
  | [old] =>
      if PyList.mem old st.1 && negb (bool_decide (old = target))
      then (PyList.remove old st.1, true)
      else st
  | _ => st
  end.

(** The three loops over the upper-cased instruction [text]. *)
Definition apply_ticker_edits (text : string) (current_tickers : list string)
  : edit_state :=
  let target := default "MS" (head current_tickers) in
  let st0 : edit_state := (current_tickers, false) in
  let st1 := fold_left (replace_step target) (Re.finditer replace_re text) st0 in
  let st2 := fold_left add_step (Re.finditer add_re text) st1 in
  fold_left (remove_step target) (Re.finditer remove_re text) st2.

Definition _parse_ticker_changes (instruction : string) (current_tickers : list string)
  : list string :=
  if negb (PyStr.truthy instruction) then current_tickers
  else
    let st := apply_ticker_edits (PyStr.upper instruction) current_tickers in
    if st.2 then st.1 else current_tickers.

(* ===================================================================== *)
(** * Data model *)
(* ===================================================================== *)

(** What a call that may raise ends with. *)
Inductive outcome (A : Type) : Type :=
| Returned (a : A)
| Raised (e : string).
Arguments Returned {A} a.
Arguments Raised {A} e.

#[global] Instance outcome_ret : MRet outcome := fun A a => Returned a.

#[global] Instance outcome_bind : MBind outcome := fun A B f m =>
  match m with
  | Returned a => f a
  | Raised e => Raised e
  end.

#[global] Instance outcome_fmap : FMap outcome := fun A B f m =>
  match m with
  | Returned a => Returned (f a)
  | Raised e => Raised e
  end.

(** A leaf's result dict: its own payload, or the error-shaped dict
    [{"status": "error", "error": e}]. *)
Inductive leaf_dict (A : Type) : Type :=
| Payload (a : A)
| ErrorDict (error : string).
Arguments Payload {A} a.
Arguments ErrorDict {A} error.

Record source : Type := {
  src_url : string;
  src_domain : string;
  src_label : string;
}.

Inductive level : Type := high | medium | low.

Record confidence : Type := {
  conf_level : level;
  conf_reason : string;
}.

(** One web search result, [{"title", "body", "href"}]; a missing key reads
    as the empty string, the default of every [r.get(key, ...)] of the source. *)
Record search_hit : Type := {
  hit_title : string;
  hit_body : string;
  hit_href : string;
}.

(** What one transcript tier returns: [(text or None, source_url)]. *)
Definition tier_outcome : Type := option string * string.

Record transcript_result : Type := {
  tr_status : string;
  tr_transcript_text : string;
  tr_source : string;
  tr_source_url : string;
  tr_tier : nat;
  tr_error : option string;
}.

(** A row of valuation metrics, label to value or [None]. *)
Definition metric_row : Type := PyDict.t (option Q).

(** An entry of [peer_median]: the dash of the 52-week columns, or a value. *)
Inductive median_cell : Type :=
| Dash
| Cell (v : option Q).

Record valuation_result : Type := {
  vr_status : string;
  vr_tickers : PyDict.t metric_row;
  vr_as_of : string;
  vr_peer_median : PyDict.t median_cell;
}.

Record forecast_row : Type := {
  row_label : string;
  row_indent : nat;
  row_analyst : option Q;
  row_consensus : option Q;
  row_delta : option string;
  row_bold : bool;
  row_highlight : bool;
}.

Record forecast_result : Type := {
  fr_analyst_name : string;
  fr_firm : string;
  fr_date_updated : string;
  fr_is_stale : bool;
  fr_table_rows : list forecast_row;
  fr_rating : string;
  fr_price_target : option Q;
}.

Record bio_result : Type := {
  br_status : string;
  br_analyst_name : string;
  br_firm : string;
  br_search_results : list search_hit;
}.

Record peer_result : Type := {
  pr_status : string;
  pr_analyst_name : string;
  pr_peer_results : PyDict.t (list search_hit);
  pr_sector_results : list search_hit;
}.

(** What the drafting leaves return: [{"section", "content", "status"}]. *)
Record draft : Type := {
  d_section : string;
  d_content : string;
  d_status : string;
}.

(** A stored SectionRecord.  Every shape carries provenance sources and a
    confidence rating. *)
Inductive section_record : Type :=
| Narrative (d : draft) (sources : list source) (conf : confidence)
| Forecast (f : forecast_result) (sources : list source) (conf : confidence)
| Valuation (v : valuation_result) (ticker_order : option (list string))
    (sources : list source) (conf : confidence)
| Unavailable (error : string) (sources : list source) (conf : confidence).

Definition rec_sources (r : section_record) : list source :=
  match r with
  | Narrative _ s _ | Forecast _ s _ | Valuation _ _ s _ | Unavailable _ s _ => s
  end.

Definition rec_confidence (r : section_record) : confidence :=
  match r with
  | Narrative _ _ c | Forecast _ _ c | Valuation _ _ _ c | Unavailable _ _ c => c
  end.

(** The parsed reply of the quality check is whatever JSON the model sent. *)
#[local] Unset Elimination Schemes.
Inductive json : Type :=
| JNull
| JBool (b : bool)
| JNum (q : Q)
| JStr (s : string)
| JArr (items : list json)
| JObj (fields : list (string * json)).
#[local] Set Elimination Schemes.

Record memo : Type := {
  m_analyst : string;
  m_firm : string;
  m_company : string;
  m_date : string;
  m_sections : PyDict.t section_record;
  m_quality_check : option json;
}.

Record metadata : Type := {
  md_valuation_timestamp : string;
  md_forecast_date_updated : string;
  md_transcript_source : string;
  md_today_date : option string;
}.

Record step_node : Type := {
  step_id : string;
  step_label : string;
  step_children : list (string * string);
}.

(** The typed events of both channels.  Of the [findings] of a
    [step_update] the embedding keeps the provenance list; its display
    strings are left out. *)
Inductive event : Type :=
| EvSteps (steps : list step_node)
| EvStepUpdate (step status : string) (sources : option (list source))
| EvSection (section content : string) (sources : list source) (conf : confidence)
| EvForecast (r : section_record)
| EvValuation (r : section_record)
| EvQualityCheck (qc : json)
| EvComplete (memo_id : string)
| EvServerError (message : string)
| EvRegenStart (section : string)
| EvRegenStep (section step : string)
| EvRegenSection (section content : string) (sources : list source) (conf : confidence)
| EvRegenForecast (r : section_record)
| EvRegenValuation (r : section_record)
| EvRegenError (section message : string)
| EvRegenComplete (section : string).

(** Everything outside the process: network, files, clock, the language
    model, and the float and URL primitives of the runtime. *)
Record world : Type := {
  (* pandas: the firm of the analyst's first row in the Forecasts sheet *)
  w_excel_firm : string -> outcome string;
  (* agents/forecast.py read_forecast_data *)
  w_read_forecast_data : string -> outcome (leaf_dict forecast_result);
  (* DDGS().text(query, max_results) *)
  w_ddgs_text : string -> nat -> outcome (list search_hit);
  (* the five transcript tiers of agents/sec_edgar.py *)
  w_search_efts : string -> tier_outcome;
  w_search_submissions : string -> tier_outcome;
  w_search_fmp : string -> tier_outcome;
  w_search_transcript_web : string -> string -> tier_outcome;
  w_read_local_transcript : tier_outcome;
  (* yf.Ticker(ticker).info *)
  w_yf_info : string -> outcome (PyDict.t Q);
  (* round(x, 2); round(x / 1e9, 1); f"{x:.2f}" *)
  w_round2 : Q -> Q;
  w_billions : Q -> Q;
  (* float(Decimal(str(statistics.median(vals))).quantize(Decimal("0.01"),
     rounding=ROUND_HALF_UP)): it raises on values the median or the
     quantization cannot take (a string, an infinite or a very large value) *)
  w_median_2dp : list Q -> outcome Q;
  w_fmt_2f : Q -> string;
  (* load_prompt + client.messages.create of generate_section, by
     section name, template, context and user instruction *)
  w_generate : string -> string -> list (string * string) -> string -> outcome string;
  (* client.messages.create of edit_section, by section name, current
     content and instruction *)
  w_edit : string -> string -> string -> outcome string;
  (* agents/drafting.py edit_forecast_table *)
  w_edit_forecast_table : list forecast_row -> string -> option (list forecast_row);
  (* agents/drafting.py run_quality_check, by the sections it summarises *)
  w_run_quality_check : PyDict.t section_record -> metadata -> json;
  (* urlparse(url).netloc *)
  w_netloc : string -> outcome string;
  (* str(uuid.uuid4()) *)
  w_uuid4 : string;
  (* datetime.now() under the three formats used *)
  w_now_long : string;
  w_now_et : string;
  w_now_iso : string;
  (* the publication date found in a peer summary and its age in months *)
  w_peer_date : string -> option (string * Z);
}.

Definition dq : string := String (ascii_of_nat 34) EmptyString.

Definition _confidence (lvl : level) (reason : string) : confidence :=
  {| conf_level := lvl; conf_reason := reason |}.

(* ===================================================================== *)
(** * config.py *)
(* ===================================================================== *)

Definition DEFAULT_TICKER : string := "MS".
Definition PEER_TICKERS : list string := ["GS"; "JPM"; "BAC"; "C"; "WFC"; "SCHW"].
Definition ALL_TICKERS : list string := DEFAULT_TICKER :: PEER_TICKERS.
Definition COMPANY_CIKS : PyDict.t string := [("MS", "0000895421")].
Definition SECTION_IDS : list string := ["bio"; "forecast"; "earnings"; "peer"; "valuation"].

(* ===================================================================== *)
(** * agents/orchestrator.py: helpers *)
(* ===================================================================== *)

Definition _extract_domain (w : world) (url : string) : string :=
  match w_netloc w url with
  | Returned netloc =>
      let domain := PyStr.replace "www." EmptyString netloc in
      if PyStr.truthy domain then domain else PyStr.slice_to 40 url
  | Raised _ => PyStr.slice_to 40 url
  end.

Definition source_of_hit (r : search_hit) (url domain : string) : source :=
  {| src_url := url;
     src_domain := domain;
     src_label :=
       PyStr.slice_to 80 (if PyStr.truthy (hit_title r) then hit_title r else domain) |}.

(** The loop of [_top_sources], with its two accumulators. *)
Fixpoint top_sources_loop (w : world) (max_n : nat) (search_results : list search_hit)
    (sources : list source) (seen : gset string) : list source :=
  match search_results with
  | [] => sources
  | r :: rest =>
      let url := hit_href r in
      if negb (PyStr.truthy url) then top_sources_loop w max_n rest sources seen
      else
        let domain := _extract_domain w url in
        let fresh := PyStr.truthy domain && negb (bool_decide (domain ∈ seen)) in
        let seen' := if fresh then {[domain]} ∪ seen else seen in
        let sources' := if fresh then sources ++ [source_of_hit r url domain] else sources in
        if (max_n <=? length sources')%nat then sources'
        else top_sources_loop w max_n rest sources' seen'
  end.

Definition _top_sources (w : world) (search_results : list search_hit) (max_n : nat)
  : list source :=
  top_sources_loop w max_n search_results [] ∅.

(* ===================================================================== *)
(** * agents/sec_edgar.py: get_transcript *)
(* ===================================================================== *)

(** [if text:] *)
Definition has_text (t : tier_outcome) : bool :=
  match t.1 with
  | Some s => PyStr.truthy s
  | None => false
  end.

Definition found (t : tier_outcome) (src url : string) (tier : nat) : transcript_result :=
  {| tr_status := "success";
     tr_transcript_text := default EmptyString t.1;
     tr_source := src;
     tr_source_url := url;
     tr_tier := tier;
     tr_error := None |}.

Definition all_tiers_failed : transcript_result :=
  {| tr_status := "error";
     tr_transcript_text := EmptyString;
     tr_source := "none";
     tr_source_url := EmptyString;
     tr_tier := 0;
     tr_error := Some "[Earnings call transcript not available from public sources]" |}.

(** Tiers 3 to 5, after the tiers logged in [log]. *)
Definition tiers_3_to_5 (w : world) (ticker company_name : string) (log : list nat)
  : list nat * transcript_result :=
  let t3 := w_search_fmp w ticker in
  if has_text t3
  then (log ++ [3], found t3 "Financial Modeling Prep API" t3.2 3)
  else
    let t4 := w_search_transcript_web w company_name ticker in
    if has_text t4
    then (log ++ [3; 4], found t4 "Web search" t4.2 4)
    else
      let t5 := w_read_local_transcript w in
      if has_text t5
      then (log ++ [3; 4; 5], found t5 t5.2 EmptyString 5)
      else (log ++ [3; 4; 5], all_tiers_failed).

(** [get_transcript] together with the tiers it announced on the logger
    ("Tier n: ..."), each announcement standing right before the call. *)
Definition get_transcript_logged (w : world) (ticker company_name : string)
  : list nat * transcript_result :=
  let cik := PyDict.get ticker COMPANY_CIKS in
  let t1 := w_search_efts w company_name in
  if has_text t1
  then ([1], found t1 "SEC EDGAR (EFTS)" t1.2 1)
  else
    match cik with
    | Some c =>
        if PyStr.truthy c then
          let t2 := w_search_submissions w c in
          if has_text t2
          then ([1; 2], found t2 "SEC EDGAR (8-K filing)" t2.2 2)
          else tiers_3_to_5 w ticker company_name [1; 2]
        else tiers_3_to_5 w ticker company_name [1]
    | None => tiers_3_to_5 w ticker company_name [1]
    end.

Definition get_transcript (w : world) (ticker company_name : string)
  : transcript_result :=
  (get_transcript_logged w ticker company_name).2.

(* ===================================================================== *)
(** * agents/market_data.py *)
(* ===================================================================== *)

Inductive transform : Type := Round2 | Billions.

(** (display_label, yfinance_key, transform_fn) *)
Definition METRICS : list (string * string * option transform) :=
  [ ("Stock Price", "currentPrice", None);
    ("P/E (TTM)", "trailingPE", None);
    ("Forward P/E", "forwardPE", None);
    ("Price/Book", "priceToBook", None);
    ("Dividend Yield", "dividendYield", Some Round2);
    ("Market Cap ($B)", "marketCap", Some Billions);
    ("52W High", "fiftyTwoWeekHigh", None);
    ("52W Low", "fiftyTwoWeekLow", None) ].

(** [if x] on a number *)
Definition num_truthy (x : Q) : bool := negb (Qeq_bool x 0).

Definition apply_transform (w : world) (t : transform) (x : Q) : option Q :=
  if num_truthy x
  then Some (match t with Round2 => w_round2 w x | Billions => w_billions w x end)
  else None.

Definition metric_value (w : world) (info : PyDict.t Q) (key : string)
    (t : option transform) : option Q :=
  match PyDict.get key info, t with
  | Some val, Some f => apply_transform w f val
  | val, _ => val
  end.

Definition null_row : metric_row :=
  PyDict.of_pairs (map (fun m => (m.1.1, None)) METRICS).

Definition _fetch_ticker (w : world) (ticker : string) : metric_row :=
  match w_yf_info w ticker with
  | Returned info =>
      PyDict.of_pairs (map (fun m => (m.1.1, metric_value w info m.1.2 m.2)) METRICS)
  | Raised _ => null_row
  end.

(** The non-null values of one metric over the peers. *)
Definition peer_values (data : PyDict.t metric_row) (peer_tickers : list string)
    (label : string) : list Q :=
  omap (fun pt => mjoin (PyDict.get label (default [] (PyDict.get pt data))))
       peer_tickers.

(** One cell of the peer median; the median of the values found may raise. *)
Definition median_of (w : world) (data : PyDict.t metric_row)
    (peer_tickers : list string) (label : string) : outcome median_cell :=
  if bool_decide (label ∈ ["52W High"; "52W Low"]) then Returned Dash
  else
    match peer_values data peer_tickers label with
    | [] => Returned (Cell None)
    | vals => raw ← w_median_2dp w vals; Returned (Cell (Some raw))
    end.

(** The loop over [METRICS] that fills [peer_median]; it stands outside
    any [try], so the first median that raises ends the whole call. *)
Fixpoint peer_median_loop (w : world) (data : PyDict.t metric_row)
    (peer_tickers : list string) (labels : list string)
    (peer_median : PyDict.t median_cell) : outcome (PyDict.t median_cell) :=
  match labels with
  | [] => Returned peer_median
  | label :: rest =>
      cell ← median_of w data peer_tickers label;
      peer_median_loop w data peer_tickers rest (PyDict.set label cell peer_median)
  end.

Definition get_valuation_data (w : world) (tickers : list string)
  : outcome valuation_result :=
  let timestamp := w_now_et w in
  let results := map (_fetch_ticker w) tickers in
  let data := PyDict.of_pairs (zip tickers results) in
  let peer_tickers := drop 1 tickers in
  peer_median ←
    peer_median_loop w data peer_tickers (map (fun m => m.1.1) METRICS) [];
  Returned {| vr_status := "success";
              vr_tickers := data;
              vr_as_of := timestamp;
              vr_peer_median := peer_median |}.

(* ===================================================================== *)
(** * agents/research.py *)
(* ===================================================================== *)

Definition _search (w : world) (query : string) (max_results : nat) : list search_hit :=
  match w_ddgs_text w query max_results with
  | Returned results => results
  | Raised _ => []
  end.

Definition bio_queries (analyst_name firm : string) : list string :=
  [ dq +:+ analyst_name +:+ dq +:+ " " +:+ dq +:+ firm +:+ dq +:+ " analyst bio coverage universe";
    dq +:+ analyst_name +:+ dq +:+ " analyst banking interview commentary";
    dq +:+ analyst_name +:+ dq +:+ " career history banks analyst";
    dq +:+ analyst_name +:+ dq +:+ " BrokerCheck prior firms employment history" ].

(** The inner loop of [search_analyst_bio]: keep the hits with a new URL. *)
Definition collect_hits (acc : list search_hit * gset string) (results : list search_hit)
  : list search_hit * gset string :=
  fold_left
    (fun st r =>
       let url := hit_href r in
       if PyStr.truthy url && negb (bool_decide (url ∈ st.2))
       then (st.1 ++ [r], {[url]} ∪ st.2)
       else st)
    results acc.

Definition search_analyst_bio (w : world) (analyst_name firm : string) : bio_result :=
  let st :=
    fold_left (fun st query => collect_hits st (_search w query 8))
              (bio_queries analyst_name firm) ([], ∅) in
  {| br_status := "success";
     br_analyst_name := analyst_name;
     br_firm := firm;
     br_search_results := st.1 |}.

Definition search_peer_research (w : world) (analyst_name : string)
    (peer_tickers : list string) : peer_result :=
  let peer_results :=
    PyDict.of_pairs
      (map (fun ticker =>
              (ticker,
               _search w (dq +:+ analyst_name +:+ dq +:+ " " +:+ ticker
                          +:+ " research outlook rating") 5))
           peer_tickers) in
  let sector_results :=
    _search w (dq +:+ analyst_name +:+ dq +:+ " large bank sector outlook") 5 in
  {| pr_status := "success";
     pr_analyst_name := analyst_name;
     pr_peer_results := peer_results;
     pr_sector_results := sector_results |}.

(* ===================================================================== *)
(** * agents/drafting.py *)
(* ===================================================================== *)

Definition generate_section (w : world) (section_name template_name : string)
    (context : list (string * string)) (user_instruction : string) : draft :=
  match w_generate w section_name template_name context user_instruction with
  | Returned text =>
      {| d_section := section_name; d_content := text; d_status := "success" |}
  | Raised e =>
      {| d_section := section_name;
         d_content := "[Section could not be generated: " +:+ e +:+ "]";
         d_status := "error" |}
  end.

Definition edit_section (w : world) (section_name current_content instruction : string)
  : draft :=
  match w_edit w section_name current_content instruction with
  | Returned text =>
      {| d_section := section_name; d_content := text; d_status := "success" |}
  | Raised _ =>
      {| d_section := section_name; d_content := current_content; d_status := "error" |}
  end.

Definition nl : string := String "010"%char EmptyString.

Definition format_hit (title_key snippet_key : string) (i : nat) (r : search_hit) : string :=
  "[" +:+ pretty i +:+ "] " +:+ title_key +:+ hit_title r +:+ nl
  +:+ "    URL: " +:+ hit_href r +:+ nl
  +:+ "    " +:+ snippet_key +:+ hit_body r.

(** [enumerate(results, 1)] *)
Definition enumerate1 {A} (l : list A) : list (nat * A) := zip (seq 1 (length l)) l.

Definition format_search_results (results : list search_hit) : string :=
  match results with
  | [] => "[No search results available]"
  | _ =>
      PyStr.join (nl +:+ nl)
        (map (fun ir => format_hit "Title: " "Snippet: " ir.1 ir.2) (enumerate1 results))
  end.

Definition format_peer_results (peer_results : PyDict.t (list search_hit))
    (sector_results : list search_hit) : string :=
  let per_ticker (tr : string * list search_hit) : list string :=
    match tr.2 with
    | [] => ["--- " +:+ tr.1 +:+ " ---" +:+ nl +:+ "[No results found]"; EmptyString]
    | results =>
        ("--- " +:+ tr.1 +:+ " ---")
          :: map (fun ir => format_hit EmptyString EmptyString ir.1 ir.2) (enumerate1 results)
          ++ [EmptyString]
    end in
  let sector :=
    match sector_results with
    | [] => []
    | _ =>
        "--- Sector-Level Research ---"
          :: map (fun ir => format_hit EmptyString EmptyString ir.1 ir.2)
                 (enumerate1 sector_results)
    end in
  match (concat (map per_ticker peer_results) ++ sector)%list with
  | [] => "[No peer research results available]"
  | parts => PyStr.join nl parts
  end.

(* ===================================================================== *)
(** * agents/orchestrator.py: generators *)
(* ===================================================================== *)

(** An async generator run to its end: the events yielded, in order, and
    how the body ended. *)
Definition gen (A : Type) : Type := list event * outcome A.

#[global] Instance gen_ret : MRet gen := fun A a => ([], Returned a).

#[global] Instance gen_bind : MBind gen := fun A B f m =>
  match m.2 with
  | Returned a => (m.1 ++ (f a).1, (f a).2)
  | Raised e => (m.1, Raised e)
  end.

Definition yield (e : event) : gen unit := ([e], Returned tt).
Definition raise {A} (e : string) : gen A := ([], Raised e).
Definition await {A} (o : outcome A) : gen A := ([], o).

(** [_run_step]: a raising coroutine becomes the error-shaped dict. *)
Definition _run_step {A} (coro : outcome (leaf_dict A)) : leaf_dict A :=
  match coro with
  | Returned result => result
  | Raised e => ErrorDict e
  end.

(** [result.get("status") == "success"] *)
Definition status_is_success {A} (status : A -> string) (result : leaf_dict A) : bool :=
  match result with
  | Payload a => bool_decide (status a = "success")
  | ErrorDict _ => false
  end.

(** [result.get(key, dflt)] on a field of the payload *)
Definition get_field {A B} (field : A -> B) (dflt : B) (result : leaf_dict A) : B :=
  match result with
  | Payload a => field a
  | ErrorDict _ => dflt
  end.

(** [result.get("error", dflt)] *)
Definition get_error {A} (dflt : string) (result : leaf_dict A) : string :=
  match result with
  | Payload _ => dflt
  | ErrorDict e => e
  end.

(** ** The step hierarchy *)

Definition _build_steps (selected : list string) : list step_node :=
  (if PyList.mem "bio" selected then
     [ {| step_id := "bio"; step_label := "Analyst Background";
          step_children :=
            [ ("bio_search", "Searching for analyst background");
              ("bio_draft", "Drafting bio section with Claude") ] |} ]
   else [])
  ++ (if PyList.mem "forecast" selected then
     [ {| step_id := "forecast"; step_label := "Analyst Forecast";
          step_children :=
            [ ("forecast_read", "Reading analyst forecast from Excel");
              ("forecast_deltas", "Calculating consensus deltas") ] |} ]
   else [])
  ++ (if PyList.mem "earnings" selected then
     [ {| step_id := "earnings"; step_label := "Post-Earnings Analysis";
          step_children :=
            [ ("transcript_fetch", "Retrieving earnings transcript");
              ("transcript_extract", "Extracting analyst questions");
              ("earnings_draft", "Drafting post-earnings feedback") ] |} ]
   else [])
  ++ (if PyList.mem "peer" selected then
     [ {| step_id := "peer"; step_label := "Peer Research";
          step_children :=
            [ ("peer_search", "Searching for recent peer commentary");
              ("peer_draft", "Drafting peer research summary") ] |} ]
   else [])
  ++ (if PyList.mem "valuation" selected then
     [ {| step_id := "valuation"; step_label := "Valuation Ratios";
          step_children := [ ("market_data", "Pulling live valuation data") ] |} ]
   else [])
  ++ [ {| step_id := "qc"; step_label := "Quality Check";
          step_children := [ ("quality_check", "Running quality check") ] |} ].

(** The locals the section groups update: [memo["sections"]] and [metadata]. *)
Record run_state : Type := {
  rs_sections : PyDict.t section_record;
  rs_metadata : metadata;
}.

Definition put_section (key : string) (r : section_record) (st : run_state) : run_state :=
  {| rs_sections := PyDict.set key r (rs_sections st); rs_metadata := rs_metadata st |}.

Definition plural (n : nat) : string := if (1 <? n)%nat then "s" else EmptyString.

(** ** Group 1: analyst background *)

Fixpoint prior_experience_text (lines : list string) : string :=
  match lines with
  | [] => EmptyString
  | line :: rest =>
      if PyStr.contains "prior experience" (PyStr.lower line) then
        match PyStr.find ":**" line with
        | Some colon_pos => PyStr.strip (PyStr.slice_from (colon_pos + 3) line)
        | None => line
        end
      else prior_experience_text rest
  end.

Definition is_semicolon_or_comma (c : ascii) : bool :=
  if ascii_dec c ";"%char then true else if ascii_dec c ","%char then true else false.

Definition firm_count (bio_content : string) : nat :=
  let prior_exp_text := prior_experience_text (PyStr.split_char "010"%char bio_content) in
  if PyStr.truthy prior_exp_text then
    length (filter (fun s => (2 < PyStr.len (PyStr.strip s))%nat)
                   (PyStr.split_class is_semicolon_or_comma prior_exp_text))
  else 0.

Definition bio_confidence_of (n_domains : nat) (career_incomplete : bool) : confidence :=
  if (3 <=? n_domains)%nat && negb career_incomplete then
    _confidence high (pretty n_domains +:+ " sources found")
  else if (3 <=? n_domains)%nat && career_incomplete then
    _confidence medium
      "Career history may be incomplete — fewer than 3 prior firms identified"
  else if (1 <=? n_domains)%nat then
    _confidence medium
      ("Only " +:+ pretty n_domains +:+ " source" +:+ plural n_domains +:+ " found")
  else _confidence low "No web sources found".

Definition bio_group (w : world) (analyst_name firm : string) (st : run_state)
  : gen run_state :=
  yield (EvStepUpdate "bio_search" "running" None);;
  let result := _run_step (Returned (Payload (search_analyst_bio w analyst_name firm))) in
  let search_results := get_field br_search_results [] result in
  let bio_sources := _top_sources w search_results 5 in
  let bio_status := if status_is_success br_status result then "complete" else "error" in
  yield (EvStepUpdate "bio_search" bio_status (Some bio_sources));;
  yield (EvStepUpdate "bio_draft" "running" None);;
  let search_results_text := format_search_results search_results in
  let bio_section :=
    generate_section w "bio" "analyst_bio"
      [("analyst_name", analyst_name); ("firm", firm);
       ("search_results", search_results_text)] EmptyString in
  let career_incomplete := (firm_count (d_content bio_section) <? 3)%nat in
  let n_domains := length bio_sources in
  let bio_confidence := bio_confidence_of n_domains career_incomplete in
  let st' := put_section "bio" (Narrative bio_section bio_sources bio_confidence) st in
  yield (EvStepUpdate "bio_draft" "complete" None);;
  yield (EvSection "bio" (d_content bio_section) bio_sources bio_confidence);;
  mret st'.

(** ** Group 2: analyst forecast *)

Definition missing_count (table_rows : list forecast_row) : nat :=
  length (filter (fun r => row_analyst r = None \/ row_consensus r = None) table_rows).

Definition forecast_confidence_of (is_stale : bool) (missing : nat) (date_updated : string)
  : confidence :=
  if is_stale && (0 <? missing)%nat then
    _confidence low ("Data is stale and " +:+ pretty missing +:+ " values missing")
  else if is_stale then
    _confidence medium ("Data is older than 30 days (updated " +:+ date_updated +:+ ")")
  else if (2 <? missing)%nat then
    _confidence medium (pretty missing +:+ " forecast values missing")
  else
    _confidence high ("Data current, " +:+ pretty missing +:+ " missing values").

Definition forecast_sources_of (analyst_name firm date_updated : string) : list source :=
  [ {| src_domain := "analyst_key_metrics.xlsx";
       src_url := EmptyString;
       src_label := "Row: " +:+ analyst_name +:+ ", " +:+ firm
                    +:+ ", updated " +:+ date_updated |} ].

Definition set_forecast_date (d : string) (st : run_state) : run_state :=
  {| rs_sections := rs_sections st;
     rs_metadata :=
       {| md_valuation_timestamp := md_valuation_timestamp (rs_metadata st);
          md_forecast_date_updated := d;
          md_transcript_source := md_transcript_source (rs_metadata st);
          md_today_date := md_today_date (rs_metadata st) |} |}.

Definition forecast_group (w : world) (analyst_name firm : string) (st : run_state)
  : gen run_state :=
  yield (EvStepUpdate "forecast_read" "running" None);;
  let result := _run_step (w_read_forecast_data w analyst_name) in
  match result with
  | Payload f =>
      let date_updated := fr_date_updated f in
      let st1 := set_forecast_date date_updated st in
      let table_rows := fr_table_rows f in
      let is_stale := fr_is_stale f in
      let missing := missing_count table_rows in
      let forecast_sources := forecast_sources_of analyst_name firm date_updated in
      yield (EvStepUpdate "forecast_read" "complete" (Some forecast_sources));;
      yield (EvStepUpdate "forecast_deltas" "running" None);;
      yield (EvStepUpdate "forecast_deltas" "complete" None);;
      let fc_confidence := forecast_confidence_of is_stale missing date_updated in
      let record := Forecast f forecast_sources fc_confidence in
      yield (EvForecast record);;
      mret (put_section "forecast" record st1)
  | ErrorDict _ =>
      yield (EvStepUpdate "forecast_read" "error" None);;
      yield (EvStepUpdate "forecast_deltas" "error" None);;
      mret (put_section "forecast"
              (Unavailable (get_error "Failed" result) []
                 (_confidence low "Forecast data unavailable")) st)
  end.

(** ** Group 3: post-earnings analysis *)

(** f"{n:,}" *)
Fixpoint group_thousands (rev_digits : list ascii) (i : nat) : list ascii :=
  match rev_digits with
  | [] => []
  | d :: rest =>
      (if (0 <? i)%nat && (i mod 3 =? 0)%nat then [","%char; d] else [d])
        ++ group_thousands rest (S i)
  end.

Definition fmt_thousands (n : nat) : string :=
  PyStr.of_chars
    (reverse (group_thousands (reverse (PyStr.chars (pretty n))) 0)).

(** a line start, [>], optional whitespace and a double quote, under
    re.MULTILINE: the block quotes that open an analyst question *)
Definition question_re : Re.regex :=
  Re.Seq Re.Bol (Re.Seq (Re.word ">") (Re.Seq Re.ws_star (Re.Lit [ascii_of_nat 34]))).

Definition set_transcript_source (s : string) (st : run_state) : run_state :=
  {| rs_sections := rs_sections st;
     rs_metadata :=
       {| md_valuation_timestamp := md_valuation_timestamp (rs_metadata st);
          md_forecast_date_updated := md_forecast_date_updated (rs_metadata st);
          md_transcript_source := s;
          md_today_date := md_today_date (rs_metadata st) |} |}.

Definition unavailable_text : string :=
  "[Earnings call transcript not available from public sources]".

Definition earnings_confidence_of (has_transcript limited_participation is_local_file
    is_snippets : bool) (src : string) : confidence :=
  if negb has_transcript then _confidence low "Transcript not available"
  else if limited_participation then
    _confidence medium "Limited analyst participation found in transcript"
  else if is_local_file then
    _confidence medium "Using bundled demo transcript (live sources unavailable)"
  else if is_snippets then _confidence medium "Only web search snippets available"
  else _confidence high ("Full transcript retrieved from " +:+ src).

Definition earnings_group (w : world) (analyst_name firm company : string)
    (st : run_state) : gen run_state :=
  yield (EvStepUpdate "transcript_fetch" "running" None);;
  let result : leaf_dict transcript_result :=
    _run_step (Returned (Payload (get_transcript w company "Morgan Stanley"))) in
  let transcript_text := get_field tr_transcript_text EmptyString result in
  let src := get_field tr_source "N/A" result in
  let source_url := get_field tr_source_url EmptyString result in
  let tier := get_field tr_tier 0 result in
  let st1 := set_transcript_source src st in
  let has_transcript :=
    status_is_success tr_status result && PyStr.truthy transcript_text in
  transcript_sources ←
    (if has_transcript then
       let char_count := PyStr.len transcript_text in
       let transcript_sources :=
         [ {| src_domain := src;
              src_url := source_url;
              src_label := "Transcript from " +:+ src +:+ " ("
                           +:+ fmt_thousands char_count +:+ " characters)" |} ] in
       (* the snippet preview of the bundled file needs the analyst's last name *)
       (if (tier =? 5)%nat then
          match last (PyStr.split_ws analyst_name) with
          | Some _ => mret tt
          | None => raise "list index out of range"
          end
        else mret tt);;
       yield (EvStepUpdate "transcript_fetch" "complete" (Some transcript_sources));;
       mret transcript_sources
     else
       yield (EvStepUpdate "transcript_fetch" "error" None);;
       mret []);
  yield (EvStepUpdate "transcript_extract" "running" None);;
  let transcript_text' :=
    if negb (PyStr.truthy transcript_text) then unavailable_text else transcript_text in
  yield (EvStepUpdate "transcript_extract" "complete" None);;
  yield (EvStepUpdate "earnings_draft" "running" None);;
  let earnings_section :=
    generate_section w "earnings" "earnings_feedback"
      [("analyst_name", analyst_name); ("firm", firm);
       ("transcript_text", PyStr.slice_to (15 * 1000) transcript_text')] EmptyString in
  let question_count := Re.count_matches question_re (d_content earnings_section) in
  let limited_participation := (question_count <? 2)%nat in
  let is_snippets := PyStr.contains "[Partial transcript" transcript_text' in
  let is_local_file := (tier =? 5)%nat in
  let earnings_confidence :=
    earnings_confidence_of has_transcript limited_participation is_local_file
      is_snippets src in
  let st2 :=
    put_section "earnings"
      (Narrative earnings_section transcript_sources earnings_confidence) st1 in
  yield (EvStepUpdate "earnings_draft" "complete" (Some transcript_sources));;
  yield (EvSection "earnings" (d_content earnings_section) transcript_sources
           earnings_confidence);;
  mret st2.

(** ** Group 4: peer research *)

Definition peer_stale_note_of (w : world) (peer_content : string)
    (n_peers_with_results : nat) : option string :=
  match w_peer_date w peer_content with
  | Some (peer_date_str, months_old) =>
      if (6 <? months_old)%Z then
        Some ("Most recent commentary found is from " +:+ peer_date_str
              +:+ " — may not reflect current views")
      else if (3 <=? months_old)%Z then
        Some ("Commentary is " +:+ pretty months_old +:+ " months old")
      else None
  | None =>
      if PyStr.truthy peer_content && (1 <=? n_peers_with_results)%nat
      then Some "Publication date could not be verified"
      else None
  end.

Definition peer_confidence_of (peer_stale_note : option string)
    (n_peers_with_results n_domains : nat) : confidence :=
  match peer_stale_note with
  | Some note => _confidence medium note
  | None =>
      if (3 <=? n_peers_with_results)%nat && (2 <=? n_domains)%nat then
        _confidence high
          ("Recent commentary found from " +:+ pretty n_peers_with_results +:+ " peers")
      else if (1 <=? n_peers_with_results)%nat then
        _confidence medium
          ("Limited results — " +:+ pretty n_peers_with_results +:+ " peer"
           +:+ plural n_peers_with_results +:+ " with data")
      else _confidence low "No peer commentary found"
  end.

(** The hits of every peer, then those of the sector query. *)
Definition all_peer_hits (result : leaf_dict peer_result) : list search_hit :=
  (concat (PyDict.values (get_field pr_peer_results [] result))
   ++ get_field pr_sector_results [] result)%list.

Definition peer_group (w : world) (analyst_name firm : string) (st : run_state)
  : gen run_state :=
  yield (EvStepUpdate "peer_search" "running" None);;
  let result :=
    _run_step (Returned (Payload (search_peer_research w analyst_name PEER_TICKERS))) in
  let all_peer_search_results := all_peer_hits result in
  let peer_sources := _top_sources w all_peer_search_results 5 in
  let n_peers_with_results :=
    length (filter (fun r => r <> []) (PyDict.values (get_field pr_peer_results [] result))) in
  yield (EvStepUpdate "peer_search"
           (if status_is_success pr_status result then "complete" else "error")
           (Some peer_sources));;
  yield (EvStepUpdate "peer_draft" "running" None);;
  let peer_results_text :=
    format_peer_results (get_field pr_peer_results [] result)
      (get_field pr_sector_results [] result) in
  let peer_section :=
    generate_section w "peer" "peer_research"
      [("analyst_name", analyst_name); ("firm", firm);
       ("peer_results", peer_results_text)] EmptyString in
  let peer_stale_note :=
    peer_stale_note_of w (d_content peer_section) n_peers_with_results in
  let n_domains := length peer_sources in
  let peer_confidence := peer_confidence_of peer_stale_note n_peers_with_results n_domains in
  let st' := put_section "peer" (Narrative peer_section peer_sources peer_confidence) st in
  yield (EvStepUpdate "peer_draft" "complete" None);;
  yield (EvSection "peer" (d_content peer_section) peer_sources peer_confidence);;
  mret st'.

(** ** Group 5: valuation ratios *)

(** [d.get("Stock Price")] *)
Definition stock_price (row : metric_row) : option Q := mjoin (PyDict.get "Stock Price" row).

Definition n_failures_of (tickers_data : PyDict.t metric_row) : nat :=
  length (filter (fun d => stock_price d = None) (PyDict.values tickers_data)).

(** f"${price:.2f}" if price else "N/A", for the row of [ticker] *)
Definition price_str (w : world) (tickers_data : PyDict.t metric_row) (ticker : string)
  : string :=
  match stock_price (default [] (PyDict.get ticker tickers_data)) with
  | Some price => if num_truthy price then "$" +:+ w_fmt_2f w price else "N/A"
  | None => "N/A"
  end.

Definition valuation_sources_of (w : world) (v : valuation_result) (target : string)
  : list source :=
  [ {| src_domain := "Yahoo Finance API";
       src_url := EmptyString;
       src_label := "Real-time data — " +:+ target +:+ ": "
                    +:+ price_str w (vr_tickers v) target
                    +:+ " (as of " +:+ vr_as_of v +:+ ")" |} ].

Definition set_valuation_timestamp (t : string) (st : run_state) : run_state :=
  {| rs_sections := rs_sections st;
     rs_metadata :=
       {| md_valuation_timestamp := t;
          md_forecast_date_updated := md_forecast_date_updated (rs_metadata st);
          md_transcript_source := md_transcript_source (rs_metadata st);
          md_today_date := md_today_date (rs_metadata st) |} |}.

Definition valuation_group (w : world) (st : run_state) : gen run_state :=
  yield (EvStepUpdate "market_data" "running" None);;
  let result := _run_step (Payload <$> get_valuation_data w ALL_TICKERS) in
  if status_is_success vr_status result then
    match result with
    | Payload v =>
        let tickers_data := vr_tickers v in
        let n_tickers := length tickers_data in
        let st1 := set_valuation_timestamp (vr_as_of v) st in
        let n_failures := n_failures_of tickers_data in
        let valuation_sources := valuation_sources_of w v "MS" in
        let val_confidence :=
          if (n_failures =? 0)%nat then
            _confidence high ("All " +:+ pretty n_tickers +:+ " tickers retrieved")
          else if (n_failures <=? 2)%nat then
            _confidence medium
              (pretty n_failures +:+ " of " +:+ pretty n_tickers +:+ " tickers failed")
          else
            _confidence low
              ("Major data gaps — " +:+ pretty n_failures +:+ " tickers failed") in
        let record := Valuation v None valuation_sources val_confidence in
        yield (EvStepUpdate "market_data" "complete" (Some valuation_sources));;
        yield (EvValuation record);;
        mret (put_section "valuation" record st1)
    | ErrorDict _ => mret st
    end
  else
    yield (EvStepUpdate "market_data" "error" None);;
    mret (put_section "valuation"
            (Unavailable (get_error "Failed" result) []
               (_confidence low "Valuation data unavailable")) st).

(** ** Group 6: quality check *)

Definition json_truthy (j : json) : bool :=
  match j with
  | JNull => false
  | JBool b => b
  | JNum q => num_truthy q
  | JStr s => PyStr.truthy s
  | JArr items => match items with [] => false | _ => true end
  | JObj fields => match fields with [] => false | _ => true end
  end.

Definition json_type_name (j : json) : string :=
  match j with
  | JNull => "NoneType"
  | JBool _ => "bool"
  | JNum _ => "float"
  | JStr _ => "str"
  | JArr _ => "list"
  | JObj _ => "dict"
  end.

(** What the orchestrator reads off the verdict after storing it:
    [qc_result.get(...)], [overall.upper()] and [summary[:100]]. *)
Definition read_verdict (qc_result : json) : outcome unit :=
  match qc_result with
  | JObj fields =>
      let overall := default (JStr "unknown") (PyDict.get "overall_status" fields) in
      let summary := default (JStr EmptyString) (PyDict.get "summary" fields) in
      match overall with
      | JStr _ =>
          if json_truthy summary then
            match summary with
            | JStr _ | JArr _ => Returned tt
            | _ => Raised ("'" +:+ json_type_name summary
                           +:+ "' object is not subscriptable")
            end
          else Returned tt
      | _ => Raised ("'" +:+ json_type_name overall
                     +:+ "' object has no attribute 'upper'")
      end
  | _ => Raised ("'" +:+ json_type_name qc_result +:+ "' object has no attribute 'get'")
  end.

Definition set_today (t : string) (md : metadata) : metadata :=
  {| md_valuation_timestamp := md_valuation_timestamp md;
     md_forecast_date_updated := md_forecast_date_updated md;
     md_transcript_source := md_transcript_source md;
     md_today_date := Some t |}.

(** ** The main generator and its guard *)

Definition initial_state : run_state :=
  {| rs_sections := [];
     rs_metadata :=
       {| md_valuation_timestamp := "N/A";
          md_forecast_date_updated := "N/A";
          md_transcript_source := "N/A";
          md_today_date := None |} |}.

Definition when_selected (key : string) (selected : list string)
    (group : run_state -> gen run_state) (st : run_state) : gen run_state :=
  if PyList.mem key selected then group st else mret st.

Definition _run_orchestrator_inner (w : world) (analyst_name company : string)
    (selected : list string) (memo_store : gmap string memo)
  : gen (gmap string memo) :=
  firm ← await (w_excel_firm w analyst_name);
  yield (EvSteps (_build_steps selected));;
  st1 ← when_selected "bio" selected (bio_group w analyst_name firm) initial_state;
  st2 ← when_selected "forecast" selected (forecast_group w analyst_name firm) st1;
  st3 ← when_selected "earnings" selected (earnings_group w analyst_name firm company) st2;
  st4 ← when_selected "peer" selected (peer_group w analyst_name firm) st3;
  st5 ← when_selected "valuation" selected (valuation_group w) st4;
  yield (EvStepUpdate "quality_check" "running" None);;
  let qc_result :=
    w_run_quality_check w (rs_sections st5) (set_today (w_now_iso w) (rs_metadata st5)) in
  yield (EvQualityCheck qc_result);;
  await (read_verdict qc_result);;
  yield (EvStepUpdate "quality_check" "complete" None);;
  let memo_id := PyStr.slice_to 8 (w_uuid4 w) in
  let memo :=
    {| m_analyst := analyst_name;
       m_firm := firm;
       m_company := company;
       m_date := w_now_long w;
       m_sections := rs_sections st5;
       m_quality_check := Some qc_result |} in
  let memo_store' := <[memo_id := memo]> memo_store in
  yield (EvComplete memo_id);;
  mret memo_store'.

(** [run_orchestrator]: the events sent to the client and the store after
    the run. *)
Definition run_orchestrator (w : world) (analyst_name company : string)
    (selected : list string) (memo_store : gmap string memo)
  : list event * gmap string memo :=
  let inner := _run_orchestrator_inner w analyst_name company selected memo_store in
  match inner.2 with
  | Returned memo_store' => (inner.1, memo_store')
  | Raised e => (inner.1 ++ [EvServerError ("Orchestrator error: " +:+ e)], memo_store)
  end.

(* ===================================================================== *)
(** * agents/orchestrator.py: per-section regeneration *)
(* ===================================================================== *)

(** [memo["sections"][section] = r] *)
Definition set_section (section : string) (r : section_record) (m : memo) : memo :=
  {| m_analyst := m_analyst m;
     m_firm := m_firm m;
     m_company := m_company m;
     m_date := m_date m;
     m_sections := PyDict.set section r (m_sections m);
     m_quality_check := m_quality_check m |}.

(** [existing_section.get("content", ...)], with the empty string as default *)
Definition existing_content (existing : option section_record) : string :=
  match existing with
  | Some (Narrative d _ _) => d_content d
  | _ => EmptyString
  end.

(** [existing_section.get("sources", [])] *)
Definition existing_sources (existing : option section_record) : list source :=
  match existing with
  | Some r => rec_sources r
  | None => []
  end.

(** [existing_section.get("confidence", dflt)] *)
Definition existing_confidence (dflt : confidence) (existing : option section_record)
  : confidence :=
  match existing with
  | Some r => rec_confidence r
  | None => dflt
  end.

(** [existing_section.get("table_rows", [])] *)
Definition existing_rows (existing : option section_record) : list forecast_row :=
  match existing with
  | Some (Forecast f _ _) => fr_table_rows f
  | _ => []
  end.

(** [list(tickers.keys())] of the stored snapshot if it has one, else
    [list(ALL_TICKERS)] *)
Definition existing_tickers_of (existing : option section_record) : list string :=
  match existing with
  | Some (Valuation v _ _ _) =>
      match vr_tickers v with
      | [] => ALL_TICKERS
      | tickers => PyDict.keys tickers
      end
  | _ => ALL_TICKERS
  end.

Definition with_table_rows (rows : list forecast_row) (f : forecast_result)
  : forecast_result :=
  {| fr_analyst_name := fr_analyst_name f;
     fr_firm := fr_firm f;
     fr_date_updated := fr_date_updated f;
     fr_is_stale := fr_is_stale f;
     fr_table_rows := rows;
     fr_rating := fr_rating f;
     fr_price_target := fr_price_target f |}.

(** The record both modes build from a fresh market-data pull. *)
Definition pulled_valuation (w : world) (new_tickers : list string) (v : valuation_result)
  : outcome section_record :=
  match new_tickers with
  | [] => Raised "list index out of range"
  | target :: _ =>
      let tickers_data := vr_tickers v in
      let valuation_sources := valuation_sources_of w v target in
      let n_failures := n_failures_of tickers_data in
      let val_confidence :=
        if (n_failures =? 0)%nat then
          _confidence high
            ("All " +:+ pretty (length tickers_data) +:+ " tickers retrieved")
        else _confidence medium (pretty n_failures +:+ " tickers failed") in
      Returned (Valuation v (Some new_tickers) valuation_sources val_confidence)
  end.

(** What a branch of the regeneration hands back: the memo to keep under the
    session id, or [None] after a [regen_error] and its bare [return]. *)
Definition regen_branch : Type := gen (option memo).

Definition regen_fail (section message : string) : regen_branch :=
  yield (EvRegenError section message);; mret None.

(** ** Draft-only mode *)

Definition draft_only_narrative (w : world) (section instruction current_content : string)
    (m : memo) (existing : option section_record) : regen_branch :=
  let content_to_edit :=
    if PyStr.truthy current_content then current_content else existing_content existing in
  if negb (PyStr.truthy content_to_edit) then
    regen_fail section "No existing content to edit"
  else
    yield (EvRegenStep section "Applying changes with Claude");;
    let edited := edit_section w section content_to_edit instruction in
    let sources := existing_sources existing in
    let confidence :=
      existing_confidence (_confidence medium "Edited section") existing in
    let m' := set_section section (Narrative edited sources confidence) m in
    yield (EvRegenSection section (d_content edited) sources confidence);;
    mret (Some m').

Definition draft_only_forecast (w : world) (section instruction : string)
    (m : memo) (existing : option section_record) : regen_branch :=
  match existing with
  | Some (Forecast f sources confidence) =>
      match fr_table_rows f with
      | [] => regen_fail section "No existing forecast data to edit"
      | rows =>
          result ←
            (if PyStr.truthy instruction then
               yield (EvRegenStep section "Applying changes to forecast table");;
               match w_edit_forecast_table w rows instruction with
               | Some (r :: modified) => mret (with_table_rows (r :: modified) f)
               | _ => mret f
               end
             else mret f);
          let record := Forecast result sources confidence in
          yield (EvRegenForecast record);;
          mret (Some (set_section "forecast" record m))
      end
  | _ => regen_fail section "No existing forecast data to edit"
  end.

Definition draft_only_valuation (w : world) (section instruction : string)
    (m : memo) (existing : option section_record) : regen_branch :=
  let existing_tickers := existing_tickers_of existing in
  let new_tickers := _parse_ticker_changes instruction existing_tickers in
  if bool_decide (new_tickers <> existing_tickers) then
    yield (EvRegenStep section
             ("Pulling data for updated tickers: " +:+ PyStr.join ", " new_tickers));;
    let result := _run_step (Payload <$> get_valuation_data w new_tickers) in
    match result with
    | Payload v =>
        if bool_decide (vr_status v = "success") then
          record ← await (pulled_valuation w new_tickers v);
          yield (EvRegenValuation record);;
          mret (Some (set_section "valuation" record m))
        else regen_fail section "Failed to pull valuation data"
    | ErrorDict _ => regen_fail section "Failed to pull valuation data"
    end
  else
    match existing with
    | Some (Valuation v order sources confidence) =>
        match vr_tickers v with
        | [] => regen_fail section "No existing valuation data"
        | _ => yield (EvRegenValuation (Valuation v order sources confidence));;
               mret (Some m)
        end
    | _ => regen_fail section "No existing valuation data"
    end.

Definition draft_only (w : world) (section instruction current_content : string)
    (m : memo) (existing : option section_record) : regen_branch :=
  if bool_decide (section ∈ ["bio"; "earnings"; "peer"]) then
    draft_only_narrative w section instruction current_content m existing
  else if bool_decide (section = "forecast") then
    draft_only_forecast w section instruction m existing
  else if bool_decide (section = "valuation") then
    draft_only_valuation w section instruction m existing
  else regen_fail section ("Unknown section: " +:+ section).

(** ** Re-search mode *)

Definition research_bio (w : world) (section analyst_name instruction firm : string)
    (m : memo) : regen_branch :=
  yield (EvRegenStep section "Searching for analyst background");;
  let result := _run_step (Returned (Payload (search_analyst_bio w analyst_name firm))) in
  let search_results := get_field br_search_results [] result in
  yield (EvRegenStep section "Drafting bio section with Claude");;
  let search_results_text := format_search_results search_results in
  let bio_section :=
    generate_section w "bio" "analyst_bio"
      [("analyst_name", analyst_name); ("firm", firm);
       ("search_results", search_results_text)] instruction in
  let bio_sources := _top_sources w search_results 5 in
  let n_domains := length bio_sources in
  let bio_confidence :=
    if (3 <=? n_domains)%nat then
      _confidence high (pretty n_domains +:+ " sources found")
    else if (1 <=? n_domains)%nat then
      _confidence medium
        ("Only " +:+ pretty n_domains +:+ " source" +:+ plural n_domains +:+ " found")
    else _confidence low "No web sources found" in
  yield (EvRegenSection "bio" (d_content bio_section) bio_sources bio_confidence);;
  mret (Some (set_section "bio" (Narrative bio_section bio_sources bio_confidence) m)).

Definition research_forecast (w : world) (section analyst_name instruction firm : string)
    (m : memo) : regen_branch :=
  yield (EvRegenStep section "Re-reading forecast from Excel");;
  let result := _run_step (w_read_forecast_data w analyst_name) in
  match result with
  | Payload f =>
      f' ←
        (if PyStr.truthy instruction then
           yield (EvRegenStep section "Applying changes to forecast table");;
           match w_edit_forecast_table w (fr_table_rows f) instruction with
           | Some (r :: modified) => mret (with_table_rows (r :: modified) f)
           | _ => mret f
           end
         else mret f);
      let date_updated := fr_date_updated f' in
      let forecast_sources := forecast_sources_of analyst_name firm date_updated in
      let fc_confidence :=
        if fr_is_stale f' then
          _confidence medium
            ("Data is older than 30 days (updated " +:+ date_updated +:+ ")")
        else _confidence high "Data current" in
      let record := Forecast f' forecast_sources fc_confidence in
      yield (EvRegenForecast record);;
      mret (Some (set_section "forecast" record m))
  | ErrorDict _ => regen_fail section "Failed to read forecast data"
  end.

Definition research_earnings (w : world) (section analyst_name instruction firm : string)
    (m : memo) : regen_branch :=
  yield (EvRegenStep section "Re-fetching earnings transcript");;
  let result : leaf_dict transcript_result :=
    _run_step (Returned (Payload (get_transcript w "MS" "Morgan Stanley"))) in
  let transcript_text := get_field tr_transcript_text EmptyString result in
  let src := get_field tr_source "N/A" result in
  let source_url := get_field tr_source_url EmptyString result in
  let transcript_text' :=
    if negb (PyStr.truthy transcript_text) then unavailable_text else transcript_text in
  yield (EvRegenStep section "Drafting post-earnings feedback");;
  let earnings_section :=
    generate_section w "earnings" "earnings_feedback"
      [("analyst_name", analyst_name); ("firm", firm);
       ("transcript_text", PyStr.slice_to (15 * 1000) transcript_text')] instruction in
  let transcript_sources :=
    if PyStr.truthy transcript_text'
       && negb (PyStr.contains "[not available" transcript_text')
    then [ {| src_domain := src;
              src_url := source_url;
              src_label := "Transcript from " +:+ src |} ]
    else [] in
  let earnings_confidence := _confidence medium "Regenerated section" in
  yield (EvRegenSection "earnings" (d_content earnings_section) transcript_sources
           earnings_confidence);;
  mret (Some (set_section "earnings"
                (Narrative earnings_section transcript_sources earnings_confidence) m)).

Definition research_peer (w : world) (section analyst_name instruction firm : string)
    (m : memo) : regen_branch :=
  yield (EvRegenStep section "Searching for peer commentary");;
  let result :=
    _run_step (Returned (Payload (search_peer_research w analyst_name PEER_TICKERS))) in
  let all_peer_search_results := all_peer_hits result in
  let peer_results_text :=
    format_peer_results (get_field pr_peer_results [] result)
      (get_field pr_sector_results [] result) in
  yield (EvRegenStep section "Drafting peer research summary");;
  let peer_section :=
    generate_section w "peer" "peer_research"
      [("analyst_name", analyst_name); ("firm", firm);
       ("peer_results", peer_results_text)] instruction in
  let peer_sources := _top_sources w all_peer_search_results 5 in
  let n_domains := length peer_sources in
  let peer_confidence :=
    if (2 <=? n_domains)%nat then
      _confidence high ("Commentary from " +:+ pretty n_domains +:+ " sources")
    else if (1 <=? n_domains)%nat then _confidence medium "Limited sources"
    else _confidence low "No peer commentary found" in
  yield (EvRegenSection "peer" (d_content peer_section) peer_sources peer_confidence);;
  mret (Some (set_section "peer" (Narrative peer_section peer_sources peer_confidence) m)).

Definition research_valuation (w : world) (section instruction : string)
    (m : memo) (existing : option section_record) : regen_branch :=
  let existing_tickers := existing_tickers_of existing in
  let new_tickers := _parse_ticker_changes instruction existing_tickers in
  yield (EvRegenStep section
           ("Pulling fresh valuation data for " +:+ PyStr.join ", " new_tickers));;
  let result := _run_step (Payload <$> get_valuation_data w new_tickers) in
  match result with
  | Payload v =>
      if bool_decide (vr_status v = "success") then
        record ← await (pulled_valuation w new_tickers v);
        yield (EvRegenValuation record);;
        mret (Some (set_section "valuation" record m))
      else regen_fail section "Failed to pull valuation data"
  | ErrorDict _ => regen_fail section "Failed to pull valuation data"
  end.

Definition research (w : world) (section analyst_name instruction : string)
    (m : memo) (existing : option section_record) : regen_branch :=
  let firm := m_firm m in
  if bool_decide (section = "bio") then
    research_bio w section analyst_name instruction firm m
  else if bool_decide (section = "forecast") then
    research_forecast w section analyst_name instruction firm m
  else if bool_decide (section = "earnings") then
    research_earnings w section analyst_name instruction firm m
  else if bool_decide (section = "peer") then
    research_peer w section analyst_name instruction firm m
  else if bool_decide (section = "valuation") then
    research_valuation w section instruction m existing
  else regen_fail section ("Unknown section: " +:+ section).

Definition _run_regeneration_inner (w : world) (section analyst_name instruction : string)
    (re_search : bool) (memo_store : gmap string memo) (memo_id current_content : string)
  : gen (gmap string memo) :=
  match memo_store !! memo_id with
  | None =>
      yield (EvRegenError section "Memo not found");;
      mret memo_store
  | Some m =>
      let existing := PyDict.get section (m_sections m) in
      yield (EvRegenStart section);;
      branch ←
        (if negb re_search
         then draft_only w section instruction current_content m existing
         else research w section analyst_name instruction m existing);
      match branch with
      | Some m' =>
          yield (EvRegenComplete section);;
          mret (<[memo_id := m']> memo_store)
      | None => mret memo_store
      end
  end.

(** [run_regeneration]: the events of the section-scoped channel and the
    store after the request. *)
Definition run_regeneration (w : world) (section analyst_name instruction : string)
    (re_search : bool) (memo_store : gmap string memo) (memo_id current_content : string)
  : list event * gmap string memo :=
  let inner :=
    _run_regeneration_inner w section analyst_name instruction re_search memo_store
      memo_id current_content in
  match inner.2 with
  | Returned memo_store' => (inner.1, memo_store')
  | Raised e => (inner.1 ++ [EvRegenError section e], memo_store)
  end.

(* ===================================================================== *)
(** * main.py: the generate endpoint *)
(* ===================================================================== *)

(** [SECTION_IDS if sections == "all" else
     [s.strip() for s in sections.split(",")]] *)
Definition selected_of (sections : string) : list string :=
  if bool_decide (sections = "all") then SECTION_IDS
  else map PyStr.strip (PyStr.split_char ","%char sections).

(** [generate_memo]: the events streamed to the client and the store
    after the request. *)
Definition generate_memo (w : world) (analyst company sections : string)
    (memo_store : gmap string memo) : list event * gmap string memo :=
  run_orchestrator w analyst company (selected_of sections) memo_store.

(* ===================================================================== *)
(** * agents/sec_edgar.py: the five tiers *)
(* ===================================================================== *)

(** A [requests.Response]: its status code, its text, and what [.json()]
    gives (it raises on a body that is not JSON). *)
Record response : Type := {
  status_code : nat;
  resp_text : string;
  resp_json : outcome json;
}.

(** The network and the file system as the tiers reach them.  Request
    headers and timeouts are left out; a parsed JSON object holds each key
    once. *)
Record net : Type := {
  (* requests.get(url, params=params) *)
  net_get : string -> list (string * string) -> outcome response;
  (* DDGS().text(query, max_results) *)
  net_ddgs : string -> nat -> outcome (list search_hit);
  (* the text of the article element BeautifulSoup finds in a page, if any *)
  net_article : string -> outcome (option string);
  (* str(x) of a parsed JSON value that is not a string, inside an f-string *)
  net_str : json -> string;
  (* TRANSCRIPT_PATH: None when the file does not exist, else read_text() *)
  net_local : option (outcome string);
  (* FMP_API_KEY *)
  net_fmp_key : string;
}.

(** [try: ... except Exception: log] followed by [return None, ""] *)
Definition or_nothing (o : outcome tier_outcome) : tier_outcome :=
  match o with
  | Returned t => t
  | Raised _ => (None, EmptyString)
  end.

(** [j.get(key, dflt)]: only a dict has [get]. *)
Definition json_get (j : json) (key : string) (dflt : json) : outcome json :=
  match j with
  | JObj fields => Returned (default dflt (PyDict.get key fields))
  | _ => Raised ("'" +:+ json_type_name j +:+ "' object has no attribute 'get'")
  end.

(** [for x in j]: a list gives its items, a dict its keys, a string its
    characters; nothing else can be iterated. *)
Definition json_iter (j : json) : outcome (list json) :=
  match j with
  | JArr items => Returned items
  | JObj fields => Returned (map (fun kv => JStr kv.1) fields)
  | JStr s => Returned (map (fun c => JStr (String c EmptyString)) (PyStr.chars s))
  | _ => Raised ("'" +:+ json_type_name j +:+ "' object is not iterable")
  end.

(** [j[i]] for an integer [i] *)
Definition json_index (j : json) (i : nat) : outcome json :=
  match j with
  | JArr items =>
      match items !! i with
      | Some x => Returned x
      | None => Raised "list index out of range"
      end
  | JStr s =>
      match PyStr.chars s !! i with
      | Some c => Returned (JStr (String c EmptyString))
      | None => Raised "string index out of range"
      end
  | JObj _ => Raised (pretty i)
  | _ => Raised ("'" +:+ json_type_name j +:+ "' object is not subscriptable")
  end.

(** [j.replace(old, new)]: only a string has [replace]. *)
Definition json_replace (j : json) (old new : string) : outcome string :=
  match j with
  | JStr s => Returned (PyStr.replace old new s)
  | _ => Raised ("'" +:+ json_type_name j +:+ "' object has no attribute 'replace'")
  end.

(** [{j}] inside an f-string *)
Definition fstr (n : net) (j : json) : string :=
  match j with
  | JStr s => s
  | _ => net_str n j
  end.

(** [cik.lstrip('0')] *)
Fixpoint lstrip_zeros_chars (l : list ascii) : list ascii :=
  match l with
  | c :: l' => if ascii_dec c "0"%char then lstrip_zeros_chars l' else l
  | [] => []
  end.

Definition lstrip_zeros (s : string) : string :=
  PyStr.of_chars (lstrip_zeros_chars (PyStr.chars s)).

(** [_fetch_url]: the response when the status is 200; None otherwise and
    when the request raises. *)
Definition _fetch_url (n : net) (url : string) : option response :=
  match net_get n url [] with
  | Returned resp => if (status_code resp =? 200)%nat then Some resp else None
  | Raised _ => None
  end.

(** [_fetch_url] on a parsed JSON value: [requests] raises on a URL that is
    no string, which [_fetch_url] turns into None. *)
Definition fetch_json_url (n : net) (url : json) : option (string * response) :=
  match url with
  | JStr u => (fun resp => (u, resp)) <$> _fetch_url n u
  | _ => None
  end.

(** ** Tier 1 *)

Definition efts_params (company_name : string) : list (string * string) :=
  [ ("q", dq +:+ "question-and-answer" +:+ dq +:+ " " +:+ dq +:+ company_name +:+ dq);
    ("forms", "8-K");
    ("dateRange", "custom");
    ("startdt", "2024-01-01");
    ("enddt", "2026-12-31") ].

Fixpoint efts_loop (n : net) (hits : list json) : outcome tier_outcome :=
  match hits with
  | [] => Returned (None, EmptyString)
  | hit :: rest =>
      source ← json_get hit "_source" (JObj []);
      file_url ← json_get source "file_url" JNull;
      if json_truthy file_url then
        match fetch_json_url n file_url with
        | Some (u, content_resp) =>
            let lowered := PyStr.lower (resp_text content_resp) in
            if PyStr.contains "question" lowered && PyStr.contains "answer" lowered
            then Returned (Some (resp_text content_resp), u)
            else efts_loop n rest
        | None => efts_loop n rest
        end
      else efts_loop n rest
  end.

Definition _search_efts (n : net) (company_name : string) : tier_outcome :=
  or_nothing
    (resp ← net_get n "https://efts.sec.gov/LATEST/search-index" (efts_params company_name);
     if negb (status_code resp =? 200)%nat then Returned (None, EmptyString)
     else
       data ← resp_json resp;
       outer ← json_get data "hits" (JObj []);
       hits ← json_get outer "hits" (JArr []);
       items ← json_iter hits;
       efts_loop n items).

(** ** Tier 2 *)

Definition is_8k (form : json) : bool :=
  match form with
  | JStr s => bool_decide (s = "8-K")
  | _ => false
  end.

Definition mentions_qa (text : string) : bool :=
  PyStr.contains "question-and-answer" (PyStr.lower text)
  || PyStr.contains "q&a session" (PyStr.lower text).

Definition filing_url (n : net) (cik accession : string) (primary_doc : json) : string :=
  "https://www.sec.gov/Archives/edgar/data/" +:+ lstrip_zeros cik +:+ "/"
  +:+ accession +:+ "/" +:+ fstr n primary_doc.

(** The loop over [enumerate(forms)], from index [i] on. *)
Fixpoint submissions_loop (n : net) (cik : string) (accessions primary_docs : json)
    (forms : list json) (i : nat) : outcome tier_outcome :=
  match forms with
  | [] => Returned (None, EmptyString)
  | form :: rest =>
      if negb (is_8k form) || (10 <=? i)%nat then Returned (None, EmptyString)
      else
        a ← json_index accessions i;
        accession ← json_replace a "-" EmptyString;
        primary_doc ← json_index primary_docs i;
        let index_url := filing_url n cik accession primary_doc in
        match _fetch_url n index_url with
        | None => submissions_loop n cik accessions primary_docs rest (S i)
        | Some filing_resp =>
            let text := resp_text filing_resp in
            if mentions_qa text then Returned (Some text, index_url)
            else submissions_loop n cik accessions primary_docs rest (S i)
        end
  end.

Definition _search_submissions (n : net) (cik : string) : tier_outcome :=
  match _fetch_url n ("https://data.sec.gov/submissions/CIK" +:+ cik +:+ ".json") with
  | None => (None, EmptyString)
  | Some resp =>
      or_nothing
        (data ← resp_json resp;
         filings ← json_get data "filings" (JObj []);
         recent ← json_get filings "recent" (JObj []);
         forms ← json_get recent "form" (JArr []);
         accessions ← json_get recent "accessionNumber" (JArr []);
         primary_docs ← json_get recent "primaryDocument" (JArr []);
         items ← json_iter forms;
         submissions_loop n cik accessions primary_docs items 0)
  end.

(** ** Tier 3 *)

Definition fmp_url (ticker : string) : string :=
  "https://financialmodelingprep.com/api/v3/earning_call_transcript/" +:+ ticker.

Definition fmp_header (n : net) (ticker : string) (quarter year date : json) : string :=
  "Morgan Stanley (" +:+ ticker +:+ ") Q" +:+ fstr n quarter +:+ " " +:+ fstr n year
  +:+ " Earnings Call Transcript" +:+ nl
  +:+ "Date: " +:+ fstr n date +:+ nl
  +:+ "Source: Financial Modeling Prep API" +:+ nl
  +:+ PyStr.of_chars (replicate 60 "="%char) +:+ nl +:+ nl.

Definition _search_fmp (n : net) (ticker : string) : tier_outcome :=
  if negb (PyStr.truthy (net_fmp_key n)) then (None, EmptyString)
  else
    or_nothing
      (resp ← net_get n (fmp_url ticker) [("apikey", net_fmp_key n)];
       if negb (status_code resp =? 200)%nat then Returned (None, EmptyString)
       else
         data ← resp_json resp;
         match data with
         | JArr (transcript :: _) =>
             content ← json_get transcript "content" (JStr EmptyString);
             quarter ← json_get transcript "quarter" (JStr "?");
             year ← json_get transcript "year" (JStr "?");
             date ← json_get transcript "date" (JStr EmptyString);
             match content with
             | JStr text =>
                 if PyStr.truthy text && (500 <? PyStr.len text)%nat then
                   Returned
                     (Some (fmp_header n ticker quarter year date +:+ text),
                      fmp_url ticker +:+ "?quarter=" +:+ fstr n quarter
                      +:+ "&year=" +:+ fstr n year)
                 else Returned (None, EmptyString)
             (* a content that is no string is falsy, or has no len(), or
                cannot be appended to the header *)
             | _ => Returned (None, EmptyString)
             end
         | _ => Returned (None, EmptyString)
         end).

(** ** Tier 4 *)

Definition transcript_sites : list string :=
  ["seekingalpha.com"; "fool.com"; "gurufocus.com"].

Definition web_queries (company_name ticker : string) : list string :=
  [ dq +:+ company_name +:+ dq +:+ " earnings call transcript Q&A 2025 OR 2026";
    ticker +:+ " earnings call transcript " +:+ dq +:+ "question-and-answer" +:+ dq ].

(** The loop over the results of one query: the first page of a known site
    whose article mentions a question and is long enough. *)
Fixpoint web_results_loop (n : net) (results : list search_hit)
  : outcome (option (string * string)) :=
  match results with
  | [] => Returned None
  | r :: rest =>
      let url := hit_href r in
      if existsb (fun domain => PyStr.contains domain url) transcript_sites then
        match _fetch_url n url with
        | Some page_resp =>
            article ← net_article n (resp_text page_resp);
            match article with
            | Some text =>
                if PyStr.contains "question" (PyStr.lower text)
                   && (1000 <? PyStr.len text)%nat
                then Returned (Some (text, url))
                else web_results_loop n rest
            | None => web_results_loop n rest
            end
        | None => web_results_loop n rest
        end
      else web_results_loop n rest
  end.

(** The loop over the queries; a query that raises is skipped. *)
Fixpoint web_queries_loop (n : net) (queries : list string) : tier_outcome :=
  match queries with
  | [] => (None, EmptyString)
  | query :: rest =>
      match results ← net_ddgs n query 5; web_results_loop n results with
      | Returned (Some (text, url)) => (Some text, url)
      | _ => web_queries_loop n rest
      end
  end.

Definition _search_transcript_web (n : net) (company_name ticker : string)
  : tier_outcome :=
  web_queries_loop n (web_queries company_name ticker).

(** ** Tier 5 *)

Definition _read_local_transcript (n : net) : tier_outcome :=
  match net_local n with
  | Some (Returned text) =>
      if PyStr.truthy text && (100 <? PyStr.len text)%nat
      then (Some text, "Local file (ms_transcript.txt)")
      else (None, EmptyString)
  | _ => (None, EmptyString)
  end.

(** The world whose five tiers are the functions above. *)
Definition with_tiers (n : net) (w : world) : world :=
  {| w_excel_firm := w_excel_firm w;
     w_read_forecast_data := w_read_forecast_data w;
     w_ddgs_text := w_ddgs_text w;
     w_search_efts := _search_efts n;
     w_search_submissions := _search_submissions n;
     w_search_fmp := _search_fmp n;
     w_search_transcript_web := _search_transcript_web n;
     w_read_local_transcript := _read_local_transcript n;
     w_yf_info := w_yf_info w;
     w_round2 := w_round2 w;
     w_billions := w_billions w;
     w_median_2dp := w_median_2dp w;
     w_fmt_2f := w_fmt_2f w;
     w_generate := w_generate w;
     w_edit := w_edit w;
     w_edit_forecast_table := w_edit_forecast_table w;
     w_run_quality_check := w_run_quality_check w;
     w_netloc := w_netloc w;
     w_uuid4 := w_uuid4 w;
     w_now_long := w_now_long w;
     w_now_et := w_now_et w;
     w_now_iso := w_now_iso w;
     w_peer_date := w_peer_date w |}.

(* ===================================================================== *)
(** * Vocabulary of the properties *)
(* ===================================================================== *)

(** The attempt that tier [k] of the transcript chain stands for, when the
    chain has one: tier 2 exists only for a ticker with a configured CIK. *)
Definition tier_attempt (w : world) (ticker company_name : string) (k : nat)
  : option tier_outcome :=
  match k with
  | 1 => Some (w_search_efts w company_name)
  | 2 =>
      match PyDict.get ticker COMPANY_CIKS with
      | Some c => if PyStr.truthy c then Some (w_search_submissions w c) else None
      | None => None
      end
  | 3 => Some (w_search_fmp w ticker)
  | 4 => Some (w_search_transcript_web w company_name ticker)
  | 5 => Some (w_read_local_transcript w)
  | _ => None
  end.

Definition tier_succeeds (w : world) (ticker company_name : string) (k : nat) : bool :=
  match tier_attempt w ticker company_name k with
  | Some t => has_text t
  | None => false
  end.

(** The ordered attempts of one resolution. *)
Definition tier_chain (w : world) (ticker company_name : string) : list nat :=
  filter (fun k => is_Some (tier_attempt w ticker company_name k)) (seq 1 5).

(** The two events that end the main channel. *)
Definition is_terminal (e : event) : bool :=
  match e with
  | EvComplete _ | EvServerError _ => true
  | _ => false
  end.

(** [e] is the source built from the hit at index [i] of [hits], and no
    earlier hit with a URL has its domain. *)
Definition first_of_domain (w : world) (hits : list search_hit) (i : nat) (e : source)
  : Prop :=
  ∃ r, hits !! i = Some r
       ∧ hit_href r ≠ EmptyString
       ∧ e = source_of_hit r (hit_href r) (_extract_domain w (hit_href r))
       ∧ ∀ p r', (p < i)%nat → hits !! p = Some r' → hit_href r' ≠ EmptyString →
                 _extract_domain w (hit_href r') ≠ src_domain e.

(** A world for examples: the five tiers, the quote feed, the two drafting
    calls, the quality verdict and the spreadsheet are given; searches find
    nothing and the numeric primitives are identities. *)
Definition scenario (efts subs fmp web local : tier_outcome)
    (yf : string -> outcome (PyDict.t Q)) (edit generate : outcome string)
    (verdict : json) (excel : outcome string) : world :=
  {| w_excel_firm := fun _ => excel;
     w_read_forecast_data := fun _ => Raised "no spreadsheet";
     w_ddgs_text := fun _ _ => Raised "offline";
     w_search_efts := fun _ => efts;
     w_search_submissions := fun _ => subs;
     w_search_fmp := fun _ => fmp;
     w_search_transcript_web := fun _ _ => web;
     w_read_local_transcript := local;
     w_yf_info := yf;
     w_round2 := fun x => x;
     w_billions := fun x => x;
     w_median_2dp := fun l => Returned (default 0%Q (head l));
     w_fmt_2f := fun _ => "0.00";
     w_generate := fun _ _ _ _ => generate;
     w_edit := fun _ _ _ => edit;
     w_edit_forecast_table := fun _ _ => None;
     w_run_quality_check := fun _ _ => verdict;
     w_netloc := fun url => Returned url;
     w_uuid4 := "0f8fad5b-d9cb-469f-a165-70867728950e";
     w_now_long := "November 03, 2026";
     w_now_et := "2026-11-03 09:30 ET";
     w_now_iso := "2026-11-03";
     w_peer_date := fun _ => None |}.

Definition no_text : tier_outcome := (None, EmptyString).

Definition offline : world :=
  scenario no_text no_text no_text no_text no_text
    (fun _ => Raised "offline") (Raised "offline") (Raised "offline")
    (JObj [("overall_status", JStr "pass")]) (Returned "Wells Fargo").

(** [gen_spec m Q E]: if [m] returns [a] after the events [evs] then
    [Q evs a]; if it raises [e] after [evs] then [E evs e]. *)
Definition gen_spec {A} (m : gen A) (Q : list event -> A -> Prop)
    (E : list event -> string -> Prop) : Prop :=
  match m.2 with
  | Returned a => Q m.1 a
  | Raised e => E m.1 e
  end.

(** The working copy still starts with the subject symbol [t]. *)
Definition keeps_head (t : string) (st : edit_state) : Prop := ∃ l, st.1 = t :: l.

(** A world in which only the FMP tier has a transcript. *)
Definition only_fmp_answers : world :=
  scenario no_text no_text (Some "Operator: Good morning.", "https://fmp.example/MS")
    no_text no_text (fun _ => Raised "offline") (Raised "offline") (Raised "offline")
    JNull (Returned "Wells Fargo").

(** The draft the earnings group asks for when no transcript was found. *)
Definition unavailable_draft (w : world) (analyst_name firm : string) : draft :=
  generate_section w "earnings" "earnings_feedback"
    [("analyst_name", analyst_name); ("firm", firm);
     ("transcript_text", unavailable_text)] EmptyString.

(** [seen] holds exactly the domains of the hits of [pre] that have a URL. *)
Definition seen_domains (w : world) (pre : list search_hit) (seen : gset string) : Prop :=
  ∀ d, d ∈ seen ↔ ∃ r, r ∈ pre ∧ hit_href r ≠ EmptyString
                        ∧ _extract_domain w (hit_href r) = d.

(** The branch taken by a regeneration request. *)
Definition regen_dispatch (w : world) (section analyst_name instruction : string)
    (re_search : bool) (current_content : string) (m : memo) : regen_branch :=
  let existing := PyDict.get section (m_sections m) in
  if negb re_search
  then draft_only w section instruction current_content m existing
  else research w section analyst_name instruction m existing.

(** The content stored for [section] in session [memo_id], if any. *)
Definition stored_content (memo_store : gmap string memo) (memo_id section : string)
  : option string :=
  m ← memo_store !! memo_id;
  r ← PyDict.get section (m_sections m);
  Some (existing_content (Some r)).

(** An error event of the section-scoped channel was sent. *)
Definition reports_error (evs : list event) : Prop :=
  ∃ section message, EvRegenError section message ∈ evs.

(** A stored session with a generated bio and earnings section. *)
Definition stored_bio : section_record :=
  Narrative {| d_section := "bio"; d_content := "Original bio."; d_status := "success" |}
    [ {| src_url := "https://example.com/mayo"; src_domain := "example.com";
         src_label := "Profile" |} ]
    (_confidence medium "Only 1 source found").

Definition stored_earnings : section_record :=
  Narrative {| d_section := "earnings"; d_content := "Original analysis.";
               d_status := "success" |}
    [] (_confidence low "Transcript not available").

Definition stored_memo : memo :=
  {| m_analyst := "Mike Mayo";
     m_firm := "Wells Fargo";
     m_company := "MS";
     m_date := "November 03, 2026";
     m_sections := [("bio", stored_bio); ("earnings", stored_earnings)];
     m_quality_check := Some (JObj [("overall_status", JStr "pass")]) |}.

Definition one_session : gmap string memo := {[ "0f8fad5b" := stored_memo ]}.

(** The result of a pull that returned. *)
Definition pulled (o : outcome valuation_result) : valuation_result :=
  match o with
  | Returned v => v
  | Raised _ =>
      {| vr_status := "error"; vr_tickers := []; vr_as_of := EmptyString;
         vr_peer_median := [] |}
  end.

(** A stored session whose valuation snapshot covers MS, GS and JPM. *)
Definition stored_valuation : section_record :=
  Valuation (pulled (get_valuation_data offline ["MS"; "GS"; "JPM"])) None
    [ {| src_url := EmptyString; src_domain := "Yahoo Finance API";
         src_label := "Real-time data — MS: N/A (as of 2026-11-03 09:30 ET)" |} ]
    (_confidence low "Major data gaps — 3 tickers failed").

Definition valued_memo : memo :=
  {| m_analyst := "Mike Mayo";
     m_firm := "Wells Fargo";
     m_company := "MS";
     m_date := "November 03, 2026";
     m_sections := [("bio", stored_bio); ("valuation", stored_valuation)];
     m_quality_check := Some (JObj [("overall_status", JStr "pass")]) |}.

Definition valued_session : gmap string memo := {[ "0f8fad5b" := valued_memo ]}.

(** What a re-search branch hands back, as a function of the record it built. *)
Definition attach (section : string) (m : memo) (o : outcome (option section_record))
  : outcome (option memo) :=
  match o with
  | Returned (Some r) => Returned (Some (set_section section r m))
  | Returned None => Returned None
  | Raised e => Raised e
  end.

(** No event of [evs] ends the channel. *)
Definition quiet (evs : list event) : Prop := Forall (fun e => is_terminal e = false) evs.

(** [m] sends no terminal event, and its value satisfies [Q] if it returns. *)
Definition quiet_gen {A} (m : gen A) (Q : A -> Prop) : Prop :=
  gen_spec m (fun evs a => quiet evs ∧ Q a) (fun evs _ => quiet evs).

(** [m] sends no terminal event if it raises; if it returns, its last event
    is [complete] with [memo_id], the only terminal one, and its value
    satisfies [Q]. *)
Definition completing_gen {A} (memo_id : string) (m : gen A) (Q : A -> Prop) : Prop :=
  gen_spec m
    (fun evs a => ∃ pre, evs = pre ++ [EvComplete memo_id] ∧ quiet pre ∧ Q a)
    (fun evs _ => quiet evs).

(** The group stores one record under [key] and changes no other key. *)
Definition stores_under (key : string) (st st' : run_state) : Prop :=
  ∃ r, rs_sections st' = PyDict.set key r (rs_sections st).

(** The effect of the group of [key] on the run state: one record stored
    under [key] when it is selected, nothing otherwise. *)
Definition group_effect (key : string) (selected : list string)
    (st st' : run_state) : Prop :=
  if decide (key ∈ selected) then stores_under key st st' else st' = st.

(** What a completed run leaves in the store under [memo_id]: the memo
    assembled from the states the five groups went through. *)
Definition persisted (w : world) (analyst_name company : string) (selected : list string)
    (memo_store : gmap string memo) (memo_id : string) (memo_store' : gmap string memo)
  : Prop :=
  ∃ firm st1 st2 st3 st4 st5 md,
    group_effect "bio" selected initial_state st1
    ∧ group_effect "forecast" selected st1 st2
    ∧ group_effect "earnings" selected st2 st3
    ∧ (when_selected "earnings" selected
         (earnings_group w analyst_name firm company) st2).2 = Returned st3
    ∧ group_effect "peer" selected st3 st4
    ∧ group_effect "valuation" selected st4 st5
    ∧ memo_store'
      = <[memo_id :=
            {| m_analyst := analyst_name;
               m_firm := firm;
               m_company := company;
               m_date := w_now_long w;
               m_sections := rs_sections st5;
               m_quality_check :=
                 Some (w_run_quality_check w (rs_sections st5) md) |}]> memo_store.

(** A world whose spreadsheet cannot be read, and one whose quality check
    answers with a JSON array instead of an object. *)
Definition no_spreadsheet : world :=
  scenario no_text no_text no_text no_text no_text
    (fun _ => Raised "offline") (Raised "offline") (Raised "offline")
    (JObj [("overall_status", JStr "pass")]) (Raised "No such file: analyst_key_metrics.xlsx").

Definition verdict_is_a_list : world :=
  scenario no_text no_text no_text no_text no_text
    (fun _ => Raised "offline") (Raised "offline") (Raised "offline")
    (JArr [JStr "pass"]) (Returned "Wells Fargo").

(** The two events that end the section-scoped channel. *)
Definition is_regen_terminal (e : event) : bool :=
  match e with
  | EvRegenComplete _ | EvRegenError _ _ => true
  | _ => false
  end.

(** No event of [evs] ends the section-scoped channel. *)
Definition regen_quiet (evs : list event) : Prop :=
  Forall (fun e => is_regen_terminal e = false) evs.

(** How a branch of the regeneration can end: with a memo to keep and no
    terminal event, with a bare return right after a [regen_error], or with
    a fault and no terminal event. *)
Definition branch_shape (section : string) (b : regen_branch) : Prop :=
  match b.2 with
  | Returned (Some _) => regen_quiet b.1
  | Returned None =>
      ∃ pre message, b.1 = pre ++ [EvRegenError section message] ∧ regen_quiet pre
  | Raised _ => regen_quiet b.1
  end.

(** A stored session with a forecast of two rows. *)
Definition stored_forecast : section_record :=
  Forecast
    {| fr_analyst_name := "Mike Mayo";
       fr_firm := "Wells Fargo";
       fr_date_updated := "October 20, 2026";
       fr_is_stale := false;
       fr_table_rows :=
         [ {| row_label := "EPS"; row_indent := 0; row_analyst := Some 2%Q;
              row_consensus := Some 2%Q; row_delta := Some "0.0%";
              row_bold := false; row_highlight := false |};
           {| row_label := "ROE"; row_indent := 0; row_analyst := None;
              row_consensus := Some 15%Q; row_delta := Some "[Value unavailable]";
              row_bold := false; row_highlight := false |} ];
       fr_rating := "Overweight";
       fr_price_target := None |}
    (forecast_sources_of "Mike Mayo" "Wells Fargo" "October 20, 2026")
    (_confidence high "Data current, 1 missing values").

Definition forecast_memo : memo :=
  {| m_analyst := "Mike Mayo";
     m_firm := "Wells Fargo";
     m_company := "MS";
     m_date := "November 03, 2026";
     m_sections := [("bio", stored_bio); ("forecast", stored_forecast)];
     m_quality_check := Some (JObj [("overall_status", JStr "pass")]) |}.

Definition forecast_session : gmap string memo := {[ "0f8fad5b" := forecast_memo ]}.

(** The accumulators of [search_analyst_bio] are consistent: the hits kept
    have pairwise distinct, non-empty URLs, [seen] holds exactly those
    URLs, and every hit kept was returned by some search of [found]. *)
Definition hits_collected (found : list search_hit) (st : list search_hit * gset string)
  : Prop :=
  NoDup (map hit_href st.1)
  ∧ (∀ u, u ∈ st.2 ↔ u ∈ map hit_href st.1)
  ∧ (∀ r, r ∈ st.1 -> hit_href r ≠ EmptyString ∧ r ∈ found)
  ∧ (∀ r, r ∈ found -> hit_href r ≠ EmptyString -> hit_href r ∈ st.2).

(** A world whose web search answers the same two hits, one of them twice,
    to every query. *)
Definition two_hits : list search_hit :=
  [ {| hit_title := "Mike Mayo"; hit_body := "Profile";
       hit_href := "https://www.example.com/mayo" |};
    {| hit_title := "Mayo on banks"; hit_body := "Interview";
       hit_href := "https://news.example.org/mayo" |};
    {| hit_title := "Mike Mayo (copy)"; hit_body := "Profile";
       hit_href := "https://www.example.com/mayo" |} ].

Definition searchable : world :=
  {| w_excel_firm := w_excel_firm offline;
     w_read_forecast_data := w_read_forecast_data offline;
     w_ddgs_text := fun _ _ => Returned two_hits;
     w_search_efts := w_search_efts offline;
     w_search_submissions := w_search_submissions offline;
     w_search_fmp := w_search_fmp offline;
     w_search_transcript_web := w_search_transcript_web offline;
     w_read_local_transcript := w_read_local_transcript offline;
     w_yf_info := w_yf_info offline;
     w_round2 := w_round2 offline;
     w_billions := w_billions offline;
     w_median_2dp := w_median_2dp offline;
     w_fmt_2f := w_fmt_2f offline;
     w_generate := w_generate offline;
     w_edit := w_edit offline;
     w_edit_forecast_table := w_edit_forecast_table offline;
     w_run_quality_check := w_run_quality_check offline;
     w_netloc := w_netloc offline;
     w_uuid4 := w_uuid4 offline;
     w_now_long := w_now_long offline;
     w_now_et := w_now_et offline;
     w_now_iso := w_now_iso offline;
     w_peer_date := w_peer_date offline |}.

(** Two worlds answer alike wherever the main run looks whatever was
    selected: the spreadsheet lookup, the quality check, the session id
    and the clock. *)
Definition same_common_leaves (w w' : world) : Prop :=
  w_excel_firm w = w_excel_firm w'
  ∧ w_run_quality_check w = w_run_quality_check w'
  ∧ w_uuid4 w = w_uuid4 w'
  ∧ w_now_long w = w_now_long w'
  ∧ w_now_iso w = w_now_iso w'.

(** Two worlds answer alike to the leaves of the section [key]. *)
Definition same_leaves_of (key : string) (w w' : world) : Prop :=
  if decide (key = "bio") then
    w_ddgs_text w = w_ddgs_text w' ∧ w_netloc w = w_netloc w'
    ∧ w_generate w = w_generate w'
  else if decide (key = "forecast") then
    w_read_forecast_data w = w_read_forecast_data w'
  else if decide (key = "earnings") then
    w_search_efts w = w_search_efts w'
    ∧ w_search_submissions w = w_search_submissions w'
    ∧ w_search_fmp w = w_search_fmp w'
    ∧ w_search_transcript_web w = w_search_transcript_web w'
    ∧ w_read_local_transcript w = w_read_local_transcript w'
    ∧ w_generate w = w_generate w'
  else if decide (key = "peer") then
    w_ddgs_text w = w_ddgs_text w' ∧ w_netloc w = w_netloc w'
    ∧ w_generate w = w_generate w' ∧ w_peer_date w = w_peer_date w'
  else if decide (key = "valuation") then
    w_yf_info w = w_yf_info w' ∧ w_round2 w = w_round2 w'
    ∧ w_billions w = w_billions w' ∧ w_median_2dp w = w_median_2dp w'
    ∧ w_fmt_2f w = w_fmt_2f w' ∧ w_now_et w = w_now_et w'
  else True.

(** A world in which only the bundled transcript file can be read. *)
Definition bundled_only : world :=
  scenario no_text no_text no_text no_text
    (Some "Operator: Our next question comes from Mike Mayo.", "Local file (transcript.txt)")
    (fun _ => Raised "offline") (Raised "offline") (Raised "offline")
    (JObj [("overall_status", JStr "pass")]) (Returned "Wells Fargo").

(** The payload event that carries a stored record to the client; a record
    of the unavailable shape has none. *)
Definition payload_event (key : string) (r : section_record) : option event :=
  match r with
  | Narrative d sources conf => Some (EvSection key (d_content d) sources conf)
  | Forecast _ _ _ => Some (EvForecast r)
  | Valuation _ _ _ _ => Some (EvValuation r)
  | Unavailable _ _ _ => None
  end.

Definition is_payload (e : event) : bool :=
  match e with
  | EvSection _ _ _ _ | EvForecast _ | EvValuation _ => true
  | _ => false
  end.

Definition payloads (sections : PyDict.t section_record) : list event :=
  omap (fun kr => payload_event kr.1 kr.2) sections.

(** The events that close a completed run. *)
Definition closing_events (qc_result : json) (memo_id : string) : list event :=
  [ EvStepUpdate "quality_check" "running" None;
    EvQualityCheck qc_result;
    EvStepUpdate "quality_check" "complete" None;
    EvComplete memo_id ].

(** A completed run, phase by phase: the firm looked up, the events and
    the state each of the five groups leaves, the verdict, and from these
    the events sent and the store. *)
Definition completed_as (w : world) (analyst_name company : string)
    (selected : list string) (memo_store : gmap string memo)
    (run : list event * gmap string memo) : Prop :=
  ∃ firm evs1 st1 evs2 st2 evs3 st3 evs4 st4 evs5 st5,
    w_excel_firm w analyst_name = Returned firm
    ∧ when_selected "bio" selected (bio_group w analyst_name firm) initial_state
      = (evs1, Returned st1)
    ∧ when_selected "forecast" selected (forecast_group w analyst_name firm) st1
      = (evs2, Returned st2)
    ∧ when_selected "earnings" selected (earnings_group w analyst_name firm company) st2
      = (evs3, Returned st3)
    ∧ when_selected "peer" selected (peer_group w analyst_name firm) st3
      = (evs4, Returned st4)
    ∧ when_selected "valuation" selected (valuation_group w) st4 = (evs5, Returned st5)
    ∧ let qc_result :=
        w_run_quality_check w (rs_sections st5)
          (set_today (w_now_iso w) (rs_metadata st5)) in
      let memo_id := PyStr.slice_to 8 (w_uuid4 w) in
      read_verdict qc_result = Returned tt
      ∧ run = (EvSteps (_build_steps selected)
                 :: evs1 ++ evs2 ++ evs3 ++ evs4 ++ evs5
                 ++ closing_events qc_result memo_id,
               <[memo_id := {| m_analyst := analyst_name;
                               m_firm := firm;
                               m_company := company;
                               m_date := w_now_long w;
                               m_sections := rs_sections st5;
                               m_quality_check := Some qc_result |}]> memo_store).

(** The payload events of one record, as a list. *)
Definition payload_of (key : string) (r : section_record) : list event :=
  match payload_event key r with
  | Some e => [e]
  | None => []
  end.

(** What running the group of [key], if selected, does: nothing, or one
    record stored under [key] and that record's payload sent, once. *)
Definition group_sends (key : string) (st : run_state) (evs : list event)
    (st' : run_state) : Prop :=
  (rs_sections st' = rs_sections st ∧ evs = [])
  ∨ ∃ r, rs_sections st' = PyDict.set key r (rs_sections st)
         ∧ List.filter is_payload evs = payload_of key r.

(** The step and status of a step update. *)
Definition step_status (e : event) : option (string * string) :=
  match e with
  | EvStepUpdate step status _ => Some (step, status)
  | _ => None
  end.

(** The sub-steps of a plan, in plan order. *)
Definition plan_children (plan : list step_node) : list string :=
  concat (map (fun n => map fst (step_children n)) plan).

(** The statuses reported for [step], in order. *)
Definition statuses_of (step : string) (updates : list (string * string)) : list string :=
  map snd (filter (fun u => u.1 = step) updates).

(** The updates of the forecast group and of the earnings group, by
    whether the leaf gave data. *)
Definition forecast_updates (ok : bool) : list (string * string) :=
  if ok then
    [ ("forecast_read", "running"); ("forecast_read", "complete");
      ("forecast_deltas", "running"); ("forecast_deltas", "complete") ]
  else
    [ ("forecast_read", "running"); ("forecast_read", "error");
      ("forecast_deltas", "error") ].

Definition earnings_updates (ok : bool) : list (string * string) :=
  [ ("transcript_fetch", "running");
    ("transcript_fetch", if ok then "complete" else "error");
    ("transcript_extract", "running"); ("transcript_extract", "complete");
    ("earnings_draft", "running"); ("earnings_draft", "complete") ].

(** The record the group of [key] stores, by shape: a narrative drafted
    for that section, the payload of the forecast reader or of the market
    data pull, or the record of the failure of one of these two. *)
Definition shape_of (w : world) (analyst_name : string) (key : string)
    (r : section_record) : Prop :=
  match r with
  | Narrative d _ _ => key ∈ ["bio"; "earnings"; "peer"] ∧ d_section d = key
  | Forecast f _ _ =>
      key = "forecast" ∧ _run_step (w_read_forecast_data w analyst_name) = Payload f
  | Valuation v ticker_order _ _ =>
      key = "valuation" ∧ ticker_order = None
      ∧ get_valuation_data w ALL_TICKERS = Returned v
  | Unavailable e sources conf =>
      sources = []
      ∧ ((key = "forecast"
          ∧ _run_step (w_read_forecast_data w analyst_name) = ErrorDict e
          ∧ conf = _confidence low "Forecast data unavailable")
         ∨ (key = "valuation"
            ∧ get_valuation_data w ALL_TICKERS = Raised e
            ∧ conf = _confidence low "Valuation data unavailable"))
  end.

Definition group_shapes (w : world) (analyst_name : string) (key : string)
    (st st' : run_state) : Prop :=
  rs_sections st' = rs_sections st
  ∨ ∃ r, rs_sections st' = PyDict.set key r (rs_sections st)
         ∧ shape_of w analyst_name key r.

Definition well_shaped (w : world) (analyst_name : string)
    (sections : PyDict.t section_record) : Prop :=
  ∀ key r, PyDict.get key sections = Some r -> shape_of w analyst_name key r.

(** What it means for a pattern to match at a position, using [n]
    characters and capturing the groups [caps]: the declarative reading of
    the fragment, against which the backtracking matcher is checked. *)
Inductive re_matches : Re.regex -> Re.pos -> nat -> list string -> Prop :=
| matches_lit s p :
    PyStr.starts_with s p.2 = true -> re_matches (Re.Lit s) p (length s) []
| matches_rep cls lo hi p n :
    lo ≤ n ≤ Re.run_length cls hi p.2 -> re_matches (Re.Rep cls lo hi) p n []
| matches_seq r1 r2 p n1 n2 caps1 caps2 :
    re_matches r1 p n1 caps1 ->
    re_matches r2 (Re.advance n1 p) n2 caps2 ->
    re_matches (Re.Seq r1 r2) p (n1 + n2) (caps1 ++ caps2)
| matches_alt_l r1 r2 p n caps :
    re_matches r1 p n caps -> re_matches (Re.Alt r1 r2) p n caps
| matches_alt_r r1 r2 p n caps :
    re_matches r2 p n caps -> re_matches (Re.Alt r1 r2) p n caps
| matches_group r p n caps :
    re_matches r p n caps ->
    re_matches (Re.Group r) p n (caps ++ [PyStr.of_chars (take n p.2)])
| matches_bol p :
    (p.1 = None ∨ p.1 = Some "010"%char) -> re_matches Re.Bol p 0 [].

(** A ticker symbol as the patterns capture it: one to five upper-case
    letters. *)
Definition is_symbol (s : string) : Prop :=
  1 ≤ length (PyStr.chars s) ≤ 5
  ∧ Forall (fun c => PyStr.is_upper c = true) (PyStr.chars s).

(** Every symbol of the working copy was in the submitted list or is a
    well-formed symbol. *)
Definition known_or_symbol (current_tickers : list string) (t : string) : Prop :=
  t ∈ current_tickers ∨ is_symbol t.

(** The verbs the three patterns start with. *)
Definition edit_verbs : list string :=
  ["REPLACE"; "SWAP"; "ADD"; "INCLUDE"; "REMOVE"; "DROP"; "EXCLUDE"].

(** The filings tier 2 can look at: the leading run of 8-K forms, ten at
    most. *)
Fixpoint leading_8k_run (forms : list json) : list json :=
  match forms with
  | form :: rest => if is_8k form then form :: leading_8k_run rest else []
  | [] => []
  end.

Definition leading_8k (forms : list json) : list json := take 10 (leading_8k_run forms).

(** A tier answers cleanly: nothing at all, or a text that is not empty. *)
Definition clean_answer (t : tier_outcome) : Prop :=
  t = (None, EmptyString) ∨ has_text t = true.

(** A network on which every request and every search raises. *)
Definition network_down (n : net) : Prop :=
  (∀ url params, ∃ e, net_get n url params = Raised e)
  ∧ (∀ query max_results, ∃ e, net_ddgs n query max_results = Raised e).

(** No network, no key, and a bundled transcript of 120 characters. *)
Definition unplugged : net :=
  {| net_get := fun _ _ => Raised "Connection refused";
     net_ddgs := fun _ _ => Raised "Connection refused";
     net_article := fun _ => Returned None;
     net_str := fun _ => "?";
     net_local :=
       Some (Returned (PyStr.of_chars (replicate 120 "Q"%char)));
     net_fmp_key := EmptyString |}.

(** [w] with another quote feed and another median step. *)
Definition with_quotes (yf : string -> outcome (PyDict.t Q))
    (median : list Q -> outcome Q) (w : world) : world :=
  {| w_excel_firm := w_excel_firm w;
     w_read_forecast_data := w_read_forecast_data w;
     w_ddgs_text := w_ddgs_text w;
     w_search_efts := w_search_efts w;
     w_search_submissions := w_search_submissions w;
     w_search_fmp := w_search_fmp w;
     w_search_transcript_web := w_search_transcript_web w;
     w_read_local_transcript := w_read_local_transcript w;
     w_yf_info := yf;
     w_round2 := w_round2 w;
     w_billions := w_billions w;
     w_median_2dp := median;
     w_fmt_2f := w_fmt_2f w;
     w_generate := w_generate w;
     w_edit := w_edit w;
     w_edit_forecast_table := w_edit_forecast_table w;
     w_run_quality_check := w_run_quality_check w;
     w_netloc := w_netloc w;
     w_uuid4 := w_uuid4 w;
     w_now_long := w_now_long w;
     w_now_et := w_now_et w;
     w_now_iso := w_now_iso w;
     w_peer_date := w_peer_date w |}.

(** A world whose quote feed answers for every ticker, with a trailing P/E
    of 12 for MS, 10 for GS and 14 for the others. *)
Definition quoted : world :=
  with_quotes
    (fun ticker =>
       Returned [("trailingPE",
                  if decide (ticker = "MS") then 12%Q
                  else if decide (ticker = "GS") then 10%Q else 14%Q)])
    (fun vals => Returned (default 0%Q (head vals)))
    offline.

(** A world whose quote feed answers for every ticker, with a trailing P/E
    of 10^30 that the quantization to two decimals cannot take. *)
Definition unquantizable : world :=
  with_quotes
    (fun _ => Returned [("trailingPE", inject_Z (10 ^ 30))])
    (fun vals =>
       if existsb (fun x => Qle_bool (inject_Z (10 ^ 27)) x) vals
       then Raised "[<class 'decimal.InvalidOperation'>]"
       else Returned (default 0%Q (head vals)))
    offline.

(** The non-null values of [label] over the rows fetched for [peers]. *)
Definition fetched_values (w : world) (peers : list string) (label : string) : list Q :=
  omap (fun pt => mjoin (PyDict.get label (_fetch_ticker w pt))) peers.

(** A world whose quote feed fails for GS and answers a trailing P/E of 12
    for every other ticker. *)
Definition patchy : world :=
  with_quotes
    (fun ticker =>
       if decide (ticker = "GS") then Raised "Read timed out"
       else Returned [("trailingPE", 12%Q)])
    (fun vals => Returned (default 0%Q (head vals)))
    offline.

(* ===================================================================== *)
(** * Properties *)
(* ===================================================================== *)

(** ** Reasoning about generators *)

Ltac in_list := repeat first [apply list_elem_of_here | apply list_elem_of_further].


Lemma gen_spec_bind {A B} (m : gen A) (f : A -> gen B) Q E :
  gen_spec m
    (fun evs a =>
       gen_spec (f a) (fun evs' b => Q (evs ++ evs') b) (fun evs' e => E (evs ++ evs') e))
    E ->
  gen_spec (m ≫= f) Q E.
Proof.
  destruct m as [evs [a|e]]; unfold gen_spec, mbind, gen_bind; simpl; [|done].
  destruct (f a) as [evs' [b|e']]; simpl; done.
Qed.

Lemma gen_spec_ret {A} (a : A) (Q : list event -> A -> Prop) E :
  Q [] a -> gen_spec (mret a) Q E.
Proof. done. Qed.

Lemma gen_spec_yield ev (Q : list event -> unit -> Prop) E :
  Q [ev] tt -> gen_spec (yield ev) Q E.
Proof. done. Qed.

Lemma gen_spec_raise {A} e (Q : list event -> A -> Prop) (E : list event -> string -> Prop) :
  E [] e -> gen_spec (raise e) Q E.
Proof. done. Qed.

Lemma gen_spec_await {A} (o : outcome A) (Q : list event -> A -> Prop)
    (E : list event -> string -> Prop) :
  (∀ a, o = Returned a -> Q [] a) -> (∀ e, o = Raised e -> E [] e) ->
  gen_spec (await o) Q E.
Proof. destruct o; unfold gen_spec; simpl; auto. Qed.

Lemma gen_spec_mono {A} (m : gen A) (Q Q' : list event -> A -> Prop)
    (E E' : list event -> string -> Prop) :
  gen_spec m Q E ->
  (∀ evs a, Q evs a -> Q' evs a) -> (∀ evs e, E evs e -> E' evs e) ->
  gen_spec m Q' E'.
Proof. unfold gen_spec. destruct (m.2); auto. Qed.

(** ** Ordered dicts *)

Lemma dict_get_set_eq {V} (k : string) (v : V) (d : PyDict.t V) :
  PyDict.get k (PyDict.set k v d) = Some v.
Proof.
  induction d as [|[k' v'] d IH]; simpl.
  - by rewrite decide_True.
  - destruct (decide (k = k')) as [->|Hne]; simpl.
    + by rewrite decide_True.
    + by rewrite decide_False.
Qed.

Lemma dict_get_set_ne {V} (k k' : string) (v : V) (d : PyDict.t V) :
  k ≠ k' -> PyDict.get k' (PyDict.set k v d) = PyDict.get k' d.
Proof.
  intros Hne. induction d as [|[k0 v0] d IH]; simpl.
  - by rewrite decide_False.
  - destruct (decide (k = k0)) as [->|Hne0]; simpl.
    + by rewrite !decide_False.
    + destruct (decide (k' = k0)); [done|apply IH].
Qed.

Lemma dict_keys_set {V} (k : string) (v : V) (d : PyDict.t V) :
  PyDict.keys (PyDict.set k v d)
  = if bool_decide (k ∈ PyDict.keys d) then PyDict.keys d else PyDict.keys d ++ [k].
Proof.
  unfold PyDict.keys. induction d as [|[k' v'] d IH]; simpl; [done|].
  destruct (decide (k = k')) as [->|Hne]; simpl.
  - rewrite bool_decide_eq_true_2; [done|left].
  - rewrite IH. case_bool_decide as Hin.
    + rewrite bool_decide_eq_true_2; [done|by right].
    + rewrite bool_decide_eq_false_2; [done|].
      intros [?|?]%elem_of_cons; done.
Qed.

Lemma dict_get_is_Some {V} (k : string) (d : PyDict.t V) :
  is_Some (PyDict.get k d) ↔ k ∈ PyDict.keys d.
Proof.
  unfold PyDict.keys. induction d as [|[k' v'] d IH]; simpl.
  - split; [by intros [? ?]|by intros ?%elem_of_nil].
  - destruct (decide (k = k')) as [->|Hne].
    + split; [intros _; left|by eexists].
    + rewrite IH. split; [by right|]. by intros [?|?]%elem_of_cons.
Qed.

(** ** The ticker-edit parser *)


Lemma replace_step_keeps_head t st m :
  keeps_head t st -> keeps_head t (replace_step t st m).
Proof.
  intros [l Hl]. unfold replace_step.
  destruct m as [|old [|new [|? ?]]]; try (by exists l).
  destruct (PyList.mem old st.1 && negb (bool_decide (old = t))) eqn:Hc; [|by exists l].
  apply andb_prop in Hc as [_ Hne].
  apply negb_true_iff, bool_decide_eq_false in Hne.
  rewrite Hl. simpl. destruct (decide (old = t)) as [->|_]; [done|].
  simpl. eexists. reflexivity.
Qed.

Lemma add_step_keeps_head t st m :
  keeps_head t st -> keeps_head t (add_step st m).
Proof.
  intros [l Hl]. unfold add_step.
  destruct m as [|new [|? ?]]; try (by exists l).
  destruct (negb (PyList.mem new st.1)); [|by exists l].
  rewrite Hl. simpl. eexists. reflexivity.
Qed.

Lemma remove_step_keeps_head t st m :
  keeps_head t st -> keeps_head t (remove_step t st m).
Proof.
  intros [l Hl]. unfold remove_step.
  destruct m as [|old [|? ?]]; try (by exists l).
  destruct (PyList.mem old st.1 && negb (bool_decide (old = t))) eqn:Hc; [|by exists l].
  apply andb_prop in Hc as [_ Hne].
  apply negb_true_iff, bool_decide_eq_false in Hne.
  rewrite Hl. simpl. destruct (decide (old = t)) as [->|_]; [done|].
  eexists. reflexivity.
Qed.

Lemma fold_left_keeps_head (step : edit_state -> list string -> edit_state) t :
  (∀ st m, keeps_head t st -> keeps_head t (step st m)) ->
  ∀ ms st, keeps_head t st -> keeps_head t (fold_left step ms st).
Proof.
  intros Hstep ms. induction ms as [|m ms IH]; intros st Hst; simpl; [done|].
  apply IH, Hstep, Hst.
Qed.

Lemma apply_ticker_edits_keeps_head text t peers :
  keeps_head t (apply_ticker_edits text (t :: peers)).
Proof.
  unfold apply_ticker_edits. simpl.
  apply fold_left_keeps_head; [apply remove_step_keeps_head|].
  apply fold_left_keeps_head; [apply add_step_keeps_head|].
  apply fold_left_keeps_head; [apply replace_step_keeps_head|].
  by exists peers.
Qed.

Lemma parse_keeps_head instruction t peers :
  ∃ peers', _parse_ticker_changes instruction (t :: peers) = t :: peers'.
Proof.
  unfold _parse_ticker_changes.
  destruct (negb (PyStr.truthy instruction)); [by eexists|].
  destruct (apply_ticker_edits_keeps_head (PyStr.upper instruction) t peers) as [l Hl].
  destruct (apply_ticker_edits (PyStr.upper instruction) (t :: peers)).2; by eexists.
Qed.

(** C3: the parser yields [MS, BLK, JPM, HOOD] for "Replace GS with BLK and
    add HOOD" against [MS, GS, JPM], leaves [MS, GS] unchanged for
    "Remove MS", and for every instruction and every non-empty symbol
    list keeps the subject symbol of index 0 at index 0. *)
Theorem parse_ticker_changes_keeps_subject :
  _parse_ticker_changes "Replace GS with BLK and add HOOD" ["MS"; "GS"; "JPM"]
    = ["MS"; "BLK"; "JPM"; "HOOD"]
  ∧ _parse_ticker_changes "Remove MS" ["MS"; "GS"] = ["MS"; "GS"]
  ∧ ∀ (instruction subject : string) (peers : list string),
      ∃ peers', _parse_ticker_changes instruction (subject :: peers) = subject :: peers'.
Proof.
  split; [by vm_compute|]. split; [by vm_compute|].
  intros. apply parse_keeps_head.
Qed.

(** ** The transcript fallback chain *)

Lemma company_cik ticker :
  PyDict.get ticker COMPANY_CIKS
  = if decide (ticker = "MS") then Some "0000895421" else None.
Proof. reflexivity. Qed.





Lemma exhausted_chain (w : world) (ticker company_name : string) :
  (∀ k, tier_succeeds w ticker company_name k = false) ->
  get_transcript w ticker company_name = all_tiers_failed.
Proof.
  intros Hall.
  pose proof (Hall 1) as H1. pose proof (Hall 2) as H2. pose proof (Hall 3) as H3.
  pose proof (Hall 4) as H4. pose proof (Hall 5) as H5. clear Hall.
  unfold tier_succeeds, tier_attempt, get_transcript, get_transcript_logged,
    tiers_3_to_5 in *.
  rewrite !company_cik in *.
  destruct (decide (ticker = "MS")) as [->|Hne]; simpl in *;
    repeat match goal with H : has_text _ = _ |- _ => rewrite H end; done.
Qed.


Lemma earnings_group_unavailable (w : world) (analyst_name firm company : string)
    (st : run_state) :
  get_transcript w company "Morgan Stanley" = all_tiers_failed ->
  let d := unavailable_draft w analyst_name firm in
  let conf := _confidence low "Transcript not available" in
  earnings_group w analyst_name firm company st
  = ([ EvStepUpdate "transcript_fetch" "running" None;
       EvStepUpdate "transcript_fetch" "error" None;
       EvStepUpdate "transcript_extract" "running" None;
       EvStepUpdate "transcript_extract" "complete" None;
       EvStepUpdate "earnings_draft" "running" None;
       EvStepUpdate "earnings_draft" "complete" (Some []);
       EvSection "earnings" (d_content d) [] conf ],
     Returned (put_section "earnings" (Narrative d [] conf)
                 (set_transcript_source "none" st))).
Proof.
  intros Hfail. unfold earnings_group. rewrite Hfail. reflexivity.
Qed.

Lemma generate_section_name w section_name template_name context user_instruction :
  d_section (generate_section w section_name template_name context user_instruction)
  = section_name.
Proof. unfold generate_section. by destruct (w_generate _ _ _ _ _). Qed.

(** ** Provenance sources *)

Lemma truthy_ne (s : string) : PyStr.truthy s = true ↔ s ≠ EmptyString.
Proof. destruct s; simpl; split; done. Qed.

Lemma slice_to_truthy n s :
  PyStr.truthy s = true -> PyStr.truthy (PyStr.slice_to (S n) s) = true.
Proof. destruct s; [done|]. reflexivity. Qed.

Lemma extract_domain_truthy w url :
  PyStr.truthy url = true -> PyStr.truthy (_extract_domain w url) = true.
Proof.
  intros Hurl. unfold _extract_domain.
  destruct (w_netloc w url) as [netloc|e]; [|by apply slice_to_truthy].
  destruct (PyStr.truthy (PyStr.replace "www." EmptyString netloc)) eqn:Hd; [done|].
  by apply slice_to_truthy.
Qed.

Lemma seen_domains_skip w pre seen r :
  seen_domains w pre seen ->
  (hit_href r = EmptyString ∨ _extract_domain w (hit_href r) ∈ seen) ->
  seen_domains w (pre ++ [r]) seen.
Proof.
  intros Hseen Hr d. rewrite (Hseen d). split.
  - intros (r' & Hin & Hurl & Hd). exists r'. split; [|done].
    apply elem_of_app. by left.
  - intros (r' & [Hin| ->%list_elem_of_singleton]%elem_of_app & Hurl & Hd);
      [by exists r'|].
    destruct Hr as [Hr|Hr]; [done|]. subst d. by apply Hseen.
Qed.

Lemma seen_domains_add w pre seen r :
  seen_domains w pre seen ->
  hit_href r ≠ EmptyString ->
  seen_domains w (pre ++ [r]) ({[_extract_domain w (hit_href r)]} ∪ seen).
Proof.
  intros Hseen Hurl d. rewrite elem_of_union, elem_of_singleton, (Hseen d). split.
  - intros [->|(r' & Hin & Hurl' & Hd)].
    + exists r. split; [|done]. apply elem_of_app. right. by left.
    + exists r'. split; [|done]. apply elem_of_app. by left.
  - intros (r' & [Hin| ->%list_elem_of_singleton]%elem_of_app & Hurl' & Hd).
    + right. by exists r'.
    + by left.
Qed.

Lemma first_of_domain_here w pre r rest seen :
  seen_domains w pre seen ->
  hit_href r ≠ EmptyString ->
  _extract_domain w (hit_href r) ∉ seen ->
  first_of_domain w (pre ++ r :: rest) (length pre)
    (source_of_hit r (hit_href r) (_extract_domain w (hit_href r))).
Proof.
  intros Hseen Hurl Hfresh. exists r. split; [by apply list_lookup_middle|].
  split; [done|]. split; [done|].
  intros p r' Hp Hlook Hurl' Heq. simpl in Heq.
  apply Hfresh, Hseen. exists r'. split; [|done].
  rewrite lookup_app_l in Hlook by done. by eapply list_elem_of_lookup_2.
Qed.

Lemma top_sources_loop_spec (w : world) (max_n : nat) :
  ∀ rest pre sources seen,
    seen_domains w pre seen ->
    length sources < max_n ->
    ∃ extra idxs,
      top_sources_loop w max_n rest sources seen = sources ++ extra
      ∧ length (sources ++ extra) ≤ max_n
      ∧ Forall2 (first_of_domain w (pre ++ rest)) idxs extra
      ∧ Forall (fun i => length pre ≤ i) idxs
      ∧ StronglySorted lt idxs.
Proof.
  induction rest as [|r rest IH]; intros pre sources seen Hseen Hlen; simpl.
  { exists [], []. rewrite app_nil_r. repeat split; try constructor. lia. }
  destruct (PyStr.truthy (hit_href r)) eqn:Hurl; simpl.
  2:{ (* no URL: continue *)
    assert (hit_href r = EmptyString) as Hempty by (by destruct (hit_href r)).
    destruct (IH (pre ++ [r]) sources seen) as (extra & idxs & Heq & Hle & Hf2 & Hge & Hsort);
      [apply seen_domains_skip; auto|done|].
    rewrite <- app_assoc in Hf2. exists extra, idxs. repeat split; try done.
    eapply Forall_impl; [exact Hge|]. intros i. rewrite length_app. simpl. lia. }
  apply truthy_ne in Hurl as Hurl'.
  rewrite (extract_domain_truthy w _ Hurl). simpl.
  case_bool_decide as Hin; simpl.
  - (* a domain already seen: continue *)
    destruct (max_n <=? length sources) eqn:Hbreak; [apply Nat.leb_le in Hbreak; lia|].
    destruct (IH (pre ++ [r]) sources seen) as (extra & idxs & Heq & Hle & Hf2 & Hge & Hsort);
      [apply seen_domains_skip; auto|done|].
    rewrite <- app_assoc in Hf2. exists extra, idxs. repeat split; try done.
    eapply Forall_impl; [exact Hge|]. intros i. rewrite length_app. simpl. lia.
  - (* a new domain *)
    set (e := source_of_hit r (hit_href r) (_extract_domain w (hit_href r))).
    pose proof (first_of_domain_here w pre r rest seen Hseen Hurl' Hin) as Hhere.
    destruct (max_n <=? length (sources ++ [e])) eqn:Hbreak.
    + exists [e], [length pre]. rewrite length_app in *. simpl in *.
      repeat split; try done.
      * lia.
      * by repeat constructor.
      * by repeat constructor.
      * by repeat constructor.
    + apply Nat.leb_gt in Hbreak.
      destruct (IH (pre ++ [r]) (sources ++ [e])
                  ({[_extract_domain w (hit_href r)]} ∪ seen))
        as (extra & idxs & Heq & Hle & Hf2 & Hge & Hsort);
        [by apply seen_domains_add|done|].
      rewrite <- app_assoc in Hf2, Heq, Hle. simpl in Heq, Hle.
      exists (e :: extra), (length pre :: idxs). repeat split; try done.
      * by constructor.
      * constructor; [done|]. eapply Forall_impl; [exact Hge|].
        intros i. rewrite length_app. simpl. lia.
      * constructor; [done|]. eapply Forall_impl; [exact Hge|].
        intros i. rewrite length_app. simpl. lia.
Qed.

Lemma first_of_domain_distinct w hits :
  ∀ idxs out,
    Forall2 (first_of_domain w hits) idxs out ->
    StronglySorted lt idxs ->
    NoDup (map src_domain out).
Proof.
  induction 1 as [|i e idxs out Hie Hrest IH]; intros Hsort; simpl; [constructor|].
  apply StronglySorted_inv in Hsort as [Hsort Hlt].
  constructor; [|by apply IH].
  intros (e' & Hdom & Hin)%list_elem_of_fmap.
  apply list_elem_of_lookup in Hin as [n Hn].
  destruct (Forall2_lookup_r _ _ _ _ _ Hrest Hn) as (j & Hj & Hje').
  destruct Hie as (r & Hr & Hurl & -> & _).
  destruct Hje' as (r' & _ & _ & _ & Hfirst).
  eapply (Hfirst i r); try done.
  eapply Forall_lookup_1 in Hlt; [exact Hlt|exact Hj].
Qed.

(** C10: the source list built from any list of search results has at
    most 5 entries, pairwise distinct domains, entries that each come
    from a result with a non-empty URL, and the order in which their
    domains first occur in the input. *)
Theorem top_sources_distinct_in_first_occurrence_order
    (w : world) (search_results : list search_hit) :
  let out := _top_sources w search_results 5 in
  length out ≤ 5
  ∧ NoDup (map src_domain out)
  ∧ (∀ e, e ∈ out ->
       ∃ r, r ∈ search_results ∧ hit_href r ≠ EmptyString
            ∧ src_url e = hit_href r
            ∧ src_domain e = _extract_domain w (hit_href r))
  ∧ ∃ idxs, StronglySorted lt idxs
            ∧ Forall2 (first_of_domain w search_results) idxs out.
Proof.
  unfold _top_sources.
  destruct (top_sources_loop_spec w 5 search_results [] [] ∅)
    as (extra & idxs & Heq & Hle & Hf2 & _ & Hsort).
  { intros d. split; [set_solver|]. by intros (r & ?%elem_of_nil & _). }
  { simpl. lia. }
  simpl in *. rewrite Heq.
  split; [done|]. split; [by eapply first_of_domain_distinct|].
  split; [|by exists idxs].
  intros e Hin. apply list_elem_of_lookup in Hin as [n Hn].
  destruct (Forall2_lookup_r _ _ _ _ _ Hf2 Hn) as (i & Hi & r & Hr & Hurl & -> & _).
  exists r. split; [by eapply list_elem_of_lookup_2|done].
Qed.

(** ** Fan-out leaves *)

Lemma zip_with_image {A B} (f : A -> B) (l : list A) :
  zip l (map f l) = map (fun a => (a, f a)) l.
Proof. induction l as [|a l IH]; simpl; [done|]. by rewrite IH. Qed.

Lemma fold_set_get {V} (f : string -> V) (l : list string) :
  ∀ (d0 : PyDict.t V) (t : string),
    PyDict.get t
      (fold_left (fun d kv => PyDict.set kv.1 kv.2 d) (map (fun a => (a, f a)) l) d0)
    = if bool_decide (t ∈ l) then Some (f t) else PyDict.get t d0.
Proof.
  induction l as [|a l IH]; intros d0 t; cbn [fold_left map fst snd].
  - rewrite bool_decide_eq_false_2; [done|apply not_elem_of_nil].
  - rewrite IH. case_bool_decide as Hin.
    + rewrite bool_decide_eq_true_2; [done|by right].
    + destruct (decide (t = a)) as [->|Hne].
      * rewrite dict_get_set_eq, bool_decide_eq_true_2; [done|left].
      * rewrite dict_get_set_ne by done.
        rewrite bool_decide_eq_false_2; [done|].
        by intros [?|?]%elem_of_cons.
Qed.

Lemma fan_out_get {V} (f : string -> V) (l : list string) (t : string) :
  PyDict.get t (PyDict.of_pairs (zip l (map f l)))
  = if bool_decide (t ∈ l) then Some (f t) else None.
Proof. unfold PyDict.of_pairs. rewrite zip_with_image. by rewrite fold_set_get. Qed.

Lemma fetch_ticker_labels w ticker :
  PyDict.keys (_fetch_ticker w ticker) = map (fun m => m.1.1) METRICS.
Proof. unfold _fetch_ticker. by destruct (w_yf_info w ticker). Qed.

Lemma fetch_ticker_failed w ticker e :
  w_yf_info w ticker = Raised e ->
  _fetch_ticker w ticker = map (fun m => (m.1.1, None)) METRICS.
Proof. unfold _fetch_ticker. by intros ->. Qed.

Lemma fetch_ticker_returned w ticker info :
  w_yf_info w ticker = Returned info ->
  _fetch_ticker w ticker
  = PyDict.of_pairs (map (fun m => (m.1.1, metric_value w info m.1.2 m.2)) METRICS).
Proof. unfold _fetch_ticker. by intros ->. Qed.

Lemma omap_ext_in {A B} (f g : A -> option B) (l : list A) :
  (∀ x, x ∈ l -> f x = g x) -> omap f l = omap g l.
Proof.
  induction l as [|x l IH]; intros Hfg; [done|]. simpl.
  rewrite (Hfg x) by left.
  assert (omap f l = omap g l) as Hrest.
  { apply IH. intros y Hy. apply Hfg. by right. }
  destruct (g x); [f_equal|]; exact Hrest.
Qed.

Lemma drop_subseteq {A} (n : nat) (l : list A) (x : A) : x ∈ drop n l -> x ∈ l.
Proof.
  intros Hx. rewrite <- (take_drop n l). apply elem_of_app. by right.
Qed.

Lemma peer_values_fetched (w : world) (tickers : list string) (label : string) :
  peer_values (PyDict.of_pairs (zip tickers (map (_fetch_ticker w) tickers)))
    (drop 1 tickers) label
  = fetched_values w (drop 1 tickers) label.
Proof.
  unfold peer_values, fetched_values. apply omap_ext_in. intros pt Hpt%drop_subseteq.
  by rewrite fan_out_get, bool_decide_eq_true_2.
Qed.

(** What the loop over the metrics leaves in [peer_median] when it
    returns, and when it returns. *)
Lemma peer_median_loop_returned w data peers (labels : list string) :
  ∀ acc pm,
    peer_median_loop w data peers labels acc = Returned pm ->
    (∀ label, label ∈ labels ->
       ∃ cell, median_of w data peers label = Returned cell
               ∧ PyDict.get label pm = Some cell)
    ∧ (∀ label, label ∉ labels -> PyDict.get label pm = PyDict.get label acc).
Proof.
  induction labels as [|l0 rest IH]; intros acc pm; cbn [peer_median_loop].
  - intros [= <-]. split; [by intros label ?%elem_of_nil|done].
  - destruct (median_of w data peers l0) as [c0|e] eqn:Hcell;
      cbn [mbind outcome_bind]; [|done].
    intros [Hin Hout]%IH. split.
    + intros label [->|Hrest]%elem_of_cons; [|by apply Hin].
      destruct (decide (l0 ∈ rest)) as [Hl0|Hl0].
      * destruct (Hin l0 Hl0) as (cell & Hcell' & Hget).
        exists cell. split; [congruence|done].
      * exists c0. split; [done|]. by rewrite (Hout l0 Hl0), dict_get_set_eq.
    + intros label Hlabel. apply not_elem_of_cons in Hlabel as [Hne Hrest].
      by rewrite (Hout label Hrest), dict_get_set_ne.
Qed.

Lemma peer_median_loop_returns w data peers (labels : list string) :
  (∀ label, label ∈ labels -> ∃ cell, median_of w data peers label = Returned cell) ->
  ∀ acc, ∃ pm, peer_median_loop w data peers labels acc = Returned pm.
Proof.
  induction labels as [|l0 rest IH]; intros Hcells acc; cbn [peer_median_loop].
  - by eexists.
  - destruct (Hcells l0) as [c0 ->]; [left|]. cbn [mbind outcome_bind].
    apply IH. intros label Hlabel. apply Hcells. by right.
Qed.

Lemma valuation_returned w tickers v :
  get_valuation_data w tickers = Returned v ->
  vr_status v = "success"
  ∧ vr_tickers v = PyDict.of_pairs (zip tickers (map (_fetch_ticker w) tickers))
  ∧ vr_as_of v = w_now_et w
  ∧ peer_median_loop w (vr_tickers v) (drop 1 tickers) (map (fun m => m.1.1) METRICS) []
    = Returned (vr_peer_median v).
Proof.
  unfold get_valuation_data. cbv zeta.
  destruct (peer_median_loop w _ _ _ []) as [pm|e] eqn:Hloop;
    cbn [mbind outcome_bind]; [|done].
  by intros [= <-].
Qed.

Lemma median_of_returns w tickers label :
  (fetched_values w (drop 1 tickers) label ≠ [] ->
   ∀ e, w_median_2dp w (fetched_values w (drop 1 tickers) label) ≠ Raised e) ->
  ∃ cell,
    median_of w (PyDict.of_pairs (zip tickers (map (_fetch_ticker w) tickers)))
      (drop 1 tickers) label = Returned cell.
Proof.
  intros Hmedian. unfold median_of. case_bool_decide; [by eexists|].
  rewrite peer_values_fetched.
  destruct (fetched_values w (drop 1 tickers) label) as [|x vals] eqn:Hvals;
    [by eexists|].
  destruct (w_median_2dp w (x :: vals)) as [raw|e] eqn:Hraw; [by eexists|].
  by destruct (Hmedian ltac:(done) e).
Qed.

Lemma fetched_values_failed (w : world) (peers : list string) (label : string) :
  (∀ pt, pt ∈ peers -> ∃ e, w_yf_info w pt = Raised e) ->
  fetched_values w peers label = [].
Proof.
  unfold fetched_values. induction peers as [|pt peers IH]; intros Hfailed; [done|].
  simpl. destruct (Hfailed pt) as [e He]; [left|].
  rewrite (fetch_ticker_failed w pt e He).
  assert (mjoin (PyDict.get label (map (fun m => (m.1.1, @None Q)) METRICS)) = None)
    as ->.
  { clear. unfold METRICS. simpl. repeat (case_decide; [done|]). done. }
  apply IH. intros pt' Hpt'. apply Hfailed. by right.
Qed.

(** C9 fails as stated: in a world where every fetch succeeds and the
    quantization of the peer median raises, get_valuation_data raises and
    returns no mapping at all. *)
Lemma fan_out_counterexample :
  (∀ t, t ∈ ["MS"; "GS"] -> ∃ info, w_yf_info unquantizable t = Returned info)
  ∧ get_valuation_data unquantizable ["MS"; "GS"]
    = Raised "[<class 'decimal.InvalidOperation'>]"
  ∧ ¬ ∃ result, get_valuation_data unquantizable ["MS"; "GS"] = Returned result.
Proof.
  split; [intros t _; by eexists|].
  assert (get_valuation_data unquantizable ["MS"; "GS"]
          = Raised "[<class 'decimal.InvalidOperation'>]") as Hraised by by vm_compute.
  split; [done|]. intros [result Hresult]. congruence.
Qed.

(** C9, amended: a ticker whose fetch raises never makes
    get_valuation_data raise: the call returns whenever the median step
    does not raise on the values fetched for the peers, in particular
    when every peer fetch failed.  When it returns, the status is
    "success", the keys of the mapping are exactly the requested tickers,
    the row of a ticker whose fetch raised holds None under every metric
    label and the row of a ticker whose fetch answered holds the metric
    values read from that answer.  A search query that raises gives the
    empty list and one that answers gives its hits; the search leaves
    return their success-shaped result, with for each peer the hits of
    its query. *)
Theorem fan_out_tolerates_failed_sub_queries (w : world) (tickers : list string) :
  ((∀ label e,
      fetched_values w (drop 1 tickers) label ≠ [] ->
      w_median_2dp w (fetched_values w (drop 1 tickers) label) ≠ Raised e) ->
   ∃ result, get_valuation_data w tickers = Returned result)
  ∧ ((∀ t, t ∈ drop 1 tickers -> ∃ e, w_yf_info w t = Raised e) ->
     ∃ result, get_valuation_data w tickers = Returned result)
  ∧ (∀ result,
       get_valuation_data w tickers = Returned result ->
       vr_status result = "success"
       ∧ (∀ t, t ∈ PyDict.keys (vr_tickers result) ↔ t ∈ tickers)
       ∧ (∀ t, t ∈ tickers ->
            ∃ row, PyDict.get t (vr_tickers result) = Some row
                   ∧ PyDict.keys row = map (fun m => m.1.1) METRICS
                   ∧ (∀ e, w_yf_info w t = Raised e ->
                           row = map (fun m => (m.1.1, None)) METRICS)
                   ∧ (∀ info, w_yf_info w t = Returned info ->
                              row = PyDict.of_pairs
                                      (map (fun m => (m.1.1,
                                                      metric_value w info m.1.2 m.2))
                                           METRICS))))
  ∧ (∀ query max_results,
       _search w query max_results
       = match w_ddgs_text w query max_results with
         | Returned hits => hits
         | Raised _ => []
         end)
  ∧ (∀ analyst_name firm, br_status (search_analyst_bio w analyst_name firm) = "success")
  ∧ (∀ analyst_name peers,
       pr_status (search_peer_research w analyst_name peers) = "success"
       ∧ ∀ t, t ∈ peers ->
           PyDict.get t (pr_peer_results (search_peer_research w analyst_name peers))
           = Some (_search w (dq +:+ analyst_name +:+ dq +:+ " " +:+ t
                              +:+ " research outlook rating") 5)).
Proof.
  assert ((∀ label e,
             fetched_values w (drop 1 tickers) label ≠ [] ->
             w_median_2dp w (fetched_values w (drop 1 tickers) label) ≠ Raised e) ->
          ∃ result, get_valuation_data w tickers = Returned result) as Hreturns.
  { intros Hmedian. unfold get_valuation_data. cbv zeta.
    assert (∀ label,
              label ∈ map (fun m => m.1.1) METRICS ->
              ∃ cell,
                median_of w
                  (PyDict.of_pairs (zip tickers (map (_fetch_ticker w) tickers)))
                  (drop 1 tickers) label = Returned cell) as Hcells.
    { intros label _. apply median_of_returns. intros Hvals e. by apply Hmedian. }
    destruct (peer_median_loop_returns w _ _ _ Hcells []) as [pm ->].
    by eexists. }
  split; [exact Hreturns|]. split; [|split; [|split; [|split]]].
  - intros Hfailed. apply Hreturns. intros label e Hvals. exfalso. apply Hvals.
    clear Hvals.
    by apply fetched_values_failed.
  - intros result (Hstatus & Htickers & _ & _)%valuation_returned.
    split; [done|]. rewrite Htickers. split.
    + intros t. rewrite <- dict_get_is_Some, fan_out_get.
      case_bool_decide; split; try done; try (by eexists); by intros [? ?].
    + intros t Hin. exists (_fetch_ticker w t).
      rewrite fan_out_get, bool_decide_eq_true_2 by done.
      split; [done|]. split; [apply fetch_ticker_labels|].
      split; [apply fetch_ticker_failed|apply fetch_ticker_returned].
  - intros query max_results. reflexivity.
  - done.
  - intros analyst_name peers. split; [done|]. intros t Hin.
    unfold search_peer_research. cbn [pr_peer_results].
    pose proof (fan_out_get
      (fun ticker => _search w (dq +:+ analyst_name +:+ dq +:+ " " +:+ ticker
                                +:+ " research outlook rating") 5) peers t) as Hget.
    rewrite zip_with_image in Hget. rewrite Hget.
    by rewrite bool_decide_eq_true_2.
Qed.

Lemma fan_out_tolerates_failed_sub_queries_witness :
  ∃ result row_gs row_jpm,
    get_valuation_data patchy ["MS"; "GS"; "JPM"] = Returned result
    ∧ PyDict.get "GS" (vr_tickers result) = Some row_gs
    ∧ row_gs = map (fun m => (m.1.1, None)) METRICS
    ∧ PyDict.get "JPM" (vr_tickers result) = Some row_jpm
    ∧ PyDict.get "P/E (TTM)" row_jpm = Some (Some 12%Q).
Proof.
  destruct (fan_out_tolerates_failed_sub_queries patchy ["MS"; "GS"; "JPM"])
    as (Hreturns & _ & Hrows & _).
  destruct Hreturns as [result Hpull].
  { intros label e _. unfold patchy, with_quotes. cbn [w_median_2dp]. discriminate. }
  destruct (Hrows result Hpull) as (_ & _ & Hrow).
  destruct (Hrow "GS") as (row_gs & Hgs & _ & Hfailed & _); [in_list|].
  destruct (Hrow "JPM") as (row_jpm & Hjpm & _ & _ & Hanswered); [in_list|].
  exists result, row_gs, row_jpm.
  split; [done|]. split; [done|]. split; [by apply (Hfailed "Read timed out")|].
  split; [done|].
  by rewrite (Hanswered [("trailingPE", 12%Q)] eq_refl).
Defined.

(** ** Regeneration *)

Lemma run_regeneration_found (w : world) (section analyst_name instruction : string)
    (re_search : bool) (memo_store : gmap string memo) (memo_id current_content : string)
    (m : memo) :
  memo_store !! memo_id = Some m ->
  let branch := regen_dispatch w section analyst_name instruction re_search current_content m in
  run_regeneration w section analyst_name instruction re_search memo_store memo_id
    current_content
  = match branch.2 with
    | Returned (Some m') =>
        (EvRegenStart section :: branch.1 ++ [EvRegenComplete section],
         <[memo_id := m']> memo_store)
    | Returned None => (EvRegenStart section :: branch.1, memo_store)
    | Raised e => (EvRegenStart section :: branch.1 ++ [EvRegenError section e], memo_store)
    end.
Proof.
  intros Hm. unfold run_regeneration, _run_regeneration_inner, regen_dispatch.
  rewrite Hm.
  destruct (if negb re_search then _ else _) as [evs [[m'|]|e]];
    cbn; rewrite ?app_nil_r; reflexivity.
Qed.

Lemma existing_tickers_nonempty (existing : option section_record) :
  ∃ subject peers, existing_tickers_of existing = subject :: peers.
Proof.
  destruct existing as [[| |v ? ? ?|]|]; simpl; try (by eexists _, _).
  destruct (vr_tickers v) as [|[t row] rest]; simpl; by eexists _, _.
Qed.

Lemma parsed_tickers_nonempty instruction (existing : option section_record) :
  ∃ target rest,
    _parse_ticker_changes instruction (existing_tickers_of existing) = target :: rest.
Proof.
  destruct (existing_tickers_nonempty existing) as (subject & peers & ->).
  destruct (parse_keeps_head instruction subject peers) as [peers' ->].
  by eexists _, _.
Qed.

(** C8 fails as stated: the instruction below leaves the stored symbol
    set {MS, GS, JPM} as it is and only reorders it, and yet market data
    is pulled afresh, the outcome depends on the quote feed, and the
    stored record is replaced. *)
Lemma draft_only_valuation_counterexample :
  let instruction := "Replace GS with JPM, add GS, remove JPM" in
  let stored_tickers := existing_tickers_of (Some stored_valuation) in
  let new_tickers := _parse_ticker_changes instruction stored_tickers in
  let run w :=
    run_regeneration w "valuation" "Mike Mayo" instruction false valued_session
      "0f8fad5b" EmptyString in
  stored_tickers = ["MS"; "GS"; "JPM"]
  ∧ new_tickers = ["MS"; "JPM"; "GS"]
  ∧ (∀ t, t ∈ new_tickers ↔ t ∈ stored_tickers)
  ∧ EvRegenStep "valuation" "Pulling data for updated tickers: MS, JPM, GS"
    ∈ (run offline).1
  ∧ (run offline).2 !! "0f8fad5b" ≠ valued_session !! "0f8fad5b"
  ∧ run quoted ≠ run offline.
Proof.
  split; [by vm_compute|]. split; [by vm_compute|]. split; [|split; [|split]].
  - intros t. vm_compute _parse_ticker_changes. vm_compute existing_tickers_of.
    rewrite !elem_of_cons, !elem_of_nil. tauto.
  - vm_compute. in_list.
  - vm_compute. discriminate.
  - intros Hsame. apply (f_equal fst) in Hsame. vm_compute in Hsame. discriminate.
Qed.

(** C8, amended: in a draft-only regeneration of the valuation section,
    when the ticker list parsed from the instruction equals the stored
    list, symbol for symbol and in the same order, the store is left as
    it is, the outcome does not depend on the world (no acquisition takes
    place) and the stored snapshot is sent back unchanged.  When the list
    differs, be it only in its order, market data is pulled for the new
    list: when the pull returns, the stored record is replaced by the
    record built from it; when the pull raises, the client gets a
    regen_error and the store is left as it is. *)
Theorem draft_only_valuation_pulls_on_a_changed_list
    (w : world) (analyst_name instruction current_content memo_id : string)
    (memo_store : gmap string memo) (m : memo) :
  memo_store !! memo_id = Some m ->
  let existing := PyDict.get "valuation" (m_sections m) in
  let stored_tickers := existing_tickers_of existing in
  let new_tickers := _parse_ticker_changes instruction stored_tickers in
  let run w :=
    run_regeneration w "valuation" analyst_name instruction false memo_store memo_id
      current_content in
  (new_tickers = stored_tickers ->
     (run w).2 = memo_store
     ∧ (∀ w', run w' = run w)
     ∧ ∀ v order sources conf,
         existing = Some (Valuation v order sources conf) -> vr_tickers v ≠ [] ->
         (run w).1 = [ EvRegenStart "valuation";
                       EvRegenValuation (Valuation v order sources conf);
                       EvRegenComplete "valuation" ])
  ∧ (new_tickers ≠ stored_tickers ->
     let pulling :=
       EvRegenStep "valuation"
         ("Pulling data for updated tickers: " +:+ PyStr.join ", " new_tickers) in
     match get_valuation_data w new_tickers with
     | Returned v =>
         ∃ sources conf,
           let record := Valuation v (Some new_tickers) sources conf in
           (run w).2 = <[memo_id := set_section "valuation" record m]> memo_store
           ∧ (run w).1
             = [ EvRegenStart "valuation"; pulling; EvRegenValuation record;
                 EvRegenComplete "valuation" ]
     | Raised _ =>
         (run w).2 = memo_store
         ∧ (run w).1
           = [ EvRegenStart "valuation"; pulling;
               EvRegenError "valuation" "Failed to pull valuation data" ]
     end).
Proof.
  intros Hm existing stored_tickers new_tickers run. subst run. cbn beta.
  split.
  - intros Hsame.
    assert (∀ w', regen_dispatch w' "valuation" analyst_name instruction false
                    current_content m
                  = match existing with
                    | Some (Valuation v order sources conf) =>
                        match vr_tickers v with
                        | [] => regen_fail "valuation" "No existing valuation data"
                        | _ => ([EvRegenValuation (Valuation v order sources conf)],
                                Returned (Some m))
                        end
                    | _ => regen_fail "valuation" "No existing valuation data"
                    end) as Hbranch.
    { intros w'. unfold regen_dispatch. cbn [negb].
      change (draft_only w' "valuation" instruction current_content m
                (PyDict.get "valuation" (m_sections m)))
        with (draft_only_valuation w' "valuation" instruction m existing).
      unfold draft_only_valuation. fold stored_tickers. fold new_tickers.
      rewrite bool_decide_eq_false_2 by (by intros ?).
      destruct existing as [[| |v ? ? ?|]|]; reflexivity. }
    assert (∀ w', run_regeneration w' "valuation" analyst_name instruction false
                    memo_store memo_id current_content
                  = match existing with
                    | Some (Valuation v order sources conf) =>
                        match vr_tickers v with
                        | [] => ([EvRegenStart "valuation";
                                  EvRegenError "valuation" "No existing valuation data"],
                                 memo_store)
                        | _ => ([EvRegenStart "valuation";
                                 EvRegenValuation (Valuation v order sources conf);
                                 EvRegenComplete "valuation"], memo_store)
                        end
                    | _ => ([EvRegenStart "valuation";
                             EvRegenError "valuation" "No existing valuation data"],
                            memo_store)
                    end) as Hrun.
    { intros w'. rewrite (run_regeneration_found _ _ _ _ _ _ _ _ m Hm), Hbranch.
      destruct existing as [[| |v ? ? ?|]|]; try reflexivity.
      destruct (vr_tickers v); [reflexivity|].
      cbn. by rewrite insert_id. }
    split; [|split].
    + rewrite Hrun. destruct existing as [[| |v ? ? ?|]|]; try reflexivity.
      by destruct (vr_tickers v).
    + intros w'. by rewrite !Hrun.
    + intros v order sources conf -> Hne. rewrite Hrun.
      by destruct (vr_tickers v).
  - intros Hdiff.
    destruct (parsed_tickers_nonempty instruction existing) as (target & rest & Hnew).
    fold stored_tickers in Hnew. fold new_tickers in Hnew.
    rewrite (run_regeneration_found _ _ _ _ _ _ _ _ m Hm).
    unfold regen_dispatch. cbn [negb].
    change (draft_only w "valuation" instruction current_content m
              (PyDict.get "valuation" (m_sections m)))
      with (draft_only_valuation w "valuation" instruction m existing).
    unfold draft_only_valuation. fold stored_tickers. fold new_tickers.
    rewrite bool_decide_eq_true_2 by done.
    destruct (get_valuation_data w new_tickers) as [v|e] eqn:Hpull;
      cbn [fmap outcome_fmap _run_step]; [|done].
    destruct (valuation_returned w new_tickers v Hpull) as [-> _].
    rewrite bool_decide_eq_true_2 by done.
    unfold pulled_valuation. rewrite Hnew.
    do 2 eexists. split; reflexivity.
Qed.

Lemma draft_only_valuation_pulls_on_a_changed_list_witness :
  let new_tickers := ["MS"; "BLK"; "JPM"] in
  let run :=
    run_regeneration quoted "valuation" "Mike Mayo" "Replace GS with BLK" false
      valued_session "0f8fad5b" EmptyString in
  ∃ v sources conf,
    let record := Valuation v (Some new_tickers) sources conf in
    get_valuation_data quoted new_tickers = Returned v
    ∧ PyDict.get "P/E (TTM)" (vr_peer_median v) = Some (Cell (Some 14%Q))
    ∧ run.2 = <["0f8fad5b" := set_section "valuation" record valued_memo]> valued_session
    ∧ run.1
      = [ EvRegenStart "valuation";
          EvRegenStep "valuation"
            ("Pulling data for updated tickers: " +:+ PyStr.join ", " new_tickers);
          EvRegenValuation record;
          EvRegenComplete "valuation" ].
Proof.
  pose proof (draft_only_valuation_pulls_on_a_changed_list quoted "Mike Mayo"
                "Replace GS with BLK" EmptyString "0f8fad5b" valued_session valued_memo
                eq_refl) as [_ Hdiff].
  specialize (Hdiff ltac:(by vm_compute)). cbv zeta in Hdiff.
  destruct (get_valuation_data quoted
              (_parse_ticker_changes "Replace GS with BLK"
                 (existing_tickers_of (PyDict.get "valuation" (m_sections valued_memo)))))
    as [v|e] eqn:Hpull; [|by vm_compute in Hpull].
  destruct Hdiff as (sources & conf & Hstore & Hevents).
  exists v, sources, conf. cbv zeta.
  assert (_parse_ticker_changes "Replace GS with BLK"
            (existing_tickers_of (PyDict.get "valuation" (m_sections valued_memo)))
          = ["MS"; "BLK"; "JPM"]) as Hnew by by vm_compute.
  rewrite Hnew in Hpull, Hstore, Hevents.
  split; [exact Hpull|]. split; [|split; [exact Hstore|exact Hevents]].
  clear Hstore Hevents. vm_compute in Hpull. injection Hpull as <-. by vm_compute.
Defined.

(** C4 fails as stated: with a stored bio "Original bio." and a request
    that carries the client's own text, a failing drafting leaf leaves the
    client's text in the store, and the channel carries no error event. *)
Lemma draft_only_failure_counterexample :
  let run :=
    run_regeneration offline "bio" "Mike Mayo" "Shorten it" false one_session
      "0f8fad5b" "Client draft." in
  w_edit offline "bio" "Client draft." "Shorten it" = Raised "offline"
  ∧ stored_content one_session "0f8fad5b" "bio" = Some "Original bio."
  ∧ stored_content run.2 "0f8fad5b" "bio" = Some "Client draft."
  ∧ ¬ reports_error run.1.
Proof.
  split; [reflexivity|]. split; [by vm_compute|]. split; [by vm_compute|].
  intros (section & message & Hin). vm_compute in Hin.
  repeat (apply elem_of_cons in Hin as [Hin|Hin]; [discriminate|]).
  by apply elem_of_nil in Hin.
Qed.

(** C4, amended: when the drafting leaf fails in a draft-only regeneration
    of a narrative section, the stored section's content becomes the
    content submitted for editing: the request's current_content when it
    is non-empty, the stored content otherwise, so that it is unchanged
    whenever the client sends none or sends the stored one.  The record
    keeps its sources and confidence and takes status "error"; the client
    receives that content in regen_section followed by regen_complete;
    every other section of the Report, its other fields and every other
    session are unchanged. *)
Theorem draft_only_failure_keeps_submitted_content
    (w : world) (section analyst_name instruction current_content memo_id e : string)
    (memo_store : gmap string memo) (m : memo) :
  memo_store !! memo_id = Some m ->
  section ∈ ["bio"; "earnings"; "peer"] ->
  let existing := PyDict.get section (m_sections m) in
  let content_to_edit :=
    if PyStr.truthy current_content then current_content else existing_content existing in
  content_to_edit ≠ EmptyString ->
  w_edit w section content_to_edit instruction = Raised e ->
  let run :=
    run_regeneration w section analyst_name instruction false memo_store memo_id
      current_content in
  let sources := existing_sources existing in
  let conf := existing_confidence (_confidence medium "Edited section") existing in
  let record :=
    Narrative {| d_section := section; d_content := content_to_edit; d_status := "error" |}
      sources conf in
  run.1 = [ EvRegenStart section;
            EvRegenStep section "Applying changes with Claude";
            EvRegenSection section content_to_edit sources conf;
            EvRegenComplete section ]
  ∧ run.2 = <[memo_id := set_section section record m]> memo_store
  ∧ stored_content run.2 memo_id section = Some content_to_edit
  ∧ ((current_content = EmptyString ∨ current_content = existing_content existing) ->
     content_to_edit = existing_content existing)
  ∧ (∀ k, k ≠ section ->
       PyDict.get k (m_sections (set_section section record m)) = PyDict.get k (m_sections m))
  ∧ (∀ other, other ≠ memo_id -> run.2 !! other = memo_store !! other).
Proof.
  intros Hm Hsec existing content_to_edit Hcontent Hfail run sources conf record.
  assert (run = ([ EvRegenStart section;
                   EvRegenStep section "Applying changes with Claude";
                   EvRegenSection section content_to_edit sources conf;
                   EvRegenComplete section ],
                 <[memo_id := set_section section record m]> memo_store)) as Hrun.
  { subst run. rewrite (run_regeneration_found _ _ _ _ _ _ _ _ m Hm).
    unfold regen_dispatch, draft_only. cbn [negb].
    rewrite bool_decide_eq_true_2 by done.
    unfold draft_only_narrative. fold existing. fold content_to_edit.
    apply truthy_ne in Hcontent. rewrite Hcontent. cbn [negb].
    unfold edit_section. rewrite Hfail. reflexivity. }
  rewrite Hrun. cbn [fst snd].
  split; [done|]. split; [done|]. split; [|split; [|split]].
  - unfold stored_content. rewrite lookup_insert_eq. cbn.
    by rewrite dict_get_set_eq.
  - subst content_to_edit. intros [->| ->]; [done|].
    by destruct (PyStr.truthy _).
  - intros k Hk. cbn. by apply dict_get_set_ne.
  - intros other Hother. by apply lookup_insert_ne.
Qed.

Lemma draft_only_failure_keeps_submitted_content_witness :
  let run :=
    run_regeneration offline "bio" "Mike Mayo" "Shorten it" false one_session
      "0f8fad5b" EmptyString in
  run.1 = [ EvRegenStart "bio";
            EvRegenStep "bio" "Applying changes with Claude";
            EvRegenSection "bio" "Original bio." (rec_sources stored_bio)
              (rec_confidence stored_bio);
            EvRegenComplete "bio" ]
  ∧ stored_content run.2 "0f8fad5b" "bio" = Some "Original bio.".
Proof.
  pose proof (draft_only_failure_keeps_submitted_content offline "bio" "Mike Mayo"
                "Shorten it" EmptyString "0f8fad5b" "offline" one_session stored_memo
                eq_refl ltac:(by left) ltac:(discriminate) eq_refl)
    as (Hevs & _ & Hstored & _).
  split; [exact Hevs|exact Hstored].
Defined.

Lemma valuation_success w tickers v :
  get_valuation_data w tickers = Returned v ->
  bool_decide (vr_status v = "success") = true.
Proof. intros [-> _]%valuation_returned. reflexivity. Qed.

(** Both outcomes of a market-data pull behind [_run_step]. *)
Ltac pull_cases :=
  match goal with
  | |- context [get_valuation_data ?w ?t] =>
      let Hpull := fresh "Hpull" in
      destruct (get_valuation_data w t) as [?v|?e] eqn:Hpull;
      cbn [fmap outcome_fmap _run_step status_is_success get_error];
      [rewrite ?(valuation_success _ _ _ Hpull)|]
  end.

Ltac not_among_events H :=
  repeat (apply elem_of_cons in H as [H|H]; [discriminate|]);
  by apply elem_of_nil in H.

Ltac run_gen :=
  cbn [mbind gen_bind yield mret gen_ret raise await regen_fail fst snd app].

(** The events and the record of a re-search depend on the stored memo
    only through its firm and, for the valuation, its ticker list. *)
Lemma research_factors (w : world) (section analyst_name instruction firm : string)
    (tickers : list string) :
  ∃ evs o,
    (EvRegenComplete section ∉ evs)
    ∧ ∀ m existing,
        m_firm m = firm -> existing_tickers_of existing = tickers ->
        research w section analyst_name instruction m existing
        = (evs, attach section m o).
Proof.
  unfold research.
  repeat case_bool_decide; subst.
  - eexists _, (Returned (Some _)). split; last first.
    { intros m existing -> _. unfold research_bio. run_gen. reflexivity. }
    intros Hin. not_among_events Hin.
  - unfold research_forecast.
    destruct (_run_step (w_read_forecast_data w analyst_name)) as [f|err].
    + destruct (PyStr.truthy instruction);
        [destruct (w_edit_forecast_table w (fr_table_rows f) instruction)
           as [[|r modified]|]|];
        (eexists _, (Returned (Some _)); split; last first;
         [intros m existing -> _; run_gen; reflexivity
         |intros Hin; not_among_events Hin]).
    + eexists _, (Returned None). split; last first.
      { intros m existing _ _. run_gen. reflexivity. }
      intros Hin. not_among_events Hin.
  - eexists _, (Returned (Some _)). split; last first.
    { intros m existing -> _. unfold research_earnings. run_gen. reflexivity. }
    intros Hin. not_among_events Hin.
  - eexists _, (Returned (Some _)). split; last first.
    { intros m existing -> _. unfold research_peer. run_gen. reflexivity. }
    intros Hin. not_among_events Hin.
  - unfold research_valuation, pulled_valuation.
    destruct (_parse_ticker_changes instruction tickers) as [|target rest] eqn:Hnew;
      (destruct (get_valuation_data w (_parse_ticker_changes instruction tickers))
         as [v|e] eqn:Hpull; rewrite Hnew in Hpull).
    + eexists _, (Raised _). split; last first.
      { intros m existing _ ->. rewrite Hnew, Hpull.
        cbn [fmap outcome_fmap _run_step]. rewrite (valuation_success _ _ _ Hpull).
        run_gen. reflexivity. }
      intros Hin. not_among_events Hin.
    + eexists _, (Returned None). split; last first.
      { intros m existing _ ->. rewrite Hnew, Hpull.
        cbn [fmap outcome_fmap _run_step]. run_gen. reflexivity. }
      intros Hin. not_among_events Hin.
    + eexists _, (Returned (Some _)). split; last first.
      { intros m existing _ ->. rewrite Hnew, Hpull.
        cbn [fmap outcome_fmap _run_step]. rewrite (valuation_success _ _ _ Hpull).
        run_gen. reflexivity. }
      intros Hin. not_among_events Hin.
    + eexists _, (Returned None). split; last first.
      { intros m existing _ ->. rewrite Hnew, Hpull.
        cbn [fmap outcome_fmap _run_step]. run_gen. reflexivity. }
      intros Hin. not_among_events Hin.
  - eexists _, (Returned None). split; last first.
    { intros m existing _ _. run_gen. reflexivity. }
    intros Hin. not_among_events Hin.
Qed.

Lemma research_run (w : world) (section analyst_name instruction current_content : string)
    (memo_id firm : string) (tickers : list string) :
  ∃ evs o,
    (EvRegenComplete section ∉ evs)
    ∧ ∀ memo_store m,
        memo_store !! memo_id = Some m ->
        m_firm m = firm ->
        existing_tickers_of (PyDict.get section (m_sections m)) = tickers ->
        run_regeneration w section analyst_name instruction true memo_store memo_id
          current_content
        = match o with
          | Returned (Some r) =>
              (EvRegenStart section :: evs ++ [EvRegenComplete section],
               <[memo_id := set_section section r m]> memo_store)
          | Returned None => (EvRegenStart section :: evs, memo_store)
          | Raised e => (EvRegenStart section :: evs ++ [EvRegenError section e], memo_store)
          end.
Proof.
  destruct (research_factors w section analyst_name instruction firm tickers)
    as (evs & o & Hquiet & Hbranch).
  exists evs, o. split; [done|].
  intros memo_store m Hm Hfirm Htickers.
  rewrite (run_regeneration_found _ _ _ _ _ _ _ _ m Hm).
  unfold regen_dispatch. cbn [negb]. rewrite (Hbranch m _ Hfirm Htickers).
  by destruct o as [[r|]|e].
Qed.

(** C5: a re-search regeneration that completes replaces the stored record
    of its section by a record built from the fresh acquisition, the
    record (with its sources and confidence) that the same request would
    store over any other previous record; the records of all other
    sections, and all other sessions, are unchanged. *)
Theorem research_replaces_only_its_section
    (w : world) (section analyst_name instruction current_content memo_id : string)
    (memo_store : gmap string memo) (m : memo) :
  memo_store !! memo_id = Some m ->
  let run store :=
    run_regeneration w section analyst_name instruction true store memo_id
      current_content in
  EvRegenComplete section ∈ (run memo_store).1 ->
  ∃ record,
    (run memo_store).2 = <[memo_id := set_section section record m]> memo_store
    ∧ PyDict.get section (m_sections (set_section section record m)) = Some record
    ∧ (∀ k, k ≠ section ->
         PyDict.get k (m_sections (set_section section record m))
         = PyDict.get k (m_sections m))
    ∧ (∀ other, other ≠ memo_id -> (run memo_store).2 !! other = memo_store !! other)
    ∧ (∀ store2 m2,
         store2 !! memo_id = Some m2 ->
         m_firm m2 = m_firm m ->
         existing_tickers_of (PyDict.get section (m_sections m2))
         = existing_tickers_of (PyDict.get section (m_sections m)) ->
         (run store2).2 = <[memo_id := set_section section record m2]> store2
         ∧ (run store2).1 = (run memo_store).1).
Proof.
  intros Hm run Hdone. subst run. cbn beta in *.
  destruct (research_run w section analyst_name instruction current_content memo_id
              (m_firm m) (existing_tickers_of (PyDict.get section (m_sections m))))
    as (evs & o & Hquiet & Hrun).
  rewrite (Hrun memo_store m Hm eq_refl eq_refl) in Hdone |- *.
  destruct o as [[record|]|e]; cbn [fst snd] in *.
  - exists record. split; [done|]. split; [apply dict_get_set_eq|].
    split; [intros k Hk; by apply dict_get_set_ne|].
    split; [intros other Hother; by apply lookup_insert_ne|].
    intros store2 m2 Hm2 Hfirm Htickers.
    by rewrite (Hrun store2 m2 Hm2 Hfirm Htickers).
  - apply elem_of_cons in Hdone as [Hdone|Hdone]; [discriminate|done].
  - apply elem_of_cons in Hdone as [Hdone|Hdone]; [discriminate|].
    apply elem_of_app in Hdone as [Hdone|Hdone]; [done|].
    apply list_elem_of_singleton in Hdone. discriminate.
Qed.

Lemma research_replaces_only_its_section_witness :
  let run :=
    run_regeneration offline "earnings" "Mike Mayo" "Focus on margins" true one_session
      "0f8fad5b" EmptyString in
  ∃ record,
    run.2 = <["0f8fad5b" := set_section "earnings" record stored_memo]> one_session
    ∧ PyDict.get "bio" (m_sections (set_section "earnings" record stored_memo))
      = Some stored_bio.
Proof.
  destruct (research_replaces_only_its_section offline "earnings" "Mike Mayo"
              "Focus on margins" EmptyString "0f8fad5b" one_session stored_memo eq_refl)
    as (record & Hstore & _ & Hothers & _).
  - vm_compute.
    repeat first [apply list_elem_of_here | apply list_elem_of_further].
  - exists record. split; [exact Hstore|].
    rewrite (Hothers "bio") by discriminate. reflexivity.
Defined.

(** ** The main run *)

Lemma quiet_gen_ret {A} (a : A) (Q : A -> Prop) : Q a -> quiet_gen (mret a) Q.
Proof. intros HQ. split; [constructor|done]. Qed.

Lemma quiet_gen_yield ev (Q : unit -> Prop) :
  is_terminal ev = false -> Q tt -> quiet_gen (yield ev) Q.
Proof. intros Hev HQ. split; [by repeat constructor|done]. Qed.

Lemma quiet_gen_await {A} (o : outcome A) (Q : A -> Prop) :
  (∀ a, o = Returned a -> Q a) -> quiet_gen (await o) Q.
Proof.
  intros HQ. unfold quiet_gen, gen_spec, await. destruct o; simpl.
  - split; [constructor|by apply HQ].
  - constructor.
Qed.

Lemma quiet_gen_bind {A B} (m : gen A) (f : A -> gen B) (Q1 : A -> Prop) (Q2 : B -> Prop) :
  quiet_gen m Q1 -> (∀ a, Q1 a -> quiet_gen (f a) Q2) -> quiet_gen (m ≫= f) Q2.
Proof.
  intros Hm Hf. apply gen_spec_bind.
  eapply gen_spec_mono; [exact Hm| |done].
  intros evs a [Hq HQ1]. eapply gen_spec_mono; [exact (Hf a HQ1)| |].
  - intros evs' b [Hq' HQ2]. split; [by apply Forall_app|done].
  - intros evs' e Hq'. by apply Forall_app.
Qed.

Lemma quiet_gen_mono {A} (m : gen A) (Q Q' : A -> Prop) :
  quiet_gen m Q -> (∀ a, Q a -> Q' a) -> quiet_gen m Q'.
Proof.
  intros Hm HQ. eapply gen_spec_mono; [exact Hm| |done].
  intros evs a [? ?]. split; [done|by apply HQ].
Qed.

Lemma completing_gen_bind {A B} memo_id (m : gen A) (f : A -> gen B)
    (Q1 : A -> Prop) (Q2 : B -> Prop) :
  quiet_gen m Q1 -> (∀ a, Q1 a -> completing_gen memo_id (f a) Q2) ->
  completing_gen memo_id (m ≫= f) Q2.
Proof.
  intros Hm Hf. apply gen_spec_bind.
  eapply gen_spec_mono; [exact Hm| |done].
  intros evs a [Hq HQ1]. eapply gen_spec_mono; [exact (Hf a HQ1)| |].
  - intros evs' b (pre & -> & Hq' & HQ2). exists (evs ++ pre).
    split; [by rewrite app_assoc|]. split; [by apply Forall_app|done].
  - intros evs' e Hq'. by apply Forall_app.
Qed.

Lemma completing_gen_final {A} memo_id (a : A) (Q : A -> Prop) :
  Q a -> completing_gen memo_id (yield (EvComplete memo_id) ;; mret a) Q.
Proof. intros HQ. exists []. split; [done|]. split; [constructor|done]. Qed.

Ltac quiet_events := repeat constructor.

Ltac group_done :=
  run_gen; split; [quiet_events|eexists; reflexivity].

Lemma bio_group_stores w analyst_name firm st :
  quiet_gen (bio_group w analyst_name firm st) (stores_under "bio" st).
Proof. unfold bio_group, quiet_gen, gen_spec. group_done. Qed.

Lemma forecast_group_stores w analyst_name firm st :
  quiet_gen (forecast_group w analyst_name firm st) (stores_under "forecast" st).
Proof.
  unfold forecast_group, quiet_gen, gen_spec.
  destruct (_run_step (w_read_forecast_data w analyst_name)); group_done.
Qed.

Lemma earnings_group_stores w analyst_name firm company st :
  quiet_gen (earnings_group w analyst_name firm company st) (stores_under "earnings" st).
Proof.
  unfold earnings_group, quiet_gen, gen_spec. cbv zeta.
  destruct (status_is_success _ _ && _); [|group_done].
  destruct (_ =? 5)%nat; [|group_done].
  destruct (last _); [group_done|].
  run_gen. quiet_events.
Qed.

Lemma peer_group_stores w analyst_name firm st :
  quiet_gen (peer_group w analyst_name firm st) (stores_under "peer" st).
Proof. unfold peer_group, quiet_gen, gen_spec. group_done. Qed.

Lemma valuation_group_stores w st :
  quiet_gen (valuation_group w st) (stores_under "valuation" st).
Proof.
  unfold valuation_group, quiet_gen, gen_spec. pull_cases; group_done.
Qed.

Lemma quiet_gen_self {A} (m : gen A) (Q : A -> Prop) :
  quiet_gen m Q -> quiet_gen m (fun a => Q a ∧ m.2 = Returned a).
Proof. unfold quiet_gen, gen_spec. destruct m as [evs [a|e]]; simpl; tauto. Qed.

Lemma when_selected_effect key selected group st :
  (∀ st, quiet_gen (group st) (stores_under key st)) ->
  quiet_gen (when_selected key selected group st) (group_effect key selected st).
Proof.
  intros Hgroup. unfold when_selected, PyList.mem.
  case_bool_decide.
  - eapply quiet_gen_mono; [apply Hgroup|].
    intros st' Hst'. unfold group_effect. by rewrite decide_True.
  - apply quiet_gen_ret. unfold group_effect. by rewrite decide_False.
Qed.

Lemma group_effect_keys key selected st st' :
  group_effect key selected st st' ->
  PyDict.keys (rs_sections st')
  = if decide (key ∈ selected)
    then (if bool_decide (key ∈ PyDict.keys (rs_sections st))
          then PyDict.keys (rs_sections st)
          else PyDict.keys (rs_sections st) ++ [key])
    else PyDict.keys (rs_sections st).
Proof.
  unfold group_effect. destruct (decide (key ∈ selected)); [|by intros ->].
  intros [r ->]. apply dict_keys_set.
Qed.

Lemma group_effect_other key selected st st' k :
  group_effect key selected st st' -> k ≠ key ->
  PyDict.get k (rs_sections st') = PyDict.get k (rs_sections st).
Proof.
  unfold group_effect. destruct (decide (key ∈ selected)); [|by intros ->].
  intros [r ->] Hne. by apply dict_get_set_ne.
Qed.

(** The keys stored by the five groups, run in the canonical order. *)
Lemma selected_keys (selected : list string) (st0 st1 st2 st3 st4 st5 : run_state) :
  rs_sections st0 = [] ->
  group_effect "bio" selected st0 st1 ->
  group_effect "forecast" selected st1 st2 ->
  group_effect "earnings" selected st2 st3 ->
  group_effect "peer" selected st3 st4 ->
  group_effect "valuation" selected st4 st5 ->
  PyDict.keys (rs_sections st5) = filter (fun k => k ∈ selected) SECTION_IDS.
Proof.
  unfold SECTION_IDS.
  intros H0 H1%group_effect_keys H2%group_effect_keys H3%group_effect_keys
    H4%group_effect_keys H5%group_effect_keys.
  rewrite H5, H4, H3, H2, H1, H0. clear.
  rewrite !filter_cons, filter_nil.
  destruct (decide ("bio" ∈ selected)), (decide ("forecast" ∈ selected)),
    (decide ("earnings" ∈ selected)), (decide ("peer" ∈ selected)),
    (decide ("valuation" ∈ selected)); reflexivity.
Qed.

Ltac quiet_step :=
  eapply (completing_gen_bind _ _ _ (fun _ => True));
  [first [ apply quiet_gen_yield; [reflexivity|exact I]
         | apply quiet_gen_await; intros; exact I ]
  |intros ? _].

Lemma inner_completes (w : world) (analyst_name company : string) (selected : list string)
    (memo_store : gmap string memo) :
  let memo_id := PyStr.slice_to 8 (w_uuid4 w) in
  completing_gen memo_id
    (_run_orchestrator_inner w analyst_name company selected memo_store)
    (persisted w analyst_name company selected memo_store memo_id).
Proof.
  unfold _run_orchestrator_inner. cbv zeta.
  quiet_step. quiet_step.
  eapply completing_gen_bind;
    [apply when_selected_effect; intros; apply bio_group_stores|intros st1 H1].
  eapply completing_gen_bind;
    [apply when_selected_effect; intros; apply forecast_group_stores|intros st2 H2].
  eapply completing_gen_bind;
    [apply quiet_gen_self, when_selected_effect; intros; apply earnings_group_stores
    |intros st3 [H3 H3']].
  eapply completing_gen_bind;
    [apply when_selected_effect; intros; apply peer_group_stores|intros st4 H4].
  eapply completing_gen_bind;
    [apply when_selected_effect; intros; apply valuation_group_stores|intros st5 H5].
  quiet_step. quiet_step. quiet_step. quiet_step.
  apply completing_gen_final.
  by eexists _, st1, st2, st3, st4, st5, _.
Qed.

Lemma persisted_memo (w : world) (analyst_name company : string) (selected : list string)
    (memo_store memo_store' : gmap string memo) (memo_id : string) :
  persisted w analyst_name company selected memo_store memo_id memo_store' ->
  ∃ m, memo_store' = <[memo_id := m]> memo_store
       ∧ PyDict.keys (m_sections m) = filter (fun k => k ∈ selected) SECTION_IDS
       ∧ (∃ md, m_quality_check m = Some (w_run_quality_check w (m_sections m) md))
       ∧ m_analyst m = analyst_name
       ∧ m_company m = company.
Proof.
  intros (firm & st1 & st2 & st3 & st4 & st5 & md & H1 & H2 & H3 & _ & H4 & H5 & ->).
  eexists. split; [reflexivity|]. cbn [m_sections m_quality_check m_analyst m_company].
  split; [by apply (selected_keys selected initial_state st1 st2 st3 st4 st5)|].
  split; [by eexists|done].
Qed.

Lemma run_orchestrator_shape (w : world) (analyst_name company : string)
    (selected : list string) (memo_store : gmap string memo) :
  let memo_id := PyStr.slice_to 8 (w_uuid4 w) in
  let run := run_orchestrator w analyst_name company selected memo_store in
  ∃ pre,
    quiet pre
    ∧ match (_run_orchestrator_inner w analyst_name company selected memo_store).2 with
      | Returned memo_store' =>
          run = (pre ++ [EvComplete memo_id], memo_store')
          ∧ persisted w analyst_name company selected memo_store memo_id memo_store'
      | Raised e =>
          run = (pre ++ [EvServerError ("Orchestrator error: " +:+ e)], memo_store)
      end.
Proof.
  intros memo_id run. subst run. unfold run_orchestrator.
  pose proof (inner_completes w analyst_name company selected memo_store) as Hinner.
  unfold completing_gen, gen_spec in Hinner. cbv zeta in Hinner. fold memo_id in Hinner.
  destruct (_run_orchestrator_inner w analyst_name company selected memo_store)
    as [evs [memo_store'|e]]; cbn [fst snd] in *.
  - destruct Hinner as (pre & -> & Hquiet & Hstored). by exists pre.
  - by exists evs.
Qed.

Lemma quiet_no_terminal (pre : list event) :
  quiet pre -> filter (fun e => is_terminal e = true) pre = [].
Proof.
  induction 1 as [|e pre He Hpre IH]; [done|].
  rewrite filter_cons, decide_False; [done|]. by rewrite He.
Qed.

(** C7: the events of one run are a sequence without terminal events
    followed by exactly one terminal event: [complete] with the session
    identifier just generated, under which the Report is then stored, when
    the inner generator returns; [server_error] from the guard, with the
    store untouched, when it raises. *)
Theorem run_ends_with_exactly_one_terminal_event (w : world)
    (analyst_name company : string) (selected : list string)
    (memo_store : gmap string memo) :
  let memo_id := PyStr.slice_to 8 (w_uuid4 w) in
  let run := run_orchestrator w analyst_name company selected memo_store in
  ∃ pre final,
    run.1 = pre ++ [final]
    ∧ quiet pre
    ∧ is_terminal final = true
    ∧ length (filter (fun e => is_terminal e = true) run.1) = 1
    ∧ match (_run_orchestrator_inner w analyst_name company selected memo_store).2 with
      | Returned _ => final = EvComplete memo_id ∧ is_Some (run.2 !! memo_id)
      | Raised e =>
          final = EvServerError ("Orchestrator error: " +:+ e) ∧ run.2 = memo_store
      end.
Proof.
  intros memo_id run.
  destruct (run_orchestrator_shape w analyst_name company selected memo_store)
    as (pre & Hquiet & Hshape).
  fold memo_id in Hshape. fold run in Hshape.
  destruct (_run_orchestrator_inner w analyst_name company selected memo_store).2
    as [memo_store'|e].
  - destruct Hshape as [-> (m & -> & _)%persisted_memo]. exists pre, (EvComplete memo_id).
    cbn [fst snd]. repeat split; try done.
    + by rewrite filter_app, quiet_no_terminal.
    + rewrite lookup_insert_eq. by eexists.
  - rewrite Hshape. eexists pre, _. cbn [fst snd]. repeat split; try done.
    by rewrite filter_app, quiet_no_terminal.
Qed.

Lemma completed_run (w : world) (analyst_name company : string)
    (selected : list string) (memo_store : gmap string memo) :
  let memo_id := PyStr.slice_to 8 (w_uuid4 w) in
  let run := run_orchestrator w analyst_name company selected memo_store in
  (∃ done_id, EvComplete done_id ∈ run.1) ->
  last run.1 = Some (EvComplete memo_id)
  ∧ persisted w analyst_name company selected memo_store memo_id run.2.
Proof.
  intros memo_id run [done_id Hdone].
  destruct (run_orchestrator_shape w analyst_name company selected memo_store)
    as (pre & Hquiet & Hshape).
  fold memo_id in Hshape. fold run in Hshape.
  destruct (_run_orchestrator_inner w analyst_name company selected memo_store).2
    as [memo_store'|e].
  - destruct Hshape as [Hrun Hstored]. rewrite Hrun. cbn [fst snd].
    split; [by rewrite last_snoc|done].
  - exfalso. rewrite Hshape in Hdone. cbn [fst] in Hdone.
    apply elem_of_app in Hdone as [Hdone|Hdone].
    + unfold quiet in Hquiet. rewrite Forall_forall in Hquiet.
      by specialize (Hquiet _ Hdone).
    + by apply list_elem_of_singleton in Hdone.
Qed.

(** C6: when a run completes and every selected key is one of the five
    section keys, the Report stored under the session identifier has a
    record for each selected key and for no other key, in the canonical
    order, together with the verdict of the quality check. *)
Theorem completed_run_stores_selected_sections (w : world)
    (analyst_name company : string) (selected : list string)
    (memo_store : gmap string memo) :
  let run := run_orchestrator w analyst_name company selected memo_store in
  (∃ memo_id, EvComplete memo_id ∈ run.1) ->
  (∀ k, k ∈ selected -> k ∈ SECTION_IDS) ->
  ∃ memo_id m,
    last run.1 = Some (EvComplete memo_id)
    ∧ run.2 = <[memo_id := m]> memo_store
    ∧ run.2 !! memo_id = Some m
    ∧ PyDict.keys (m_sections m) = filter (fun k => k ∈ selected) SECTION_IDS
    ∧ (∀ k, is_Some (PyDict.get k (m_sections m)) ↔ k ∈ selected)
    ∧ (∃ md, m_quality_check m = Some (w_run_quality_check w (m_sections m) md)).
Proof.
  intros run Hdone Hknown.
  destruct (completed_run w analyst_name company selected memo_store Hdone)
    as [Hlast (m & Hstore & Hkeys & Hqc & _)%persisted_memo].
  fold run in Hlast, Hstore. eexists _, m.
  split; [exact Hlast|]. split; [done|].
  split; [rewrite Hstore; apply lookup_insert_eq|]. split; [done|]. split; [|done].
  intros k. rewrite dict_get_is_Some, Hkeys, list_elem_of_filter.
  split; [by intros [? _]|]. intros Hk. split; [done|by apply Hknown].
Qed.

Lemma completed_run_stores_selected_sections_witness :
  let run := run_orchestrator offline "Mike Mayo" "MS" ["earnings"; "valuation"] ∅ in
  ∃ memo_id m,
    last run.1 = Some (EvComplete memo_id)
    ∧ run.2 = <[memo_id := m]> ∅
    ∧ run.2 !! memo_id = Some m
    ∧ PyDict.keys (m_sections m)
      = filter (fun k => k ∈ ["earnings"; "valuation"]) SECTION_IDS
    ∧ (∀ k, is_Some (PyDict.get k (m_sections m)) ↔ k ∈ ["earnings"; "valuation"])
    ∧ (∃ md, m_quality_check m = Some (w_run_quality_check offline (m_sections m) md)).
Proof.
  apply (completed_run_stores_selected_sections offline "Mike Mayo" "MS"
           ["earnings"; "valuation"] ∅).
  - exists "0f8fad5b". vm_compute.
    repeat first [apply list_elem_of_here | apply list_elem_of_further].
  - intros k Hk. unfold SECTION_IDS.
    apply elem_of_cons in Hk as [->|Hk]; [do 2 right; left|].
    apply list_elem_of_singleton in Hk as ->. do 4 right. left.
Defined.

(** ** The exhausted chain, end to end *)

(** C2: when every tier of the chain fails, get_transcript returns the
    result with status "error", empty transcript text, tier 0 and the
    unavailable message.  The earnings group of a run that meets this
    result ends normally, having stored and sent a narrative record with
    no sources and a low confidence rating, and a run that then completes
    has persisted that record under the earnings key. *)
Theorem exhausted_chain_gives_low_confidence_section
    (w : world) (ticker company_name : string) :
  (∀ k, tier_succeeds w ticker company_name k = false) ->
  get_transcript w ticker company_name
  = {| tr_status := "error";
       tr_transcript_text := EmptyString;
       tr_source := "none";
       tr_source_url := EmptyString;
       tr_tier := 0;
       tr_error := Some "[Earnings call transcript not available from public sources]" |}
  ∧ (∀ (analyst_name firm : string) (st : run_state),
       company_name = "Morgan Stanley" ->
       ∃ evs st' d,
         earnings_group w analyst_name firm ticker st = (evs, Returned st')
         ∧ PyDict.get "earnings" (rs_sections st')
           = Some (Narrative d [] (_confidence low "Transcript not available"))
         ∧ d_section d = "earnings"
         ∧ EvSection "earnings" (d_content d) [] (_confidence low "Transcript not available")
           ∈ evs)
  ∧ (∀ (analyst_name : string) (selected : list string) (memo_store : gmap string memo),
       company_name = "Morgan Stanley" ->
       "earnings" ∈ selected ->
       let run := run_orchestrator w analyst_name ticker selected memo_store in
       (∃ done_id, EvComplete done_id ∈ run.1) ->
       ∃ m d,
         run.2 !! PyStr.slice_to 8 (w_uuid4 w) = Some m
         ∧ PyDict.get "earnings" (m_sections m)
           = Some (Narrative d [] (_confidence low "Transcript not available"))).
Proof.
  intros Hall. split; [by rewrite exhausted_chain|]. split.
  - intros analyst_name firm st ->.
    do 3 eexists. split; [by apply earnings_group_unavailable, exhausted_chain|].
    split; [apply dict_get_set_eq|].
    split; [apply generate_section_name|].
    set_solver.
  - intros analyst_name selected memo_store -> Hsel run Hdone.
    destruct (completed_run w analyst_name ticker selected memo_store Hdone)
      as [_ (firm & st1 & st2 & st3 & st4 & st5 & md
             & _ & _ & _ & Hearn & Hpeer & Hval & Hstore)].
    fold run in Hstore. rewrite Hstore, lookup_insert_eq.
    eexists _, _. split; [reflexivity|]. cbn [m_sections].
    rewrite (group_effect_other _ _ _ _ "earnings" Hval) by discriminate.
    rewrite (group_effect_other _ _ _ _ "earnings" Hpeer) by discriminate.
    unfold when_selected, PyList.mem in Hearn.
    rewrite bool_decide_eq_true_2 in Hearn by done.
    rewrite (earnings_group_unavailable w analyst_name firm ticker st2
               (exhausted_chain _ _ _ Hall)) in Hearn.
    cbn [snd] in Hearn. injection Hearn as <-.
    apply dict_get_set_eq.
Qed.

Lemma exhausted_chain_gives_low_confidence_section_witness :
  get_transcript offline "MS" "Morgan Stanley" = all_tiers_failed
  ∧ ∃ m d,
      (run_orchestrator offline "Mike Mayo" "MS" ["earnings"] ∅).2 !! "0f8fad5b" = Some m
      ∧ PyDict.get "earnings" (m_sections m)
        = Some (Narrative d [] (_confidence low "Transcript not available")).
Proof.
  destruct (exhausted_chain_gives_low_confidence_section offline "MS" "Morgan Stanley")
    as (Hresult & _ & Hrun).
  - intros k. destruct k as [|[|[|[|[|[|k]]]]]]; reflexivity.
  - split; [exact Hresult|].
    apply (Hrun "Mike Mayo" ["earnings"] ∅ eq_refl).
    + left.
    + exists "0f8fad5b". vm_compute.
      repeat first [apply list_elem_of_here | apply list_elem_of_further].
Defined.

(** ** Worked examples *)

Example chain_without_cik_skips_tier_2 :
  (get_transcript_logged only_fmp_answers "GS" "Goldman Sachs").1 = [1; 3]
  ∧ tr_tier (get_transcript only_fmp_answers "GS" "Goldman Sachs") = 3.
Proof. by vm_compute. Qed.

Example reordering_edit_changes_the_list :
  _parse_ticker_changes "Replace GS with JPM, add GS, remove JPM" ["MS"; "GS"; "JPM"]
  = ["MS"; "JPM"; "GS"].
Proof. by vm_compute. Qed.

Example greedy_ticker_group_takes_five_letters :
  _parse_ticker_changes "swap  schw for blk, drop JPM and include abcdefg" ALL_TICKERS
  = ["MS"; "GS"; "BAC"; "C"; "WFC"; "BLK"; "ABCDE"].
Proof. by vm_compute. Qed.

Example unreadable_spreadsheet_ends_in_server_error :
  (run_orchestrator no_spreadsheet "Mike Mayo" "MS" SECTION_IDS ∅).1
  = [EvServerError "Orchestrator error: No such file: analyst_key_metrics.xlsx"].
Proof. by vm_compute. Qed.

Example malformed_verdict_ends_in_server_error :
  last (run_orchestrator verdict_is_a_list "Mike Mayo" "MS" ["earnings"] ∅).1
  = Some (EvServerError "Orchestrator error: 'list' object has no attribute 'get'")
  ∧ (run_orchestrator verdict_is_a_list "Mike Mayo" "MS" ["earnings"] ∅).2 = ∅.
Proof. by vm_compute. Qed.

Example offline_run_completes :
  last (run_orchestrator offline "Mike Mayo" "MS" SECTION_IDS ∅).1
  = Some (EvComplete "0f8fad5b").
Proof. by vm_compute. Qed.

Example thousands_separator : fmt_thousands 4321 = "4,321".
Proof. by vm_compute. Qed.

(* ===================================================================== *)
(** * Further properties of the code *)
(* ===================================================================== *)

(** ** The fallback chain with several sources available *)

(** X1: whatever the tiers answer, the tier reported by get_transcript is
    the first attempt of the chain that succeeds, and 0 exactly when none
    does; the tiers announced are the chain's attempts up to the reported
    one (all of them when it is 0); status is "success" and the text is
    non-empty exactly when the tier is not 0. *)
Theorem first_success_wins (w : world) (ticker company_name : string) :
  let run := get_transcript_logged w ticker company_name in
  let k := tr_tier run.2 in
  (k = 0 ↔ ∀ j, tier_succeeds w ticker company_name j = false)
  ∧ (k ≠ 0 ->
       tier_succeeds w ticker company_name k = true
       ∧ ∀ j, j < k -> tier_succeeds w ticker company_name j = false)
  ∧ run.1 = filter (fun j => k = 0 ∨ j ≤ k) (tier_chain w ticker company_name)
  ∧ (tr_status run.2 = "success" ↔ k ≠ 0)
  ∧ (tr_transcript_text run.2 ≠ EmptyString ↔ k ≠ 0)
  ∧ k ≤ 5.
Proof.
  unfold tier_succeeds, tier_chain, tier_attempt, get_transcript_logged, tiers_3_to_5.
  rewrite !company_cik.
  assert (∀ t : tier_outcome, has_text t = true -> default EmptyString t.1 ≠ EmptyString)
    as Htext.
  { intros [[s|] u]; unfold has_text; simpl; [|done]. by destruct s. }
  destruct (decide (ticker = "MS")) as [->|Hne]; simpl;
    destruct (has_text (w_search_efts w company_name)) eqn:H1; simpl;
    try destruct (has_text (w_search_submissions w "0000895421")) eqn:H2; simpl;
    try destruct (has_text (w_search_fmp w _)) eqn:H3; simpl;
    try destruct (has_text (w_search_transcript_web w company_name _)) eqn:H4; simpl;
    try destruct (has_text (w_read_local_transcript w)) eqn:H5; simpl.
  all: repeat split; try done; try lia; try (intros _; by apply Htext);
    try (intros Hall;
         first [ specialize (Hall 1) | idtac ]; simpl in Hall; congruence).
  all: try (intros j Hj; destruct j as [|[|[|[|[|[|j]]]]]]; simpl; try done; lia).
  all: try (intros j; destruct j as [|[|[|[|[|[|j]]]]]]; simpl; done).
  all: try (intros Hall; first
         [ pose proof (Hall 2) as Hc; simpl in Hc; congruence
         | pose proof (Hall 3) as Hc; simpl in Hc; congruence
         | pose proof (Hall 4) as Hc; simpl in Hc; congruence
         | pose proof (Hall 5) as Hc; simpl in Hc; congruence ]).
  all: intros _ j; destruct j as [|[|[|[|[|[|j]]]]]]; simpl; done.
Qed.

(** ** The section-scoped channel *)

Ltac regen_quiet_events := unfold regen_quiet; repeat constructor.

Ltac branch_ends :=
  unfold branch_shape; run_gen;
  first [ solve [regen_quiet_events]
        | solve [eexists [], _; split; [reflexivity|regen_quiet_events]]
        | solve [eexists [_], _; split; [reflexivity|regen_quiet_events]] ].

Lemma draft_only_shape w section instruction current_content m existing :
  branch_shape section (draft_only w section instruction current_content m existing).
Proof.
  unfold draft_only. repeat case_bool_decide; subst.
  - unfold draft_only_narrative. cbv zeta.
    destruct (negb _); branch_ends.
  - unfold draft_only_forecast.
    destruct existing as [[|f ? ?| |]|]; try branch_ends.
    destruct (fr_table_rows f) as [|r0 rows]; [branch_ends|].
    destruct (PyStr.truthy instruction); [|branch_ends].
    destruct (w_edit_forecast_table w (r0 :: rows) instruction) as [[|r modified]|];
      branch_ends.
  - unfold draft_only_valuation, pulled_valuation. cbv zeta.
    case_bool_decide.
    + pull_cases; [destruct (_parse_ticker_changes _ _)|]; branch_ends.
    + destruct existing as [[| |v ? ? ?|]|]; try branch_ends.
      destruct (vr_tickers v); branch_ends.
  - branch_ends.
Qed.

Lemma research_shape w section analyst_name instruction m existing :
  branch_shape section (research w section analyst_name instruction m existing).
Proof.
  unfold research. repeat case_bool_decide; subst.
  - unfold research_bio. branch_ends.
  - unfold research_forecast.
    destruct (_run_step (w_read_forecast_data w analyst_name)) as [f|err]; [|branch_ends].
    destruct (PyStr.truthy instruction); [|branch_ends].
    destruct (w_edit_forecast_table w (fr_table_rows f) instruction) as [[|r modified]|];
      branch_ends.
  - unfold research_earnings. branch_ends.
  - unfold research_peer. branch_ends.
  - unfold research_valuation, pulled_valuation. cbv zeta.
    pull_cases; [destruct (_parse_ticker_changes _ _)|]; branch_ends.
  - branch_ends.
Qed.

Lemma regen_quiet_filter (pre : list event) :
  regen_quiet pre -> filter (fun e => is_regen_terminal e = true) pre = [].
Proof.
  induction 1 as [|e pre He Hpre IH]; [done|].
  rewrite filter_cons, decide_False; [done|]. by rewrite He.
Qed.

(** X2: the events of every regeneration request, in either mode and for
    any section name and session id, end with exactly one terminal event,
    regen_complete or regen_error for that section, and carry no other
    terminal event; the store is changed only when the stream ends with
    regen_complete, and then only under the session id of the request. *)
Theorem regeneration_ends_with_one_terminal_event
    (w : world) (section analyst_name instruction : string) (re_search : bool)
    (memo_store : gmap string memo) (memo_id current_content : string) :
  let run :=
    run_regeneration w section analyst_name instruction re_search memo_store memo_id
      current_content in
  ∃ pre final,
    run.1 = pre ++ [final]
    ∧ regen_quiet pre
    ∧ length (filter (fun e => is_regen_terminal e = true) run.1) = 1
    ∧ (final = EvRegenComplete section ∨ ∃ message, final = EvRegenError section message)
    ∧ (final ≠ EvRegenComplete section -> run.2 = memo_store)
    ∧ (∀ other, other ≠ memo_id -> run.2 !! other = memo_store !! other).
Proof.
  intros run. subst run.
  destruct (memo_store !! memo_id) as [m|] eqn:Hm.
  - rewrite (run_regeneration_found _ _ _ _ _ _ _ _ m Hm). cbv zeta.
    assert (branch_shape section
              (regen_dispatch w section analyst_name instruction re_search
                 current_content m)) as Hshape.
    { unfold regen_dispatch. destruct re_search; cbn [negb];
        [apply research_shape|apply draft_only_shape]. }
    unfold branch_shape in Hshape.
    destruct (regen_dispatch w section analyst_name instruction re_search
                current_content m) as [evs [[m'|]|e]]; cbn [fst snd] in *.
    + exists (EvRegenStart section :: evs), (EvRegenComplete section).
      repeat split; try done.
      * by constructor.
      * change (EvRegenStart section :: evs ++ [EvRegenComplete section])
          with ((EvRegenStart section :: evs) ++ [EvRegenComplete section]).
        rewrite filter_app, regen_quiet_filter; [done|by constructor].
      * by left.
      * intros other Hother. by apply lookup_insert_ne.
    + destruct Hshape as (pre & message & -> & Hquiet).
      exists (EvRegenStart section :: pre), (EvRegenError section message).
      repeat split; try done.
      * by constructor.
      * change (EvRegenStart section :: pre ++ [EvRegenError section message])
          with ((EvRegenStart section :: pre) ++ [EvRegenError section message]).
        rewrite filter_app, regen_quiet_filter; [done|by constructor].
      * right. by eexists.
    + exists (EvRegenStart section :: evs), (EvRegenError section e).
      repeat split; try done.
      * by constructor.
      * change (EvRegenStart section :: evs ++ [EvRegenError section e])
          with ((EvRegenStart section :: evs) ++ [EvRegenError section e]).
        rewrite filter_app, regen_quiet_filter; [done|by constructor].
      * right. by eexists.
  - unfold run_regeneration, _run_regeneration_inner. rewrite Hm. cbn.
    exists [], (EvRegenError section "Memo not found").
    repeat split; try done.
    + constructor.
    + right. by eexists.
Qed.


(** X3: a regeneration request for an unknown session id, or for a section
    name that is none of the five keys, is answered with a regen_error
    that says so ("Memo not found", "Unknown section: <name>"), in either
    mode, and leaves the store as it is. *)
Theorem unknown_session_or_section_is_rejected
    (w : world) (section analyst_name instruction : string) (re_search : bool)
    (memo_store : gmap string memo) (memo_id current_content : string) :
  memo_store !! memo_id = None ∨ section ∉ SECTION_IDS ->
  run_regeneration w section analyst_name instruction re_search memo_store memo_id
    current_content
  = (match memo_store !! memo_id with
     | None => [EvRegenError section "Memo not found"]
     | Some _ => [EvRegenStart section;
                  EvRegenError section ("Unknown section: " +:+ section)]
     end, memo_store).
Proof.
  intros Hcase.
  destruct (memo_store !! memo_id) as [m|] eqn:Hm.
  - destruct Hcase as [?|Hsection]; [done|].
    rewrite (run_regeneration_found _ _ _ _ _ _ _ _ m Hm). cbv zeta.
    assert (regen_dispatch w section analyst_name instruction re_search current_content m
            = regen_fail section ("Unknown section: " +:+ section)) as ->; [|done].
    unfold SECTION_IDS in Hsection.
    unfold regen_dispatch, draft_only, research.
    destruct re_search; cbn [negb];
      repeat (rewrite bool_decide_eq_false_2;
              [|first [ intros ->; apply Hsection; in_list
                      | intros Hin; apply Hsection;
                        repeat (apply elem_of_cons in Hin as [->|Hin]; [in_list|]);
                        by apply elem_of_nil in Hin ]]); done.
  - unfold run_regeneration, _run_regeneration_inner. by rewrite Hm.
Qed.

Lemma unknown_session_or_section_is_rejected_witness :
  run_regeneration offline "summary" "Mike Mayo" "Shorten it" false one_session
    "0f8fad5b" EmptyString
  = ([EvRegenStart "summary"; EvRegenError "summary" "Unknown section: summary"],
     one_session).
Proof.
  apply (unknown_session_or_section_is_rejected offline "summary" "Mike Mayo" "Shorten it"
           false one_session "0f8fad5b" EmptyString).
  right. unfold SECTION_IDS. intros Hin.
  repeat (apply elem_of_cons in Hin as [Hin|Hin]; [discriminate|]).
  by apply elem_of_nil in Hin.
Defined.

Lemma dict_set_same {V} (k : string) (v : V) (d : PyDict.t V) :
  PyDict.get k d = Some v -> PyDict.set k v d = d.
Proof.
  induction d as [|[k' v'] d IH]; simpl; [done|].
  destruct (decide (k = k')) as [->|Hne]; [by intros [= ->]|].
  intros Hget. by rewrite IH.
Qed.

Lemma set_section_same (section : string) (r : section_record) (m : memo) :
  PyDict.get section (m_sections m) = Some r -> set_section section r m = m.
Proof. intros Hget. destruct m. unfold set_section. simpl in *. by rewrite dict_set_same. Qed.

(** X4: a draft-only regeneration of a narrative section or of the
    forecast that completes stores a record with the provenance sources
    and the confidence rating of the record it replaced, whether the
    drafting call succeeded or failed, and changes no other section. *)
Theorem draft_only_carries_provenance_over
    (w : world) (section analyst_name instruction current_content memo_id : string)
    (memo_store : gmap string memo) (m : memo) (old : section_record) :
  memo_store !! memo_id = Some m ->
  PyDict.get section (m_sections m) = Some old ->
  section ∈ ["bio"; "earnings"; "peer"; "forecast"] ->
  let run :=
    run_regeneration w section analyst_name instruction false memo_store memo_id
      current_content in
  EvRegenComplete section ∈ run.1 ->
  ∃ new,
    run.2 = <[memo_id := set_section section new m]> memo_store
    ∧ rec_sources new = rec_sources old
    ∧ rec_confidence new = rec_confidence old
    ∧ (∀ k, k ≠ section ->
         PyDict.get k (m_sections (set_section section new m))
         = PyDict.get k (m_sections m)).
Proof.
  intros Hm Hold Hsection run Hdone. subst run.
  rewrite (run_regeneration_found _ _ _ _ _ _ _ _ m Hm) in Hdone |- *.
  cbv zeta in *. unfold regen_dispatch in *. cbn [negb] in *. rewrite Hold in *.
  assert (∀ evs, EvRegenComplete section ∈ (EvRegenStart section :: evs, memo_store).1 ->
                 regen_quiet evs -> False) as Hnot_done.
  { intros evs Hin Hquiet. cbn [fst] in Hin.
    apply elem_of_cons in Hin as [?|Hin]; [done|].
    unfold regen_quiet in Hquiet. rewrite Forall_forall in Hquiet.
    by specialize (Hquiet _ Hin). }
  unfold draft_only in *.
  case_bool_decide as Hnarrative.
  - unfold draft_only_narrative in *. cbv zeta in *.
    destruct (negb _).
    + exfalso. revert Hdone. run_gen. intros Hdone.
      eapply (Hnot_done [EvRegenError section _]); [exact Hdone|].
      cbn [fst] in Hdone. not_among_events Hdone.
    + revert Hdone. run_gen. intros _. eexists. split; [reflexivity|].
      split; [done|]. split; [done|]. intros k Hk. by apply dict_get_set_ne.
  - assert (section = "forecast") as ->.
    { do 3 (apply elem_of_cons in Hsection as [->|Hsection];
            [exfalso; apply Hnarrative; in_list|]).
      apply elem_of_cons in Hsection as [->|Hsection]; [done|].
      by apply elem_of_nil in Hsection. }
    rewrite bool_decide_eq_true_2 in * by done.
    unfold draft_only_forecast in *.
    destruct old as [|f sources conf| |];
      try (exfalso; revert Hdone; run_gen; intros Hdone; cbn [fst] in Hdone;
           not_among_events Hdone).
    destruct (fr_table_rows f) as [|r0 rows];
      [exfalso; revert Hdone; run_gen; intros Hdone; cbn [fst] in Hdone;
       not_among_events Hdone|].
    destruct (PyStr.truthy instruction);
      [destruct (w_edit_forecast_table w (r0 :: rows) instruction) as [[|r modified]|]|];
      revert Hdone; run_gen; intros _; (eexists; split; [reflexivity|]);
      (split; [done|]); (split; [done|]); intros k Hk; by apply dict_get_set_ne.
Qed.

Lemma draft_only_carries_provenance_over_witness :
  let run :=
    run_regeneration offline "bio" "Mike Mayo" "Shorten it" false one_session
      "0f8fad5b" EmptyString in
  ∃ new,
    run.2 = <["0f8fad5b" := set_section "bio" new stored_memo]> one_session
    ∧ rec_sources new = rec_sources stored_bio
    ∧ rec_confidence new = rec_confidence stored_bio.
Proof.
  destruct (draft_only_carries_provenance_over offline "bio" "Mike Mayo" "Shorten it"
              EmptyString "0f8fad5b" one_session stored_memo stored_bio eq_refl eq_refl)
    as (new & Hstore & Hsources & Hconf & _).
  - left.
  - vm_compute.
    repeat first [apply list_elem_of_here | apply list_elem_of_further].
  - exists new. by repeat split.
Defined.

(** X5: in a draft-only regeneration of a stored forecast, when there is no
    instruction, or the table edit returns nothing or an empty list, the
    store is left exactly as it was and the stored forecast is sent back
    in regen_forecast, followed by regen_complete. *)
Theorem failed_forecast_edit_changes_nothing
    (w : world) (analyst_name instruction current_content memo_id : string)
    (memo_store : gmap string memo) (m : memo)
    (f : forecast_result) (sources : list source) (conf : confidence) :
  memo_store !! memo_id = Some m ->
  PyDict.get "forecast" (m_sections m) = Some (Forecast f sources conf) ->
  fr_table_rows f ≠ [] ->
  instruction = EmptyString
  ∨ w_edit_forecast_table w (fr_table_rows f) instruction = None
  ∨ w_edit_forecast_table w (fr_table_rows f) instruction = Some [] ->
  let run :=
    run_regeneration w "forecast" analyst_name instruction false memo_store memo_id
      current_content in
  run.2 = memo_store
  ∧ run.1
    = EvRegenStart "forecast"
      :: (if PyStr.truthy instruction
          then [EvRegenStep "forecast" "Applying changes to forecast table"] else [])
      ++ [EvRegenForecast (Forecast f sources conf); EvRegenComplete "forecast"].
Proof.
  intros Hm Hold Hrows Hfail run. subst run.
  rewrite (run_regeneration_found _ _ _ _ _ _ _ _ m Hm). cbv zeta.
  unfold regen_dispatch. cbn [negb]. rewrite Hold.
  change (draft_only w "forecast" instruction current_content m
            (Some (Forecast f sources conf)))
    with (draft_only_forecast w "forecast" instruction m (Some (Forecast f sources conf))).
  unfold draft_only_forecast.
  destruct (fr_table_rows f) as [|r0 rows] eqn:Hf; [done|].
  assert (Forecast f sources conf = Forecast f sources conf) as _ by done.
  destruct (PyStr.truthy instruction) eqn:Hinstr.
  - destruct Hfail as [->|[Hfail|Hfail]]; [done| |]; rewrite Hfail; run_gen;
      rewrite (set_section_same _ _ _ Hold), insert_id; done.
  - run_gen. rewrite (set_section_same _ _ _ Hold), insert_id; done.
Qed.

Lemma failed_forecast_edit_changes_nothing_witness :
  let run :=
    run_regeneration offline "forecast" "Mike Mayo" "Add a subtotal row" false
      forecast_session "0f8fad5b" EmptyString in
  run.2 = forecast_session
  ∧ run.1
    = [ EvRegenStart "forecast";
        EvRegenStep "forecast" "Applying changes to forecast table";
        EvRegenForecast stored_forecast;
        EvRegenComplete "forecast" ].
Proof.
  eapply (failed_forecast_edit_changes_nothing offline "Mike Mayo" "Add a subtotal row"
            EmptyString "0f8fad5b" forecast_session forecast_memo).
  - reflexivity.
  - reflexivity.
  - discriminate.
  - right. left. reflexivity.
Defined.

(** X6: a re-search regeneration of the earnings section always looks up
    the transcript of ticker MS, and when every tier of that chain fails it
    still stores one provenance source, labelled "Transcript from none",
    with a medium confidence rating "Regenerated section", where the main
    run stores no source and a low rating. *)
Theorem research_of_earnings_without_transcript
    (w : world) (analyst_name instruction current_content memo_id : string)
    (memo_store : gmap string memo) (m : memo) :
  memo_store !! memo_id = Some m ->
  (∀ k, tier_succeeds w "MS" "Morgan Stanley" k = false) ->
  let run :=
    run_regeneration w "earnings" analyst_name instruction true memo_store memo_id
      current_content in
  let d :=
    generate_section w "earnings" "earnings_feedback"
      [("analyst_name", analyst_name); ("firm", m_firm m);
       ("transcript_text", unavailable_text)] instruction in
  let sources :=
    [ {| src_url := EmptyString; src_domain := "none";
         src_label := "Transcript from none" |} ] in
  let conf := _confidence medium "Regenerated section" in
  run.2 = <[memo_id := set_section "earnings" (Narrative d sources conf) m]> memo_store
  ∧ run.1 = [ EvRegenStart "earnings";
              EvRegenStep "earnings" "Re-fetching earnings transcript";
              EvRegenStep "earnings" "Drafting post-earnings feedback";
              EvRegenSection "earnings" (d_content d) sources conf;
              EvRegenComplete "earnings" ].
Proof.
  intros Hm Hall run d sources conf. subst run.
  rewrite (run_regeneration_found _ _ _ _ _ _ _ _ m Hm). cbv zeta.
  unfold regen_dispatch. cbn [negb].
  change (research w "earnings" analyst_name instruction m
            (PyDict.get "earnings" (m_sections m)))
    with (research_earnings w "earnings" analyst_name instruction (m_firm m) m).
  unfold research_earnings. rewrite (exhausted_chain _ _ _ Hall). done.
Qed.

Lemma research_of_earnings_without_transcript_witness :
  let run :=
    run_regeneration offline "earnings" "Mike Mayo" "Focus on margins" true one_session
      "0f8fad5b" EmptyString in
  ∃ d, run.1 = [ EvRegenStart "earnings";
                 EvRegenStep "earnings" "Re-fetching earnings transcript";
                 EvRegenStep "earnings" "Drafting post-earnings feedback";
                 EvRegenSection "earnings" (d_content d)
                   [ {| src_url := EmptyString; src_domain := "none";
                        src_label := "Transcript from none" |} ]
                   (_confidence medium "Regenerated section");
                 EvRegenComplete "earnings" ].
Proof.
  eexists.
  apply (research_of_earnings_without_transcript offline "Mike Mayo" "Focus on margins"
           EmptyString "0f8fad5b" one_session stored_memo eq_refl).
  intros k. destruct k as [|[|[|[|[|[|k]]]]]]; reflexivity.
Defined.

(** ** Search leaves *)

Lemma collect_hits_step (found : list search_hit) (st : list search_hit * gset string)
    (r : search_hit) :
  hits_collected found st ->
  hits_collected (found ++ [r])
    (if PyStr.truthy (hit_href r) && negb (bool_decide (hit_href r ∈ st.2))
     then (st.1 ++ [r], {[hit_href r]} ∪ st.2) else st).
Proof.
  intros (Hnodup & Hseen & Hfrom & Hall).
  assert (hit_href r = EmptyString ∨ hit_href r ∈ st.2 ->
          hits_collected (found ++ [r]) st) as Hskip.
  { intros Hr. split; [done|]. split; [done|]. split.
    - intros r' Hr'. split; [by apply Hfrom|].
      apply elem_of_app. left. by apply Hfrom.
    - intros r' [Hr'| ->%list_elem_of_singleton]%elem_of_app Hu; [by apply Hall|].
      by destruct Hr. }
  destruct (PyStr.truthy (hit_href r)) eqn:Hurl; cbn [andb].
  2:{ apply Hskip. left. by destruct (hit_href r). }
  apply truthy_ne in Hurl. case_bool_decide as Hin; cbn [negb].
  { apply Hskip. by right. }
  unfold hits_collected. cbn [fst snd]. rewrite map_app. cbn [map].
  split; [|split; [|split]].
  - apply NoDup_app. split; [done|]. split.
    + intros u Hu ->%list_elem_of_singleton. by apply Hin, Hseen.
    + repeat constructor. by intros ?%elem_of_nil.
  - intros u. rewrite elem_of_app, elem_of_union, elem_of_singleton, Hseen,
      list_elem_of_singleton. tauto.
  - intros r' [Hr'| ->%list_elem_of_singleton]%elem_of_app.
    + split; [by apply Hfrom|]. apply elem_of_app. left. by apply Hfrom.
    + split; [done|]. apply elem_of_app. right. by left.
  - intros r' [Hr'| ->%list_elem_of_singleton]%elem_of_app Hu.
    + apply elem_of_union. right. by apply Hall.
    + apply elem_of_union. left. by apply elem_of_singleton.
Qed.

Lemma collect_hits_spec (results : list search_hit) :
  ∀ found st,
    hits_collected found st ->
    hits_collected (found ++ results) (collect_hits st results).
Proof.
  unfold collect_hits.
  induction results as [|r results IH]; intros found st Hst; simpl.
  - by rewrite app_nil_r.
  - replace (found ++ r :: results) with ((found ++ [r]) ++ results)
      by (by rewrite <- app_assoc).
    apply IH. by apply collect_hits_step.
Qed.

Lemma collect_queries_spec (w : world) (queries : list string) :
  ∀ found st,
    hits_collected found st ->
    hits_collected (found ++ concat (map (fun q => _search w q 8) queries))
      (fold_left (fun st query => collect_hits st (_search w query 8)) queries st).
Proof.
  induction queries as [|q queries IH]; intros found st Hst; simpl.
  - by rewrite app_nil_r.
  - rewrite app_assoc. apply IH. by apply collect_hits_spec.
Qed.

(** X7: the results of search_analyst_bio have pairwise distinct, non-empty
    URLs; each of them was returned by one of the four queries, and every
    URL returned by a query appears among them. *)
Theorem bio_search_keeps_each_url_once (w : world) (analyst_name firm : string) :
  let results := br_search_results (search_analyst_bio w analyst_name firm) in
  let found := concat (map (fun q => _search w q 8) (bio_queries analyst_name firm)) in
  NoDup (map hit_href results)
  ∧ (∀ r, r ∈ results -> hit_href r ≠ EmptyString ∧ r ∈ found)
  ∧ (∀ r, r ∈ found -> hit_href r ≠ EmptyString -> hit_href r ∈ map hit_href results).
Proof.
  intros results found. subst results found. unfold search_analyst_bio.
  cbn [br_search_results].
  destruct (collect_queries_spec w (bio_queries analyst_name firm) [] ([], ∅))
    as (Hnodup & Hseen & Hfrom & Hall).
  { split; [constructor|]. split.
    - intros u. cbn. split; [by intros ?%elem_of_empty|by intros ?%elem_of_nil].
    - split; by intros r ?%elem_of_nil. }
  rewrite app_nil_l in *. split; [done|]. split; [done|].
  intros r Hr Hu. by apply Hseen, Hall.
Qed.

Lemma top_sources_loop_complete (w : world) (max_n : nat) :
  ∀ rest pre sources seen,
    seen_domains w pre seen ->
    (∀ d, d ∈ seen -> d ∈ map src_domain sources) ->
    length sources < max_n ->
    length (top_sources_loop w max_n rest sources seen) < max_n ->
    ∀ r, r ∈ pre ++ rest -> hit_href r ≠ EmptyString ->
         _extract_domain w (hit_href r)
         ∈ map src_domain (top_sources_loop w max_n rest sources seen).
Proof.
  induction rest as [|r0 rest IH]; intros pre sources seen Hseen Hsub Hlen Hshort;
    simpl in *.
  { intros r Hr Hu. rewrite app_nil_r in Hr. apply Hsub, Hseen. by exists r. }
  replace (pre ++ r0 :: rest) with ((pre ++ [r0]) ++ rest) by (by rewrite <- app_assoc).
  destruct (PyStr.truthy (hit_href r0)) eqn:Hurl; simpl in *.
  2:{ apply IH; try done. apply seen_domains_skip; [done|]. left.
      by destruct (hit_href r0). }
  apply truthy_ne in Hurl as Hurl'.
  rewrite (extract_domain_truthy w _ Hurl) in *. simpl in *.
  case_bool_decide as Hin; simpl in *.
  - destruct (max_n <=? length sources) eqn:Hbreak; [apply Nat.leb_le in Hbreak; lia|].
    apply IH; try done. apply seen_domains_skip; auto.
  - destruct (max_n <=? length (sources ++ [_])) eqn:Hbreak.
    + apply Nat.leb_le in Hbreak. lia.
    + apply Nat.leb_gt in Hbreak. apply IH; try done.
      * by apply seen_domains_add.
      * intros d. rewrite elem_of_union, elem_of_singleton, map_app, elem_of_app.
        intros [->|Hd]; [right; by left|left; by apply Hsub].
Qed.

Lemma top_sources_zero_is_one (w : world) (search_results : list search_hit) :
  _top_sources w search_results 0 = _top_sources w search_results 1.
Proof.
  unfold _top_sources. induction search_results as [|r rest IH]; simpl; [done|].
  destruct (PyStr.truthy (hit_href r)) eqn:Hurl; simpl; [|done].
  by rewrite (extract_domain_truthy w _ Hurl).
Qed.

(** X8: for any cap max_n, _top_sources returns at most max(max_n, 1)
    sources: a cap of 0 still yields the first source, exactly as a cap of
    1 does.  When fewer than max_n sources come back, no domain was left
    out: the domain of every search result that has a URL is the domain of
    one of the sources. *)
Theorem top_sources_drops_nothing_below_the_cap
    (w : world) (search_results : list search_hit) (max_n : nat) :
  let out := _top_sources w search_results max_n in
  length out ≤ Nat.max max_n 1
  ∧ _top_sources w search_results 0 = _top_sources w search_results 1
  ∧ (length out < max_n ->
     ∀ r, r ∈ search_results -> hit_href r ≠ EmptyString ->
          _extract_domain w (hit_href r) ∈ map src_domain out).
Proof.
  assert (seen_domains w [] ∅) as Hempty.
  { intros d. split; [by intros ?%elem_of_empty|]. by intros (r & ?%elem_of_nil & _). }
  cbv zeta. split; [|split].
  - assert (∀ n, 1 ≤ n -> length (_top_sources w search_results n) ≤ n) as Hbound.
    { intros n Hn. unfold _top_sources.
      destruct (top_sources_loop_spec w n search_results [] [] ∅ Hempty)
        as (extra & idxs & -> & Hle & _); [simpl; lia|done]. }
    destruct max_n as [|n].
    + rewrite top_sources_zero_is_one. by apply Hbound.
    + rewrite Nat.max_l by lia. apply Hbound. lia.
  - apply top_sources_zero_is_one.
  - intros Hshort r Hr Hu. unfold _top_sources in *.
    apply (top_sources_loop_complete w max_n search_results [] [] ∅);
      first [done | by intros d ?%elem_of_empty | simpl; lia].
Qed.

(** ** Sections that were not selected *)

Lemma gen_bind_ext {A B} (m m' : gen A) (f f' : A -> gen B) :
  m = m' -> (∀ a, f a = f' a) -> (m ≫= f) = (m' ≫= f').
Proof.
  intros -> Hf. unfold mbind, gen_bind. destruct (m'.2); by rewrite ?Hf.
Qed.

Lemma top_sources_ext (w w' : world) :
  w_netloc w = w_netloc w' ->
  ∀ search_results max_n, _top_sources w search_results max_n
                          = _top_sources w' search_results max_n.
Proof.
  intros Hnetloc search_results max_n. unfold _top_sources.
  generalize (∅ : gset string) as seen. generalize (@nil source) as sources.
  induction search_results as [|r rest IH]; intros sources seen; simpl; [done|].
  unfold _extract_domain. rewrite Hnetloc.
  destruct (PyStr.truthy (hit_href r)); simpl; [|apply IH].
  by rewrite !IH.
Qed.

Lemma bio_group_ext w w' analyst_name firm st :
  same_leaves_of "bio" w w' ->
  bio_group w analyst_name firm st = bio_group w' analyst_name firm st.
Proof.
  intros (Hsearch & Hnetloc & Hgenerate).
  unfold bio_group, search_analyst_bio, generate_section, _search.
  rewrite Hsearch, Hgenerate. by rewrite !(top_sources_ext w w' Hnetloc).
Qed.

Lemma forecast_group_ext w w' analyst_name firm st :
  same_leaves_of "forecast" w w' ->
  forecast_group w analyst_name firm st = forecast_group w' analyst_name firm st.
Proof. intros Hread. unfold forecast_group. by rewrite Hread. Qed.

Lemma earnings_group_ext w w' analyst_name firm company st :
  same_leaves_of "earnings" w w' ->
  earnings_group w analyst_name firm company st
  = earnings_group w' analyst_name firm company st.
Proof.
  intros (H1 & H2 & H3 & H4 & H5 & Hgenerate).
  unfold earnings_group, get_transcript, get_transcript_logged, tiers_3_to_5,
    generate_section.
  by rewrite H1, H2, H3, H4, H5, Hgenerate.
Qed.

Lemma peer_group_ext w w' analyst_name firm st :
  same_leaves_of "peer" w w' ->
  peer_group w analyst_name firm st = peer_group w' analyst_name firm st.
Proof.
  intros (Hsearch & Hnetloc & Hgenerate & Hdate).
  unfold peer_group, search_peer_research, generate_section, _search,
    peer_stale_note_of.
  rewrite Hsearch, Hgenerate, Hdate. by rewrite !(top_sources_ext w w' Hnetloc).
Qed.

Lemma peer_median_loop_ext w w' data peers (labels : list string) :
  w_median_2dp w = w_median_2dp w' ->
  ∀ acc, peer_median_loop w data peers labels acc
         = peer_median_loop w' data peers labels acc.
Proof.
  intros Hmedian. induction labels as [|l0 rest IH]; intros acc; [done|].
  cbn [peer_median_loop].
  assert (median_of w data peers l0 = median_of w' data peers l0) as ->.
  { unfold median_of. by rewrite Hmedian. }
  destruct (median_of w' data peers l0); cbn [mbind outcome_bind]; [apply IH|done].
Qed.

Lemma valuation_group_ext w w' st :
  same_leaves_of "valuation" w w' ->
  valuation_group w st = valuation_group w' st.
Proof.
  intros (Hinfo & Hround & Hbillions & Hmedian & Hfmt & Hnow).
  unfold valuation_group, get_valuation_data, _fetch_ticker, metric_value,
    apply_transform, valuation_sources_of, price_str.
  rewrite Hinfo, Hround, Hbillions, Hfmt, Hnow.
  by rewrite (peer_median_loop_ext w w' _ _ _ Hmedian).
Qed.

Lemma when_selected_ext key selected (group group' : run_state -> gen run_state) st :
  (key ∈ selected -> group st = group' st) ->
  when_selected key selected group st = when_selected key selected group' st.
Proof.
  intros Hgroup. unfold when_selected, PyList.mem. case_bool_decide; [auto|done].
Qed.

(** X9: a section that is not selected has none of its leaves consulted:
    two worlds that answer alike to the spreadsheet lookup, the quality
    check, the id generator and the clock, and to the leaves of every
    selected section, give the same events and the same store, however
    they differ on the leaves of the other sections. *)
Theorem unselected_sections_are_not_run
    (w w' : world) (analyst_name company : string) (selected : list string)
    (memo_store : gmap string memo) :
  same_common_leaves w w' ->
  (∀ key, key ∈ selected -> same_leaves_of key w w') ->
  run_orchestrator w analyst_name company selected memo_store
  = run_orchestrator w' analyst_name company selected memo_store.
Proof.
  intros (Hexcel & Hqc & Huuid & Hlong & Hiso) Hleaves.
  unfold run_orchestrator.
  assert (_run_orchestrator_inner w analyst_name company selected memo_store
          = _run_orchestrator_inner w' analyst_name company selected memo_store) as ->;
    [|done].
  unfold _run_orchestrator_inner. rewrite Hexcel, Hqc, Huuid, Hlong, Hiso.
  apply gen_bind_ext; [done|intros firm].
  apply gen_bind_ext; [done|intros _].
  apply gen_bind_ext;
    [apply when_selected_ext; intros Hin; apply bio_group_ext, Hleaves, Hin|intros st1].
  apply gen_bind_ext;
    [apply when_selected_ext; intros Hin; apply forecast_group_ext, Hleaves, Hin
    |intros st2].
  apply gen_bind_ext;
    [apply when_selected_ext; intros Hin; apply earnings_group_ext, Hleaves, Hin
    |intros st3].
  apply gen_bind_ext;
    [apply when_selected_ext; intros Hin; apply peer_group_ext, Hleaves, Hin|intros st4].
  apply gen_bind_ext;
    [apply when_selected_ext; intros Hin; apply valuation_group_ext, Hleaves, Hin
    |intros st5].
  done.
Qed.

Lemma unselected_sections_are_not_run_witness :
  run_orchestrator searchable "Mike Mayo" "MS" ["earnings"; "valuation"] ∅
  = run_orchestrator offline "Mike Mayo" "MS" ["earnings"; "valuation"] ∅.
Proof.
  apply (unselected_sections_are_not_run searchable offline "Mike Mayo" "MS"
           ["earnings"; "valuation"] ∅).
  - by repeat split.
  - intros key Hkey.
    apply elem_of_cons in Hkey as [->|Hkey]; [by repeat split|].
    apply list_elem_of_singleton in Hkey as ->. by repeat split.
Defined.

(** ** The peer median *)

(** X10: when get_valuation_data returns, the peer median of a metric
    is taken over the tickers after the first, whatever the first one is:
    it is what the median step gives for their non-null values, in list
    order, and None when there is no such value, as for a single ticker
    or when every peer fetch raised; no median is computed then.  The two
    52-week cells always hold the dash. *)
Theorem peer_median_is_over_the_peers_only
    (w : world) (tickers : list string) (label : string) (result : valuation_result) :
  label ∈ map (fun m => m.1.1) METRICS ->
  get_valuation_data w tickers = Returned result ->
  let vals := fetched_values w (drop 1 tickers) label in
  (∃ cell,
     PyDict.get label (vr_peer_median result) = Some cell
     ∧ if bool_decide (label ∈ ["52W High"; "52W Low"]) then cell = Dash
       else match vals with
            | [] => cell = Cell None
            | _ => ∃ raw, w_median_2dp w vals = Returned raw ∧ cell = Cell (Some raw)
            end)
  ∧ ((∀ pt, pt ∈ drop 1 tickers -> ∃ e, w_yf_info w pt = Raised e) -> vals = [])
  ∧ (length tickers ≤ 1 -> vals = []).
Proof.
  intros Hlabel (_ & Htickers & _ & Hloop)%valuation_returned vals. split; [|split].
  - apply peer_median_loop_returned in Hloop as [Hin _].
    destruct (Hin label Hlabel) as (cell & Hcell & Hget).
    exists cell. split; [done|]. revert Hcell. unfold median_of.
    case_bool_decide; [by intros [= <-]|].
    rewrite Htickers, peer_values_fetched. fold vals.
    destruct vals as [|x vals']; [by intros [= <-]|].
    destruct (w_median_2dp w (x :: vals')) as [raw|e]; cbn [mbind outcome_bind];
      [|done].
    intros [= <-]. by exists raw.
  - intros Hfailed. by apply fetched_values_failed.
  - intros Hlen. subst vals.
    destruct tickers as [|t [|t' rest]]; simpl in *; [done|done|lia].
Qed.

Lemma peer_median_is_over_the_peers_only_witness :
  ∃ result,
    get_valuation_data quoted ALL_TICKERS = Returned result
    ∧ fetched_values quoted (drop 1 ALL_TICKERS) "P/E (TTM)"
      = [10%Q; 14%Q; 14%Q; 14%Q; 14%Q; 14%Q]
    ∧ PyDict.get "P/E (TTM)" (vr_peer_median result) = Some (Cell (Some 10%Q))
    ∧ PyDict.get "52W High" (vr_peer_median result) = Some Dash.
Proof.
  destruct (get_valuation_data quoted ALL_TICKERS) as [result|e] eqn:Hpull;
    [|by vm_compute in Hpull].
  exists result. split; [done|]. split; [by vm_compute|].
  destruct (peer_median_is_over_the_peers_only quoted ALL_TICKERS "P/E (TTM)" result)
    as ((cell & Hget & Hcell) & _); [unfold METRICS; simpl; in_list|exact Hpull|].
  split.
  - rewrite Hget. f_equal.
    assert (bool_decide ("P/E (TTM)" ∈ ["52W High"; "52W Low"]) = false) as Hlabel
      by by vm_compute.
    rewrite Hlabel in Hcell.
    assert (fetched_values quoted (drop 1 ALL_TICKERS) "P/E (TTM)"
            = [10%Q; 14%Q; 14%Q; 14%Q; 14%Q; 14%Q]) as Hvals by by vm_compute.
    rewrite Hvals in Hcell. destruct Hcell as (raw & Hraw & ->).
    vm_compute in Hraw. by injection Hraw as <-.
  - vm_compute in Hpull. injection Hpull as <-. by vm_compute.
Defined.

(** ** What lets a run complete, and what aborts it *)

Lemma bind_outcome {A B} (m : gen A) (f : A -> gen B) :
  (m ≫= f).2 = match m.2 with Returned a => (f a).2 | Raised e => Raised e end.
Proof. unfold mbind, gen_bind. by destruct (m.2). Qed.

Lemma bind_events {A B} (m : gen A) (f : A -> gen B) :
  (m ≫= f).1 = match m.2 with Returned a => m.1 ++ (f a).1 | Raised _ => m.1 end.
Proof. unfold mbind, gen_bind. by destruct (m.2). Qed.

Lemma has_text_truthy (t : tier_outcome) :
  has_text t = true -> PyStr.truthy (default EmptyString t.1) = true.
Proof. unfold has_text. by destruct (t.1). Qed.

Lemma transcript_found (w : world) (ticker company_name : string) :
  tr_tier (get_transcript w ticker company_name) ≠ 0 ->
  tr_status (get_transcript w ticker company_name) = "success"
  ∧ PyStr.truthy (tr_transcript_text (get_transcript w ticker company_name)) = true.
Proof.
  unfold get_transcript, get_transcript_logged, tiers_3_to_5.
  rewrite company_cik.
  repeat case_match; simpl; intros Hne; try done;
    (split; [done|by apply has_text_truthy]).
Qed.

Lemma bio_group_returns w analyst_name firm st :
  ∃ st', (bio_group w analyst_name firm st).2 = Returned st'.
Proof. by eexists. Qed.

Lemma forecast_group_returns w analyst_name firm st :
  ∃ st', (forecast_group w analyst_name firm st).2 = Returned st'.
Proof.
  unfold forecast_group.
  destruct (_run_step (w_read_forecast_data w analyst_name)); by eexists.
Qed.




Lemma earnings_group_raises w analyst_name firm company st :
  tr_tier (get_transcript w company "Morgan Stanley") = 5 ->
  PyStr.split_ws analyst_name = [] ->
  earnings_group w analyst_name firm company st
  = ([EvStepUpdate "transcript_fetch" "running" None], Raised "list index out of range").
Proof.
  intros Htier Hname.
  destruct (transcript_found w company "Morgan Stanley") as [Hstatus Htext];
    [by rewrite Htier|].
  unfold earnings_group. cbv zeta. cbn [_run_step get_field status_is_success].
  rewrite Hstatus, Htext, Htier, Hname. reflexivity.
Qed.

Lemma when_selected_returns key selected (group : run_state -> gen run_state) st :
  (key ∈ selected -> ∃ st', (group st).2 = Returned st') ->
  ∃ st', (when_selected key selected group st).2 = Returned st'.
Proof.
  intros Hgroup. unfold when_selected, PyList.mem.
  case_bool_decide; [auto|by eexists].
Qed.

Ltac outcome_step := rewrite bind_outcome; cbn [await yield snd]; cbv beta.





Lemma gen_eq {A} (m : gen A) (evs : list event) (o : outcome A) :
  m.1 = evs -> m.2 = o -> m = (evs, o).
Proof. destruct m. simpl. by intros -> ->. Qed.

Lemma when_selected_pair key selected (group : run_state -> gen run_state) st :
  (key ∈ selected -> ∃ st', (group st).2 = Returned st') ->
  ∃ evs st', when_selected key selected group st = (evs, Returned st').
Proof.
  intros Hgroup.
  destruct (when_selected_returns key selected group st Hgroup) as [st' Hst'].
  exists (when_selected key selected group st).1, st'. by apply gen_eq.
Qed.

Ltac events_step := rewrite bind_events; cbn [await yield fst snd]; cbv beta.

(** X12: with the earnings section selected, a blank analyst name and the
    bundled file as the only transcript, the run is aborted while the
    transcript is fetched: after the plan and the events of the bio and
    forecast groups it sends the running update of the fetch and then the
    server error, and nothing is stored. *)
Theorem blank_analyst_name_aborts_on_the_bundled_transcript
    (w : world) (analyst_name company firm : string) (selected : list string)
    (memo_store : gmap string memo) :
  w_excel_firm w analyst_name = Returned firm ->
  "earnings" ∈ selected ->
  tr_tier (get_transcript w company "Morgan Stanley") = 5 ->
  PyStr.split_ws analyst_name = [] ->
  ∃ evs1 st1 evs2 st2,
    when_selected "bio" selected (bio_group w analyst_name firm) initial_state
    = (evs1, Returned st1)
    ∧ when_selected "forecast" selected (forecast_group w analyst_name firm) st1
      = (evs2, Returned st2)
    ∧ run_orchestrator w analyst_name company selected memo_store
      = (EvSteps (_build_steps selected) :: evs1 ++ evs2
           ++ [ EvStepUpdate "transcript_fetch" "running" None;
                EvServerError "Orchestrator error: list index out of range" ],
         memo_store).
Proof.
  intros Hfirm Hselected Htier Hname.
  destruct (when_selected_pair "bio" selected (bio_group w analyst_name firm)
              initial_state) as (evs1 & st1 & H1);
    [intros _; apply bio_group_returns|].
  destruct (when_selected_pair "forecast" selected (forecast_group w analyst_name firm)
              st1) as (evs2 & st2 & H2);
    [intros _; apply forecast_group_returns|].
  exists evs1, st1, evs2, st2. split; [done|]. split; [done|].
  assert (when_selected "earnings" selected
            (earnings_group w analyst_name firm company) st2
          = ([EvStepUpdate "transcript_fetch" "running" None],
             Raised "list index out of range")) as H3.
  { unfold when_selected, PyList.mem. rewrite bool_decide_eq_true_2 by done.
    by apply earnings_group_raises. }
  assert (_run_orchestrator_inner w analyst_name company selected memo_store
          = (EvSteps (_build_steps selected) :: evs1 ++ evs2
               ++ [EvStepUpdate "transcript_fetch" "running" None],
             Raised "list index out of range")) as Hinner.
  { unfold _run_orchestrator_inner. apply gen_eq.
    - events_step. rewrite Hfirm. events_step. events_step. rewrite H1.
      cbn [fst snd]. events_step. rewrite H2. cbn [fst snd]. events_step.
      rewrite H3. cbn [fst snd]. by rewrite app_nil_l.
    - outcome_step. rewrite Hfirm. outcome_step. outcome_step. rewrite H1.
      cbn [snd]. outcome_step. rewrite H2. cbn [snd]. outcome_step.
      by rewrite H3. }
  unfold run_orchestrator. rewrite Hinner. cbn [fst snd app].
  by rewrite <- !app_assoc.
Qed.

Lemma blank_analyst_name_aborts_on_the_bundled_transcript_witness :
  ∃ evs1 st1 evs2 st2,
    when_selected "bio" ["bio"; "earnings"] (bio_group bundled_only " " "Wells Fargo")
      initial_state = (evs1, Returned st1)
    ∧ when_selected "forecast" ["bio"; "earnings"]
        (forecast_group bundled_only " " "Wells Fargo") st1 = (evs2, Returned st2)
    ∧ run_orchestrator bundled_only " " "MS" ["bio"; "earnings"] ∅
      = (EvSteps (_build_steps ["bio"; "earnings"]) :: evs1 ++ evs2
           ++ [ EvStepUpdate "transcript_fetch" "running" None;
                EvServerError "Orchestrator error: list index out of range" ],
         ∅).
Proof.
  apply (blank_analyst_name_aborts_on_the_bundled_transcript bundled_only " " "MS"
           "Wells Fargo" ["bio"; "earnings"] ∅).
  - reflexivity.
  - in_list.
  - reflexivity.
  - reflexivity.
Defined.

(** ** A completed run, phase by phase *)

Lemma inner_phases (w : world) (analyst_name company : string) (selected : list string)
    (memo_store memo_store' : gmap string memo) :
  (_run_orchestrator_inner w analyst_name company selected memo_store).2
  = Returned memo_store' ->
  completed_as w analyst_name company selected memo_store
    (run_orchestrator w analyst_name company selected memo_store).
Proof.
  intros Hret. unfold run_orchestrator. rewrite Hret.
  assert (∃ evs, (_run_orchestrator_inner w analyst_name company selected memo_store).1
                 = evs) as [evs Hevs] by by eexists.
  rewrite Hevs. revert Hret Hevs. unfold _run_orchestrator_inner.
  rewrite bind_outcome, bind_events. cbn [await fst snd].
  destruct (w_excel_firm w analyst_name) as [firm|e] eqn:Hfirm; [|done]. cbv beta.
  rewrite bind_outcome, bind_events. cbn [yield fst snd]. cbv beta.
  rewrite bind_outcome, bind_events.
  destruct (when_selected "bio" selected _ _) as [evs1 [st1|e]] eqn:H1; [|done].
  cbn [fst snd].
  rewrite bind_outcome, bind_events.
  destruct (when_selected "forecast" selected _ _) as [evs2 [st2|e]] eqn:H2; [|done].
  cbn [fst snd].
  rewrite bind_outcome, bind_events.
  destruct (when_selected "earnings" selected _ _) as [evs3 [st3|e]] eqn:H3; [|done].
  cbn [fst snd].
  rewrite bind_outcome, bind_events.
  destruct (when_selected "peer" selected _ _) as [evs4 [st4|e]] eqn:H4; [|done].
  cbn [fst snd].
  rewrite bind_outcome, bind_events.
  destruct (when_selected "valuation" selected _ _) as [evs5 [st5|e]] eqn:H5; [|done].
  cbn [fst snd].
  rewrite bind_outcome, bind_events. cbn [yield fst snd]. cbv beta zeta.
  rewrite bind_outcome, bind_events. cbn [yield fst snd]. cbv beta.
  rewrite bind_outcome, bind_events. cbn [await fst snd].
  destruct (read_verdict _) as [[]|e] eqn:Hverdict; [|done]. cbv beta.
  rewrite bind_outcome, bind_events. cbn [yield fst snd]. cbv beta zeta.
  rewrite bind_outcome, bind_events. cbn [yield mret gen_ret fst snd]. cbv beta.
  intros [= <-] <-.
  exists firm, evs1, st1, evs2, st2, evs3, st3, evs4, st4, evs5, st5.
  repeat (split; [done|]). reflexivity.
Qed.

Lemma complete_means_returned (w : world) (analyst_name company : string)
    (selected : list string) (memo_store : gmap string memo) :
  (∃ done_id, EvComplete done_id
              ∈ (run_orchestrator w analyst_name company selected memo_store).1) ->
  completed_as w analyst_name company selected memo_store
    (run_orchestrator w analyst_name company selected memo_store).
Proof.
  intros [done_id Hdone].
  destruct (run_orchestrator_shape w analyst_name company selected memo_store)
    as (pre & Hquiet & Hshape).
  destruct (_run_orchestrator_inner w analyst_name company selected memo_store).2
    as [memo_store'|e] eqn:Hret; [by eapply inner_phases|].
  exfalso. rewrite Hshape in Hdone. cbn [fst] in Hdone.
  apply elem_of_app in Hdone as [Hdone|Hdone].
  - unfold quiet in Hquiet. rewrite Forall_forall in Hquiet.
    by specialize (Hquiet _ Hdone).
  - by apply list_elem_of_singleton in Hdone.
Qed.

Ltac sends_done :=
  run_gen; intros [= <- <-]; right; eexists; split; reflexivity.

Ltac skipped_or_run :=
  unfold when_selected; destruct (PyList.mem _ _);
  [|intros [= <- <-]; by left].

Lemma bio_group_sends w analyst_name firm selected st evs st' :
  when_selected "bio" selected (bio_group w analyst_name firm) st = (evs, Returned st') ->
  group_sends "bio" st evs st'.
Proof. skipped_or_run. unfold bio_group. sends_done. Qed.

Lemma forecast_group_sends w analyst_name firm selected st evs st' :
  when_selected "forecast" selected (forecast_group w analyst_name firm) st
  = (evs, Returned st') ->
  group_sends "forecast" st evs st'.
Proof.
  skipped_or_run. unfold forecast_group.
  destruct (_run_step (w_read_forecast_data w analyst_name)); sends_done.
Qed.

Lemma earnings_group_sends w analyst_name firm company selected st evs st' :
  when_selected "earnings" selected (earnings_group w analyst_name firm company) st
  = (evs, Returned st') ->
  group_sends "earnings" st evs st'.
Proof.
  skipped_or_run. unfold earnings_group. cbv zeta.
  destruct (status_is_success _ _ && _); [|sends_done].
  destruct (_ =? 5)%nat; [|sends_done].
  destruct (last _); [sends_done|].
  run_gen. by intros [=].
Qed.

Lemma peer_group_sends w analyst_name firm selected st evs st' :
  when_selected "peer" selected (peer_group w analyst_name firm) st = (evs, Returned st') ->
  group_sends "peer" st evs st'.
Proof. skipped_or_run. unfold peer_group. sends_done. Qed.

Lemma valuation_group_sends w selected st evs st' :
  when_selected "valuation" selected (valuation_group w) st = (evs, Returned st') ->
  group_sends "valuation" st evs st'.
Proof.
  skipped_or_run. unfold valuation_group. pull_cases; sends_done.
Qed.

Lemma payloads_cons key r (sections : PyDict.t section_record) :
  payloads ((key, r) :: sections) = payload_of key r ++ payloads sections.
Proof. unfold payloads, payload_of. simpl. by destruct (payload_event key r). Qed.

(** X13: the client of a completed run has received what the Report
    holds: the section, forecast and valuation events sent are, in order
    and without repetition, the payloads of the records stored (a forecast
    that could not be read is stored without having been sent as a
    payload); the verdict stored is the verdict sent, and the firm stored
    is the one the spreadsheet gave. *)
Theorem completed_run_sent_what_it_stored
    (w : world) (analyst_name company : string) (selected : list string)
    (memo_store : gmap string memo) :
  let run := run_orchestrator w analyst_name company selected memo_store in
  let memo_id := PyStr.slice_to 8 (w_uuid4 w) in
  (∃ done_id, EvComplete done_id ∈ run.1) ->
  ∃ m qc_result,
    run.2 !! memo_id = Some m
    ∧ List.filter is_payload run.1 = payloads (m_sections m)
    ∧ m_quality_check m = Some qc_result
    ∧ EvQualityCheck qc_result ∈ run.1
    ∧ w_excel_firm w analyst_name = Returned (m_firm m).
Proof.
  intros run memo_id Hdone.
  destruct (complete_means_returned w analyst_name company selected memo_store Hdone)
    as (firm & evs1 & st1 & evs2 & st2 & evs3 & st3 & evs4 & st4 & evs5 & st5
        & Hfirm & H1 & H2 & H3 & H4 & H5 & Hverdict & Hrun).
  fold run in Hrun. rewrite Hrun. cbn [fst snd]. fold memo_id.
  eexists _, _. split; [apply lookup_insert_eq|].
  cbn [m_sections m_quality_check m_firm].
  split; [|split; [reflexivity|split; [|exact Hfirm]]].
  - apply bio_group_sends in H1. apply forecast_group_sends in H2.
    apply earnings_group_sends in H3. apply peer_group_sends in H4.
    apply valuation_group_sends in H5.
    cbn [List.filter is_payload]. rewrite !List.filter_app.
    change (List.filter is_payload (closing_events _ _)) with (@nil event).
    destruct H1 as [[Hs1 ->]|(r1 & Hs1 & ->)], H2 as [[Hs2 ->]|(r2 & Hs2 & ->)],
      H3 as [[Hs3 ->]|(r3 & Hs3 & ->)], H4 as [[Hs4 ->]|(r4 & Hs4 & ->)],
      H5 as [[Hs5 ->]|(r5 & Hs5 & ->)];
      rewrite Hs5, Hs4, Hs3, Hs2, Hs1;
      repeat first
        [ progress cbn [rs_sections initial_state PyDict.set List.filter app]
        | rewrite decide_False by discriminate ];
      rewrite ?payloads_cons; by rewrite ?app_nil_r.
  - right. rewrite !elem_of_app. do 5 right. unfold closing_events. in_list.
Qed.

Lemma completed_run_sent_what_it_stored_witness :
  let run := run_orchestrator offline "Mike Mayo" "MS" SECTION_IDS ∅ in
  ∃ m qc_result,
    run.2 !! "0f8fad5b" = Some m
    ∧ List.filter is_payload run.1 = payloads (m_sections m)
    ∧ m_quality_check m = Some qc_result
    ∧ EvQualityCheck qc_result ∈ run.1
    ∧ w_excel_firm offline "Mike Mayo" = Returned (m_firm m).
Proof.
  apply (completed_run_sent_what_it_stored offline "Mike Mayo" "MS" SECTION_IDS ∅).
  exists "0f8fad5b". vm_compute. in_list.
Defined.

(** ** The step updates of a completed run *)

Ltac updates_done := run_gen; intros [= <- <-]; reflexivity.

Ltac skipped_or_updates :=
  unfold when_selected; destruct (PyList.mem _ _);
  [|intros [= <- <-]; reflexivity].

Lemma bio_group_updates w analyst_name firm selected st evs st' :
  when_selected "bio" selected (bio_group w analyst_name firm) st = (evs, Returned st') ->
  omap step_status evs
  = if PyList.mem "bio" selected
    then [ ("bio_search", "running"); ("bio_search", "complete");
           ("bio_draft", "running"); ("bio_draft", "complete") ]
    else [].
Proof. skipped_or_updates. unfold bio_group. updates_done. Qed.

Lemma forecast_group_updates w analyst_name firm selected st evs st' :
  when_selected "forecast" selected (forecast_group w analyst_name firm) st
  = (evs, Returned st') ->
  ∃ ok, omap step_status evs
        = if PyList.mem "forecast" selected then forecast_updates ok else [].
Proof.
  unfold when_selected. destruct (PyList.mem _ _);
    [|intros [= <- <-]; by exists true].
  unfold forecast_group.
  destruct (_run_step (w_read_forecast_data w analyst_name)); intros Hrun;
    [exists true|exists false]; revert Hrun; updates_done.
Qed.

Lemma earnings_group_updates w analyst_name firm company selected st evs st' :
  when_selected "earnings" selected (earnings_group w analyst_name firm company) st
  = (evs, Returned st') ->
  ∃ ok, omap step_status evs
        = if PyList.mem "earnings" selected then earnings_updates ok else [].
Proof.
  unfold when_selected. destruct (PyList.mem _ _);
    [|intros [= <- <-]; by exists true].
  unfold earnings_group. cbv zeta.
  destruct (status_is_success _ _ && _); intros Hrun;
    [exists true|exists false]; revert Hrun; [|updates_done].
  destruct (_ =? 5)%nat; [|updates_done].
  destruct (last _); [updates_done|].
  run_gen. by intros [=].
Qed.

Lemma peer_group_updates w analyst_name firm selected st evs st' :
  when_selected "peer" selected (peer_group w analyst_name firm) st = (evs, Returned st') ->
  omap step_status evs
  = if PyList.mem "peer" selected
    then [ ("peer_search", "running"); ("peer_search", "complete");
           ("peer_draft", "running"); ("peer_draft", "complete") ]
    else [].
Proof. skipped_or_updates. unfold peer_group. updates_done. Qed.

Lemma valuation_group_updates w selected st evs st' :
  when_selected "valuation" selected (valuation_group w) st = (evs, Returned st') ->
  ∃ ok, omap step_status evs
        = if PyList.mem "valuation" selected
          then [ ("market_data", "running");
                 ("market_data", if ok : bool then "complete" else "error") ]
          else [].
Proof.
  unfold when_selected. destruct (PyList.mem _ _);
    [|intros [= <- <-]; by exists true].
  unfold valuation_group. pull_cases; intros Hrun;
    [exists true|exists false]; revert Hrun; updates_done.
Qed.

(** X14: a completed run reports the plan it announced.  Its first event
    is the plan; listing each step once, the steps updated are exactly the
    sub-steps of the plan, in plan order, so no update names a step
    outside the plan and none of the plan is skipped; and the updates of
    every step are "running" followed by "complete" or by "error", or the
    single "error" of a step that was never started: no step is left
    running. *)
Theorem completed_run_reports_every_planned_step
    (w : world) (analyst_name company : string) (selected : list string)
    (memo_store : gmap string memo) :
  let run := run_orchestrator w analyst_name company selected memo_store in
  let updates := omap step_status run.1 in
  let plan := plan_children (_build_steps selected) in
  (∃ done_id, EvComplete done_id ∈ run.1) ->
  head run.1 = Some (EvSteps (_build_steps selected))
  ∧ remove_dups (map fst updates) = plan
  ∧ (∀ step status, (step, status) ∈ updates -> step ∈ plan)
  ∧ Forall (fun step =>
              statuses_of step updates
              ∈ [ ["running"; "complete"]; ["running"; "error"]; ["error"] ]) plan.
Proof.
  intros run updates plan Hdone.
  destruct (complete_means_returned w analyst_name company selected memo_store Hdone)
    as (firm & evs1 & st1 & evs2 & st2 & evs3 & st3 & evs4 & st4 & evs5 & st5
        & Hfirm & H1 & H2 & H3 & H4 & H5 & Hverdict & Hrun).
  fold run in Hrun.
  split; [by rewrite Hrun|].
  assert (remove_dups (map fst updates) = plan
          ∧ Forall (fun step =>
                      statuses_of step updates
                      ∈ [ ["running"; "complete"]; ["running"; "error"]; ["error"] ])
                   plan) as [Hsteps Hstatuses].
  { subst updates plan. rewrite Hrun. cbn [fst].
    apply bio_group_updates in H1. apply forecast_group_updates in H2 as [ok2 H2].
    apply earnings_group_updates in H3 as [ok3 H3]. apply peer_group_updates in H4.
    apply valuation_group_updates in H5 as [ok5 H5].
    change (EvSteps (_build_steps selected) :: ?l)
      with ([EvSteps (_build_steps selected)] ++ l).
    rewrite !omap_app, H1, H2, H3, H4, H5. unfold _build_steps. clear.
    destruct (PyList.mem "bio" selected), (PyList.mem "forecast" selected),
      (PyList.mem "earnings" selected), (PyList.mem "peer" selected),
      (PyList.mem "valuation" selected), ok2, ok3, ok5;
      (split; [by vm_compute|apply (bool_decide_unpack _); by vm_compute]). }
  split; [done|]. split; [|done].
  intros step status Hin. rewrite <- Hsteps. apply elem_of_remove_dups.
  apply list_elem_of_fmap. by exists (step, status).
Qed.

Lemma completed_run_reports_every_planned_step_witness :
  let run := run_orchestrator offline "Mike Mayo" "MS" ["forecast"; "earnings"] ∅ in
  let updates := omap step_status run.1 in
  let plan := plan_children (_build_steps ["forecast"; "earnings"]) in
  head run.1 = Some (EvSteps (_build_steps ["forecast"; "earnings"]))
  ∧ remove_dups (map fst updates) = plan
  ∧ (∀ step status, (step, status) ∈ updates -> step ∈ plan)
  ∧ Forall (fun step =>
              statuses_of step updates
              ∈ [ ["running"; "complete"]; ["running"; "error"]; ["error"] ]) plan.
Proof.
  apply (completed_run_reports_every_planned_step offline "Mike Mayo" "MS"
           ["forecast"; "earnings"] ∅).
  exists "0f8fad5b". vm_compute. in_list.
Defined.

(** ** The shape of the stored records *)

Ltac shapes_done :=
  run_gen; intros [= _ <-]; right; eexists; split; [reflexivity|];
  cbn [shape_of]; repeat split; first [done | apply generate_section_name | in_list].

Ltac skipped_or_shapes :=
  unfold when_selected; destruct (PyList.mem _ _);
  [|intros [= _ <-]; by left].

Lemma bio_group_shapes w analyst_name firm selected st evs st' :
  when_selected "bio" selected (bio_group w analyst_name firm) st = (evs, Returned st') ->
  group_shapes w analyst_name "bio" st st'.
Proof. skipped_or_shapes. unfold bio_group. shapes_done. Qed.

Lemma forecast_group_shapes w analyst_name firm selected st evs st' :
  when_selected "forecast" selected (forecast_group w analyst_name firm) st
  = (evs, Returned st') ->
  group_shapes w analyst_name "forecast" st st'.
Proof.
  skipped_or_shapes. unfold forecast_group.
  destruct (_run_step (w_read_forecast_data w analyst_name)) eqn:Hread; [shapes_done|].
  run_gen. intros [= _ <-]. right. eexists. split; [reflexivity|].
  cbn [shape_of get_error]. split; [done|]. left. by repeat split.
Qed.

Lemma earnings_group_shapes w analyst_name firm company selected st evs st' :
  when_selected "earnings" selected (earnings_group w analyst_name firm company) st
  = (evs, Returned st') ->
  group_shapes w analyst_name "earnings" st st'.
Proof.
  skipped_or_shapes. unfold earnings_group. cbv zeta.
  destruct (status_is_success _ _ && _); [|shapes_done].
  destruct (_ =? 5)%nat; [|shapes_done].
  destruct (last _); [shapes_done|].
  run_gen. by intros [=].
Qed.

Lemma peer_group_shapes w analyst_name firm selected st evs st' :
  when_selected "peer" selected (peer_group w analyst_name firm) st = (evs, Returned st') ->
  group_shapes w analyst_name "peer" st st'.
Proof. skipped_or_shapes. unfold peer_group. shapes_done. Qed.

Lemma valuation_group_shapes w analyst_name selected st evs st' :
  when_selected "valuation" selected (valuation_group w) st = (evs, Returned st') ->
  group_shapes w analyst_name "valuation" st st'.
Proof.
  skipped_or_shapes. unfold valuation_group. pull_cases; [shapes_done|].
  run_gen. intros [= _ <-]. right. eexists. split; [reflexivity|].
  cbn [shape_of]. split; [done|]. right. by repeat split.
Qed.

Lemma group_keeps_shapes w analyst_name key st st' :
  group_shapes w analyst_name key st st' ->
  well_shaped w analyst_name (rs_sections st) ->
  well_shaped w analyst_name (rs_sections st').
Proof.
  intros [->|(r & -> & Hshape)] Hshaped; [done|].
  intros k r'. destruct (decide (k = key)) as [->|Hne].
  - rewrite dict_get_set_eq. by intros [= <-].
  - rewrite dict_get_set_ne by done. apply Hshaped.
Qed.

(** X15: every record of the Report a completed run stores has the shape
    of its section.  Under bio, earnings and peer it is a narrative
    drafted for that section; under forecast it is the payload of the
    forecast reader and under valuation the result of the market-data
    pull for the configured tickers, without a custom order; when the
    reader raised or answered with an error, or the pull raised, the
    record stored under that key is the record of that error, with no
    sources and low confidence. *)
Theorem completed_run_stores_records_of_the_right_shape
    (w : world) (analyst_name company : string) (selected : list string)
    (memo_store : gmap string memo) :
  let run := run_orchestrator w analyst_name company selected memo_store in
  let memo_id := PyStr.slice_to 8 (w_uuid4 w) in
  (∃ done_id, EvComplete done_id ∈ run.1) ->
  ∃ m, run.2 !! memo_id = Some m
       ∧ ∀ key r, PyDict.get key (m_sections m) = Some r ->
                  shape_of w analyst_name key r.
Proof.
  intros run memo_id Hdone.
  destruct (complete_means_returned w analyst_name company selected memo_store Hdone)
    as (firm & evs1 & st1 & evs2 & st2 & evs3 & st3 & evs4 & st4 & evs5 & st5
        & Hfirm & H1 & H2 & H3 & H4 & H5 & Hverdict & Hrun).
  fold run in Hrun. rewrite Hrun. cbn [fst snd]. fold memo_id.
  eexists. split; [apply lookup_insert_eq|]. cbn [m_sections].
  apply (bio_group_shapes w analyst_name) in H1.
  apply (forecast_group_shapes w analyst_name) in H2.
  apply (earnings_group_shapes w analyst_name) in H3.
  apply (peer_group_shapes w analyst_name) in H4.
  apply (valuation_group_shapes w analyst_name) in H5.
  fold (well_shaped w analyst_name (rs_sections st5)).
  eapply group_keeps_shapes; [exact H5|]. eapply group_keeps_shapes; [exact H4|].
  eapply group_keeps_shapes; [exact H3|]. eapply group_keeps_shapes; [exact H2|].
  eapply group_keeps_shapes; [exact H1|]. by intros key r.
Qed.

Lemma completed_run_stores_records_of_the_right_shape_witness :
  let run := run_orchestrator unquantizable "Mike Mayo" "MS" SECTION_IDS ∅ in
  ∃ m, run.2 !! "0f8fad5b" = Some m
       ∧ (∀ key r, PyDict.get key (m_sections m) = Some r ->
                   shape_of unquantizable "Mike Mayo" key r)
       ∧ PyDict.get "valuation" (m_sections m)
         = Some (Unavailable "[<class 'decimal.InvalidOperation'>]" []
                   (_confidence low "Valuation data unavailable")).
Proof.
  destruct (completed_run_stores_records_of_the_right_shape unquantizable
              "Mike Mayo" "MS" SECTION_IDS ∅) as (m & Hm & Hshape).
  { exists "0f8fad5b". vm_compute. in_list. }
  exists m. split; [exact Hm|]. split; [exact Hshape|].
  clear Hshape. vm_compute in Hm. injection Hm as <-. by vm_compute.
Defined.

(** ** The matcher against the declarative reading of the patterns *)

Lemma starts_with_length (s l : list ascii) :
  PyStr.starts_with s l = true -> length s ≤ length l.
Proof.
  revert l. induction s as [|c s IH]; intros l; simpl; [lia|].
  destruct l as [|c' l]; [done|]. simpl.
  destruct (ascii_dec c c'); [|done]. intros ?%IH. lia.
Qed.

Lemma run_length_spec (cls : ascii -> bool) (cap : option nat) (l : list ascii) (n : nat) :
  n ≤ Re.run_length cls cap l ->
  n ≤ length l
  ∧ Forall (fun c => cls c = true) (take n l)
  ∧ (∀ c, cap = Some c -> n ≤ c).
Proof.
  assert (∀ (l' : list ascii) (cap' : option nat),
            0 ≤ length l'
            ∧ Forall (fun c => cls c = true) (take 0 l')
            ∧ (∀ c, cap' = Some c -> 0 ≤ c)) as Hzero.
  { intros l' cap'. split; [lia|]. split; [rewrite take_0; constructor|intros; lia]. }
  revert cap n. induction l as [|a l IH]; intros cap n; simpl.
  - intros Hn. assert (n = 0) as -> by lia. exact (Hzero [] cap).
  - destruct (cls a) eqn:Ha.
    + destruct n as [|n]; [intros _; exact (Hzero (a :: l) cap)|].
      destruct cap as [[|c]|]; intros Hn; [exfalso; lia| |].
      * destruct (IH (Some c) n) as (Hlen & Hall & Hcap); [lia|].
        split; [lia|]. split; [by constructor|].
        intros c' [= <-]. specialize (Hcap c eq_refl). lia.
      * destruct (IH None n) as (Hlen & Hall & Hcap); [lia|].
        split; [lia|]. split; [by constructor|done].
    + intros Hn. assert (n = 0) as -> by lia. exact (Hzero (a :: l) cap).
Qed.

Lemma try_counts_spec {R} (n lo : nat) (p : Re.pos) (k : Re.pos -> option R) (x : R) :
  Re.try_counts n lo p k = Some x ->
  ∃ m, lo ≤ m ≤ n ∧ k (Re.advance m p) = Some x.
Proof.
  induction n as [|n IH]; simpl.
  - destruct (0 <? lo)%nat eqn:Hlo; [done|]. apply Nat.ltb_ge in Hlo.
    destruct (k (Re.advance 0 p)) eqn:Hk; [|done]. intros [= ->].
    exists 0. split; [lia|done].
  - destruct (S n <? lo)%nat eqn:Hlo; [done|]. apply Nat.ltb_ge in Hlo.
    destruct (k (Re.advance (S n) p)) eqn:Hk.
    + intros [= ->]. exists (S n). split; [lia|done].
    + intros (m & Hm & Hx)%IH. exists m. split; [lia|done].
Qed.

Lemma advance_add (n1 n2 : nat) (p : Re.pos) :
  Re.advance n2 (Re.advance n1 p) = Re.advance (n1 + n2) p.
Proof.
  unfold Re.advance. cbn [fst snd]. rewrite drop_drop. f_equal.
  rewrite <- take_take_drop, last_app.
  by destruct (last (take n2 (drop n1 p.2))).
Qed.

Lemma advance_zero (p : Re.pos) : Re.advance 0 p = p.
Proof. destruct p as [prev l]. unfold Re.advance. simpl. by rewrite drop_0. Qed.

Lemma rmatch_sound {R} (r : Re.regex) :
  ∀ (p : Re.pos) (caps : list string) (k : Re.pos -> list string -> option R) (x : R),
    Re.rmatch r p caps k = Some x ->
    ∃ n caps', re_matches r p n caps'
               ∧ n ≤ length p.2
               ∧ k (Re.advance n p) (caps ++ caps') = Some x.
Proof.
  induction r as [s|cls lo hi|r1 IH1 r2 IH2|r1 IH1 r2 IH2|r IH|];
    intros p caps k x; simpl.
  - destruct (PyStr.starts_with s p.2) eqn:Hs; [|done]. intros Hk.
    exists (length s), []. rewrite app_nil_r.
    split; [by constructor|]. split; [by apply starts_with_length|done].
  - intros (m & Hm & Hk)%try_counts_spec. exists m, []. rewrite app_nil_r.
    split; [by constructor|]. split; [|done].
    by destruct (run_length_spec cls hi p.2 m) as [? _]; [lia|].
  - intros (n1 & caps1 & Hm1 & Hn1 & Hk)%IH1.
    apply IH2 in Hk as (n2 & caps2 & Hm2 & Hn2 & Hk).
    exists (n1 + n2), (caps1 ++ caps2).
    split; [by econstructor|]. split.
    + unfold Re.advance in Hn2. cbn [snd] in Hn2. rewrite length_drop in Hn2. lia.
    + by rewrite <- advance_add, app_assoc.
  - destruct (Re.rmatch r1 p caps k) eqn:H1.
    + intros [= ->]. apply IH1 in H1 as (n & caps' & Hm & Hn & Hk).
      exists n, caps'. split; [by apply matches_alt_l|done].
    + intros (n & caps' & Hm & Hn & Hk)%IH2.
      exists n, caps'. split; [by apply matches_alt_r|done].
  - intros (n & caps' & Hm & Hn & Hk)%IH.
    exists n, (caps' ++ [PyStr.of_chars (take n p.2)]).
    split; [by constructor|]. split; [done|].
    unfold Re.advance in Hk at 2. cbn [snd] in Hk. rewrite length_drop in Hk.
    replace (length p.2 - (length p.2 - n)) with n in Hk by lia.
    by rewrite app_assoc.
  - intros Hk. exists 0, []. rewrite app_nil_r, advance_zero.
    split; [|split; [lia|]].
    + constructor. destruct (p.1) as [c|]; [|by left].
      destruct (ascii_dec c "010"%char) as [->|]; [by right|done].
    + destruct (p.1) as [c|]; [|done]. by destruct (ascii_dec c "010"%char).
Qed.

Lemma match_at_sound (r : Re.regex) (p : Re.pos) (used : nat) (caps : list string) :
  Re.match_at r p = Some (used, caps) -> ∃ n, re_matches r p n caps.
Proof.
  unfold Re.match_at. intros (n & caps' & Hm & _ & [= _ <-])%rmatch_sound.
  by exists n.
Qed.

Lemma finditer_from_sound (r : Re.regex) (l : list ascii) :
  ∀ (prev : option ascii) (skip : nat) (m : list string),
    m ∈ Re.finditer_from r prev l skip ->
    ∃ p n, re_matches r p n m ∧ ∃ pre, l = pre ++ p.2.
Proof.
  induction l as [|c l IH]; intros prev skip m.
  - destruct skip as [|skip]; simpl; [|by intros ?%elem_of_nil].
    destruct (Re.match_at r (prev, [])) as [[used caps]|] eqn:Hm;
      [|by intros ?%elem_of_nil].
    intros ->%list_elem_of_singleton.
    apply match_at_sound in Hm as [n Hm]. exists (prev, []), n.
    split; [done|]. by exists [].
  - assert (∀ prev' skip',
              m ∈ Re.finditer_from r prev' l skip' ->
              ∃ p n, re_matches r p n m ∧ ∃ pre, c :: l = pre ++ p.2) as Hrest.
    { intros prev' skip' (p & n & Hm & pre & ->)%IH.
      exists p, n. split; [done|]. by exists (c :: pre). }
    destruct skip as [|skip]; simpl; [|apply Hrest].
    destruct (Re.match_at r (prev, c :: l)) as [[used caps]|] eqn:Hm; [|apply Hrest].
    intros [->|Hin]%elem_of_cons; [|by eapply Hrest].
    apply match_at_sound in Hm as [n Hm]. exists (prev, c :: l), n.
    split; [done|]. by exists [].
Qed.

Lemma chars_of_chars (l : list ascii) : PyStr.chars (PyStr.of_chars l) = l.
Proof. apply String.list_ascii_of_string_of_list_ascii. Qed.

Lemma of_chars_chars (s : string) : PyStr.of_chars (PyStr.chars s) = s.
Proof. apply String.string_of_list_ascii_of_string. Qed.

Lemma ticker_group_symbol (p : Re.pos) (n : nat) (caps : list string) :
  re_matches (Re.Group ticker_re) p n caps -> ∃ s, caps = [s] ∧ is_symbol s.
Proof.
  inversion 1 as [| | | | |r p' n' caps' Hbody|]; subst.
  inversion Hbody as [|cls lo hi p' n' Hn| | | | |]; subst.
  destruct (run_length_spec PyStr.is_upper (Some 5) p.2 n) as (Hlen & Hall & Hcap);
    [lia|].
  eexists. split; [reflexivity|]. unfold is_symbol. rewrite chars_of_chars.
  split; [|done]. rewrite length_take_le by done.
  specialize (Hcap 5 eq_refl). lia.
Qed.

Ltac invert_matches :=
  repeat match goal with
         | H : re_matches (Re.Seq _ _) _ _ _ |- _ => inversion H; subst; clear H
         | H : re_matches (Re.Alt _ _) _ _ _ |- _ => inversion H; subst; clear H
         | H : re_matches (Re.Lit _) _ _ _ |- _ => inversion H; subst; clear H
         | H : re_matches (Re.Rep _ _ _) _ _ _ |- _ => inversion H; subst; clear H
         | H : re_matches (Re.Group ticker_re) _ _ _ |- _ =>
             apply ticker_group_symbol in H as (? & -> & ?)
         end.

Lemma replace_re_captures (p : Re.pos) (n : nat) (caps : list string) :
  re_matches replace_re p n caps ->
  (∃ old new, caps = [old; new] ∧ is_symbol old ∧ is_symbol new)
  ∧ (PyStr.starts_with (PyStr.chars "REPLACE") p.2 = true
     ∨ PyStr.starts_with (PyStr.chars "SWAP") p.2 = true).
Proof.
  unfold replace_re, Re.word, Re.ws_plus. intros Hm. invert_matches;
    (split; [by eexists _, _|]); auto.
Qed.

Lemma add_re_captures (p : Re.pos) (n : nat) (caps : list string) :
  re_matches add_re p n caps ->
  (∃ new, caps = [new] ∧ is_symbol new)
  ∧ (PyStr.starts_with (PyStr.chars "ADD") p.2 = true
     ∨ PyStr.starts_with (PyStr.chars "INCLUDE") p.2 = true).
Proof.
  unfold add_re, Re.word, Re.ws_plus. intros Hm. invert_matches;
    (split; [by eexists|]); auto.
Qed.

Lemma remove_re_captures (p : Re.pos) (n : nat) (caps : list string) :
  re_matches remove_re p n caps ->
  (∃ old, caps = [old] ∧ is_symbol old)
  ∧ (PyStr.starts_with (PyStr.chars "REMOVE") p.2 = true
     ∨ PyStr.starts_with (PyStr.chars "DROP") p.2 = true
     ∨ PyStr.starts_with (PyStr.chars "EXCLUDE") p.2 = true).
Proof.
  unfold remove_re, Re.word, Re.ws_plus. intros Hm. invert_matches;
    (split; [by eexists|]); auto.
Qed.

(** ** The symbols the ticker-edit parser introduces *)

Lemma fold_left_invariant {A B} (step : A -> B -> A) (P : A -> Prop) (l : list B) :
  (∀ a b, b ∈ l -> P a -> P (step a b)) -> ∀ a, P a -> P (fold_left step l a).
Proof.
  induction l as [|b l IH]; intros Hstep a Ha; simpl; [done|].
  apply IH; [|apply Hstep; [left|done]].
  intros a' b' Hb'. apply Hstep. by right.
Qed.

Lemma remove_Forall (P : string -> Prop) (x : string) (l : list string) :
  Forall P l -> Forall P (PyList.remove x l).
Proof.
  induction 1 as [|y l Hy Hl IH]; simpl; [constructor|].
  destruct (decide (x = y)); [done|by constructor].
Qed.

Lemma replace_step_known current_tickers target st m :
  (∃ old new, m = [old; new] ∧ is_symbol old ∧ is_symbol new) ->
  Forall (known_or_symbol current_tickers) st.1 ->
  Forall (known_or_symbol current_tickers) (replace_step target st m).1.
Proof.
  intros (old & new & -> & _ & Hnew) Hknown. unfold replace_step.
  destruct (PyList.mem old st.1 && negb (bool_decide (old = target))); [|done].
  cbn [fst]. apply Forall_insert; [done|by right].
Qed.

Lemma add_step_known current_tickers st m :
  (∃ new, m = [new] ∧ is_symbol new) ->
  Forall (known_or_symbol current_tickers) st.1 ->
  Forall (known_or_symbol current_tickers) (add_step st m).1.
Proof.
  intros (new & -> & Hnew) Hknown. unfold add_step.
  destruct (negb (PyList.mem new st.1)); [|done].
  cbn [fst]. apply Forall_app. split; [done|]. constructor; [by right|constructor].
Qed.

Lemma remove_step_known current_tickers target st m :
  (∃ old, m = [old] ∧ is_symbol old) ->
  Forall (known_or_symbol current_tickers) st.1 ->
  Forall (known_or_symbol current_tickers) (remove_step target st m).1.
Proof.
  intros (old & -> & _) Hknown. unfold remove_step.
  destruct (PyList.mem old st.1 && negb (bool_decide (old = target))); [|done].
  cbn [fst]. by apply remove_Forall.
Qed.

Lemma apply_ticker_edits_known text current_tickers :
  Forall (known_or_symbol current_tickers) (apply_ticker_edits text current_tickers).1.
Proof.
  unfold apply_ticker_edits. cbv zeta.
  apply (fold_left_invariant _
           (fun st => Forall (known_or_symbol current_tickers) st.1)).
  { intros st m (p & n & Hm%remove_re_captures & _)%finditer_from_sound.
    apply remove_step_known, Hm. }
  apply (fold_left_invariant _
           (fun st => Forall (known_or_symbol current_tickers) st.1)).
  { intros st m (p & n & Hm%add_re_captures & _)%finditer_from_sound.
    apply add_step_known, Hm. }
  apply (fold_left_invariant _
           (fun st => Forall (known_or_symbol current_tickers) st.1)).
  { intros st m (p & n & Hm%replace_re_captures & _)%finditer_from_sound.
    apply replace_step_known, Hm. }
  cbn [fst]. apply Forall_forall. intros t Ht. by left.
Qed.

Lemma upper_char_idemp (c : ascii) :
  PyStr.upper_char (PyStr.upper_char c) = PyStr.upper_char c.
Proof. destruct c as [[] [] [] [] [] [] [] []]; reflexivity. Qed.

Lemma upper_idemp (s : string) : PyStr.upper (PyStr.upper s) = PyStr.upper s.
Proof.
  unfold PyStr.upper. rewrite chars_of_chars. f_equal.
  rewrite <- list_fmap_compose. apply list_fmap_ext.
  intros i c _. apply upper_char_idemp.
Qed.

Lemma upper_truthy (s : string) : PyStr.truthy (PyStr.upper s) = PyStr.truthy s.
Proof. by destruct s. Qed.

(** X16: the list the ticker-edit parser returns holds only symbols of
    the submitted list and well-formed symbols, of one to five upper-case
    letters, captured from the instruction; and the parser does not
    depend on the letter case of the instruction. *)
Theorem parsed_tickers_are_known_or_well_formed
    (instruction : string) (current_tickers : list string) :
  Forall (known_or_symbol current_tickers)
    (_parse_ticker_changes instruction current_tickers)
  ∧ _parse_ticker_changes (PyStr.upper instruction) current_tickers
    = _parse_ticker_changes instruction current_tickers.
Proof.
  split.
  - unfold _parse_ticker_changes.
    assert (Forall (known_or_symbol current_tickers) current_tickers) as Hcurrent.
    { apply Forall_forall. intros t Ht. by left. }
    destruct (negb (PyStr.truthy instruction)); [done|]. cbv zeta.
    destruct (apply_ticker_edits _ _).2 eqn:Hchanged; [|done].
    apply apply_ticker_edits_known.
  - unfold _parse_ticker_changes. by rewrite upper_truthy, upper_idemp.
Qed.

Lemma contains_of_suffix (verb s : string) (pre suf : list ascii) :
  PyStr.chars s = pre ++ suf ->
  PyStr.starts_with (PyStr.chars verb) suf = true ->
  PyStr.contains verb s = true.
Proof.
  unfold PyStr.contains, PyStr.find. intros -> Hsuf.
  assert (is_Some (PyStr.find_chars (PyStr.chars verb) (pre ++ suf))) as [i ->]; [|done].
  induction pre as [|c pre [i IH]].
  - exists 0. destruct suf; simpl in *; by rewrite Hsuf.
  - simpl. destruct (PyStr.starts_with _ (c :: _)); [by eexists|].
    rewrite IH. by eexists.
Qed.

Lemma no_verb_no_match (r : Re.regex) (text : string) (verbs : list string) :
  (∀ p n caps, re_matches r p n caps ->
     ∃ verb, verb ∈ verbs ∧ PyStr.starts_with (PyStr.chars verb) p.2 = true) ->
  (∀ verb, verb ∈ verbs -> PyStr.contains verb text = false) ->
  Re.finditer r text = [].
Proof.
  intros Hverb Hnone. destruct (Re.finditer r text) as [|m ms] eqn:Hfound; [done|].
  exfalso.
  destruct (finditer_from_sound r (PyStr.chars text) None 0 m)
    as (p & n & Hm & pre & Hpre).
  { unfold Re.finditer in Hfound. rewrite Hfound. left. }
  destruct (Hverb p n m Hm) as (verb & Hin & Hstarts).
  specialize (Hnone verb Hin).
  by rewrite (contains_of_suffix verb text pre p.2 Hpre Hstarts) in Hnone.
Qed.

(** X17: an instruction that names none of the seven edit verbs, in any
    letter case, leaves the ticker list as it was submitted. *)
Theorem instruction_without_a_verb_changes_nothing
    (instruction : string) (current_tickers : list string) :
  (∀ verb, verb ∈ edit_verbs -> PyStr.contains verb (PyStr.upper instruction) = false) ->
  _parse_ticker_changes instruction current_tickers = current_tickers.
Proof.
  intros Hnone. unfold _parse_ticker_changes.
  destruct (negb (PyStr.truthy instruction)); [done|]. cbv zeta.
  unfold apply_ticker_edits. cbv zeta.
  rewrite (no_verb_no_match replace_re _ ["REPLACE"; "SWAP"]),
    (no_verb_no_match add_re _ ["ADD"; "INCLUDE"]),
    (no_verb_no_match remove_re _ ["REMOVE"; "DROP"; "EXCLUDE"]); [done|..].
  - intros p n caps [_ [H|[H|H]]]%remove_re_captures; eexists; (split; [|exact H]); in_list.
  - intros verb Hin. apply Hnone. unfold edit_verbs.
    repeat (apply elem_of_cons in Hin as [->|Hin]; [in_list|]).
    by apply elem_of_nil in Hin.
  - intros p n caps [_ [H|H]]%add_re_captures; eexists; (split; [|exact H]); in_list.
  - intros verb Hin. apply Hnone. unfold edit_verbs.
    repeat (apply elem_of_cons in Hin as [->|Hin]; [in_list|]).
    by apply elem_of_nil in Hin.
  - intros p n caps [_ [H|H]]%replace_re_captures; eexists; (split; [|exact H]); in_list.
  - intros verb Hin. apply Hnone. unfold edit_verbs.
    repeat (apply elem_of_cons in Hin as [->|Hin]; [in_list|]).
    by apply elem_of_nil in Hin.
Qed.

Lemma instruction_without_a_verb_changes_nothing_witness :
  _parse_ticker_changes "Make the tone more cautious on GS" ALL_TICKERS = ALL_TICKERS.
Proof.
  apply (instruction_without_a_verb_changes_nothing
           "Make the tone more cautious on GS" ALL_TICKERS).
  intros verb Hin. unfold edit_verbs in Hin.
  repeat (apply elem_of_cons in Hin as [->|Hin]; [reflexivity|]).
  by apply elem_of_nil in Hin.
Defined.

(** ** The selection of sections *)

Lemma mem_ext (key : string) (selected selected' : list string) :
  (key ∈ selected ↔ key ∈ selected') ->
  PyList.mem key selected = PyList.mem key selected'.
Proof. intros Hiff. unfold PyList.mem. by apply bool_decide_ext. Qed.

(** X18: a run depends on the requested sections only through which of
    the five section keys are among them: the order of the names, their
    repetition and names that are no section key change nothing, so that
    the sections are always produced in the canonical order.  The
    generate endpoint, which strips the blanks around each name, gives
    the same run for two requests naming the same keys. *)
Theorem run_depends_only_on_which_keys_are_selected
    (w : world) (analyst_name company : string) (selected selected' : list string)
    (memo_store : gmap string memo) :
  (∀ key, key ∈ SECTION_IDS -> (key ∈ selected ↔ key ∈ selected')) ->
  run_orchestrator w analyst_name company selected memo_store
  = run_orchestrator w analyst_name company selected' memo_store
  ∧ ∀ sections sections',
      selected_of sections = selected -> selected_of sections' = selected' ->
      generate_memo w analyst_name company sections memo_store
      = generate_memo w analyst_name company sections' memo_store.
Proof.
  intros Hsame.
  assert (run_orchestrator w analyst_name company selected memo_store
          = run_orchestrator w analyst_name company selected' memo_store) as Hrun.
  { unfold run_orchestrator, _run_orchestrator_inner, _build_steps, when_selected.
    rewrite (mem_ext "bio" selected selected'),
      (mem_ext "forecast" selected selected'),
      (mem_ext "earnings" selected selected'),
      (mem_ext "peer" selected selected'),
      (mem_ext "valuation" selected selected'); [done|..];
      apply Hsame; unfold SECTION_IDS; in_list. }
  split; [done|]. intros sections sections' <- <-. exact Hrun.
Qed.

Lemma run_depends_only_on_which_keys_are_selected_witness :
  generate_memo offline "Mike Mayo" "MS" " valuation,bio , valuation,summary" ∅
  = generate_memo offline "Mike Mayo" "MS" "bio,valuation" ∅.
Proof.
  destruct (run_depends_only_on_which_keys_are_selected offline "Mike Mayo" "MS"
              ["valuation"; "bio"; "valuation"; "summary"] ["bio"; "valuation"] ∅)
    as [_ Hsame].
  - intros key Hkey. unfold SECTION_IDS in Hkey.
    repeat (apply elem_of_cons in Hkey as [->|Hkey];
            [apply (bool_decide_unpack _); by vm_compute|]).
    by apply elem_of_nil in Hkey.
  - by apply Hsame.
Defined.

(** ** The five tiers *)

Lemma contains_nonempty (sub s : string) :
  sub ≠ EmptyString -> PyStr.contains sub s = true -> s ≠ EmptyString.
Proof.
  intros Hsub Hin ->. destruct sub as [|c sub]; [done|]. by vm_compute in Hin.
Qed.

Lemma lower_nonempty (s : string) : PyStr.lower s ≠ EmptyString -> s ≠ EmptyString.
Proof. by intros Hs ->. Qed.

Lemma has_text_of (text url : string) :
  text ≠ EmptyString -> has_text (Some text, url) = true.
Proof. unfold has_text. simpl. by destruct text. Qed.

Lemma submissions_loop_leading (n : net) (cik : string) (accessions primary_docs : json)
    (forms : list json) :
  ∀ i, submissions_loop n cik accessions primary_docs forms i
       = submissions_loop n cik accessions primary_docs
           (take (10 - i) (leading_8k_run forms)) i.
Proof.
  induction forms as [|form rest IH]; intros i;
    cbn [submissions_loop leading_8k_run]; [by rewrite take_nil|].
  destruct (is_8k form) eqn:Hform; cbn [negb orb]; [|by rewrite take_nil].
  destruct (10 <=? i)%nat eqn:Hi.
  - apply Nat.leb_le in Hi. replace (10 - i) with 0 by lia. by rewrite take_0.
  - assert (10 - i = S (10 - S i)) as -> by (apply Nat.leb_gt in Hi; lia).
    cbn [take submissions_loop]. rewrite Hform, Hi. cbn [negb orb].
    destruct (json_index accessions i) as [a|]; cbn [mbind outcome_bind]; [|done].
    destruct (json_replace a "-" EmptyString) as [accession|];
      cbn [mbind outcome_bind]; [|done].
    destruct (json_index primary_docs i) as [primary_doc|];
      cbn [mbind outcome_bind]; [|done].
    by rewrite <- IH.
Qed.

Lemma submissions_loop_found (n : net) (cik : string) (accessions primary_docs : json)
    (forms : list json) :
  ∀ i text url,
    submissions_loop n cik accessions primary_docs forms i = Returned (Some text, url) ->
    ∃ resp accession primary_doc,
      url = filing_url n cik accession primary_doc
      ∧ _fetch_url n url = Some resp
      ∧ resp_text resp = text
      ∧ mentions_qa text = true.
Proof.
  induction forms as [|form rest IH]; intros i text url;
    cbn [submissions_loop]; [done|].
  destruct (negb (is_8k form) || (10 <=? i)%nat); [done|].
  destruct (json_index accessions i) as [a|]; cbn [mbind outcome_bind]; [|done].
  destruct (json_replace a "-" EmptyString) as [accession|];
    cbn [mbind outcome_bind]; [|done].
  destruct (json_index primary_docs i) as [primary_doc|];
    cbn [mbind outcome_bind]; [|done].
  cbv zeta.
  destruct (_fetch_url n (filing_url n cik accession primary_doc)) as [resp|] eqn:Hfetch;
    [|apply IH].
  destruct (mentions_qa (resp_text resp)) eqn:Hqa; [|apply IH].
  intros [= <- <-]. by exists resp, accession, primary_doc.
Qed.

Lemma submissions_loop_nothing (n : net) (cik : string) (accessions primary_docs : json)
    (forms : list json) :
  ∀ i url,
    submissions_loop n cik accessions primary_docs forms i = Returned (None, url) ->
    url = EmptyString.
Proof.
  induction forms as [|form rest IH]; intros i url;
    cbn [submissions_loop]; [by intros [= <-]|].
  destruct (negb (is_8k form) || (10 <=? i)%nat); [by intros [= <-]|].
  destruct (json_index accessions i) as [a|]; cbn [mbind outcome_bind]; [|done].
  destruct (json_replace a "-" EmptyString) as [accession|];
    cbn [mbind outcome_bind]; [|done].
  destruct (json_index primary_docs i) as [primary_doc|];
    cbn [mbind outcome_bind]; [|done].
  cbv zeta.
  destruct (_fetch_url n (filing_url n cik accession primary_doc)) as [resp|];
    [|apply IH].
  destruct (mentions_qa (resp_text resp)); [done|apply IH].
Qed.

Lemma mentions_qa_nonempty (text : string) : mentions_qa text = true -> text ≠ EmptyString.
Proof. intros Hqa ->. by vm_compute in Hqa. Qed.

Ltac run_outcome :=
  repeat match goal with
         | |- context [mbind _ ?o] =>
             destruct o eqn:?; cbn [mbind outcome_bind or_nothing]
         end.

Lemma search_submissions_loop (n : net) (cik : string) :
  _search_submissions n cik = (None, EmptyString)
  ∨ ∃ accessions primary_docs forms,
      submissions_loop n cik accessions primary_docs forms 0
      = Returned (_search_submissions n cik).
Proof.
  unfold _search_submissions.
  destruct (_fetch_url n _) as [resp|]; [|by left].
  run_outcome; try (by left).
  match goal with
  | |- context [submissions_loop ?n ?c ?a ?d ?l 0] =>
      destruct (submissions_loop n c a d l 0) as [t|e] eqn:Hloop
  end; [|by left].
  right. by eexists _, _, _.
Qed.

(** X19: tier 2 looks only at the most recent filings while they are
    8-Ks, ten at most: a filing after the first form that is no 8-K, or
    after the tenth, is never fetched, and a feed whose latest filing is
    no 8-K gives nothing.  What the tier returns is nothing at all, with
    an empty URL, or the text of a filing document that mentions a Q&A,
    which is then not empty, with the URL that document was fetched
    from. *)
Theorem submissions_tier_reads_only_the_leading_8k_filings (n : net) (cik : string) :
  (∀ accessions primary_docs forms,
     submissions_loop n cik accessions primary_docs forms 0
     = submissions_loop n cik accessions primary_docs (leading_8k forms) 0)
  ∧ (∀ accessions primary_docs form rest,
       is_8k form = false ->
       submissions_loop n cik accessions primary_docs (form :: rest) 0
       = Returned (None, EmptyString))
  ∧ (∀ text url,
       _search_submissions n cik = (Some text, url) ->
       text ≠ EmptyString
       ∧ ∃ resp accession primary_doc,
           url = filing_url n cik accession primary_doc
           ∧ _fetch_url n url = Some resp
           ∧ resp_text resp = text
           ∧ mentions_qa text = true)
  ∧ clean_answer (_search_submissions n cik).
Proof.
  assert (∀ text url,
            _search_submissions n cik = (Some text, url) ->
            text ≠ EmptyString
            ∧ ∃ resp accession primary_doc,
                url = filing_url n cik accession primary_doc
                ∧ _fetch_url n url = Some resp
                ∧ resp_text resp = text
                ∧ mentions_qa text = true) as Hfound.
  { intros text url Hresult.
    destruct (search_submissions_loop n cik)
      as [Hnone|(accessions & primary_docs & forms & Hloop)]; [congruence|].
    rewrite Hresult in Hloop.
    destruct (submissions_loop_found _ _ _ _ _ _ _ _ Hloop)
      as (resp & accession & primary_doc & Hurl & Hfetch & Htext & Hqa).
    split; [by apply mentions_qa_nonempty|]. by exists resp, accession, primary_doc. }
  split; [|split; [|split; [exact Hfound|]]].
  - intros accessions primary_docs forms.
    apply (submissions_loop_leading n cik accessions primary_docs forms 0).
  - intros accessions primary_docs form rest Hform.
    cbn [submissions_loop]. by rewrite Hform.
  - destruct (_search_submissions n cik) as [[text|] url] eqn:Hresult.
    + right. apply has_text_of. by destruct (Hfound text url eq_refl).
    + left. destruct (search_submissions_loop n cik)
        as [Hnone|(accessions & primary_docs & forms & Hloop)]; [congruence|].
      rewrite Hresult in Hloop.
      by rewrite (submissions_loop_nothing _ _ _ _ _ _ _ Hloop).
Qed.

Lemma efts_loop_found (n : net) (hits : list json) (text url : string) :
  efts_loop n hits = Returned (Some text, url) ->
  ∃ resp, _fetch_url n url = Some resp
          ∧ resp_text resp = text
          ∧ PyStr.contains "question" (PyStr.lower text) = true
          ∧ PyStr.contains "answer" (PyStr.lower text) = true.
Proof.
  induction hits as [|hit rest IH]; cbn [efts_loop]; [done|].
  destruct (json_get hit "_source" (JObj [])) as [source|];
    cbn [mbind outcome_bind]; [|done].
  destruct (json_get source "file_url" JNull) as [file_url|];
    cbn [mbind outcome_bind]; [|done].
  destruct (json_truthy file_url); [|done].
  destruct (fetch_json_url n file_url) as [[u resp]|] eqn:Hfetch; [|done].
  cbv zeta.
  destruct (PyStr.contains "question" _ && PyStr.contains "answer" _) eqn:Hqa; [|done].
  intros [= <- <-]. apply andb_prop in Hqa as [Hq Ha].
  exists resp. split; [|done].
  unfold fetch_json_url in Hfetch. destruct file_url; try done.
  destruct (_fetch_url n s) as [resp'|] eqn:Hurl; [|done].
  by injection Hfetch as <- <-.
Qed.

Lemma efts_loop_nothing (n : net) (hits : list json) (url : string) :
  efts_loop n hits = Returned (None, url) -> url = EmptyString.
Proof.
  induction hits as [|hit rest IH]; cbn [efts_loop]; [by intros [= <-]|].
  destruct (json_get hit "_source" (JObj [])) as [source|];
    cbn [mbind outcome_bind]; [|done].
  destruct (json_get source "file_url" JNull) as [file_url|];
    cbn [mbind outcome_bind]; [|done].
  destruct (json_truthy file_url); [|done].
  destruct (fetch_json_url n file_url) as [[u resp]|]; [|done].
  cbv zeta. by destruct (_ && _).
Qed.

Lemma search_efts_loop (n : net) (company_name : string) :
  _search_efts n company_name = (None, EmptyString)
  ∨ ∃ hits, efts_loop n hits = Returned (_search_efts n company_name).
Proof.
  unfold _search_efts.
  destruct (net_get n _ _) as [resp|]; cbn [mbind outcome_bind or_nothing]; [|by left].
  destruct (negb _); [by left|].
  run_outcome; try (by left).
  match goal with
  | |- context [efts_loop ?n ?l] => destruct (efts_loop n l) as [t|e] eqn:Hloop
  end; [|by left].
  right. by eexists.
Qed.

Lemma web_results_loop_found (n : net) (results : list search_hit) (text url : string) :
  web_results_loop n results = Returned (Some (text, url)) ->
  ∃ site resp,
    site ∈ transcript_sites
    ∧ PyStr.contains site url = true
    ∧ _fetch_url n url = Some resp
    ∧ net_article n (resp_text resp) = Returned (Some text)
    ∧ (1000 < PyStr.len text)%nat
    ∧ PyStr.contains "question" (PyStr.lower text) = true.
Proof.
  induction results as [|r rest IH]; cbn [web_results_loop]; [done|]. cbv zeta.
  destruct (existsb _ transcript_sites) eqn:Hsite; [|done].
  destruct (_fetch_url n (hit_href r)) as [resp|] eqn:Hfetch; [|done].
  destruct (net_article n (resp_text resp)) as [[article|]|] eqn:Harticle;
    cbn [mbind outcome_bind]; [|done|done].
  destruct (PyStr.contains "question" _ && _) eqn:Hok; [|done].
  intros [= <- <-]. apply andb_prop in Hok as [Hq Hlen].
  apply existsb_exists in Hsite as (site & Hin & Hsite).
  exists site, resp. split; [by apply list_elem_of_In|].
  repeat (split; [done|]). split; [by apply Nat.ltb_lt|done].
Qed.

Lemma web_queries_loop_spec (n : net) (queries : list string) :
  web_queries_loop n queries = (None, EmptyString)
  ∨ ∃ results text url,
      web_queries_loop n queries = (Some text, url)
      ∧ web_results_loop n results = Returned (Some (text, url)).
Proof.
  induction queries as [|query rest IH]; cbn [web_queries_loop]; [by left|].
  destruct (net_ddgs n query 5) as [results|]; cbn [mbind outcome_bind]; [|done].
  destruct (web_results_loop n results) as [[[text url]|]|] eqn:Hloop; [|done|done].
  right. by exists results, text, url.
Qed.

Lemma search_fmp_found (n : net) (ticker text url : string) :
  _search_fmp n ticker = (Some text, url) ->
  net_fmp_key n ≠ EmptyString
  ∧ ∃ header content,
      text = header +:+ content
      ∧ header ≠ EmptyString
      ∧ (500 < PyStr.len content)%nat.
Proof.
  unfold _search_fmp.
  destruct (net_fmp_key n) as [|c key] eqn:Hkey; [done|]. cbn [PyStr.truthy negb].
  destruct (net_get n _ _) as [resp|]; cbn [mbind outcome_bind or_nothing]; [|done].
  destruct (negb _); [done|].
  destruct (resp_json resp) as [data|]; cbn [mbind outcome_bind or_nothing]; [|done].
  destruct data as [| | | |[|transcript rest]|]; try done.
  destruct transcript as [| | | | |fields]; try done.
  cbn [json_get mbind outcome_bind or_nothing].
  destruct (default (JStr EmptyString) (PyDict.get "content" fields))
    as [| | |content| |]; try done.
  destruct (PyStr.truthy content && (500 <? PyStr.len content)%nat) eqn:Hok; [|done].
  cbn [or_nothing]. intros [= <- <-]. split; [done|].
  apply andb_prop in Hok as [_ Hlen%Nat.ltb_lt].
  eexists _, content. split; [reflexivity|]. split; [|done].
  unfold fmp_header. done.
Qed.

Lemma search_fmp_nothing (n : net) (ticker url : string) :
  _search_fmp n ticker = (None, url) -> url = EmptyString.
Proof.
  unfold _search_fmp.
  destruct (negb _); [by intros [= <-]|].
  destruct (net_get n _ _) as [resp|]; cbn [mbind outcome_bind or_nothing];
    [|by intros [= <-]].
  destruct (negb _); [by intros [= <-]|].
  destruct (resp_json resp) as [data|]; cbn [mbind outcome_bind or_nothing];
    [|by intros [= <-]].
  destruct data as [| | | |[|transcript rest]|]; try (by intros [= <-]).
  destruct transcript as [| | | | |fields]; try (by intros [= <-]).
  cbn [json_get mbind outcome_bind or_nothing].
  destruct (default (JStr EmptyString) (PyDict.get "content" fields))
    as [| | |content| |]; try (by intros [= <-]).
  destruct (PyStr.truthy content && _); [done|by intros [= <-]].
Qed.

Lemma append_nonempty (s1 s2 : string) : s1 ≠ EmptyString -> s1 +:+ s2 ≠ EmptyString.
Proof. by destruct s1. Qed.

Lemma longer_nonempty (s : string) (k : nat) : (k < PyStr.len s)%nat -> s ≠ EmptyString.
Proof. intros Hlen ->. simpl in Hlen. lia. Qed.

(** X20: each of the other four tiers answers with nothing at all, and
    then an empty URL, or with a text that is not empty.  The text of
    tier 1 is the body fetched from the URL it reports and mentions both
    a question and an answer; tier 3 needs an API key and gives a header
    followed by a content of more than 500 characters; the text of tier 4
    is the article of a page of one of the three transcript sites, longer
    than 1000 characters and mentioning a question; tier 5 gives the
    bundled file when it has more than 100 characters. *)
Theorem tiers_answer_with_nothing_or_a_text
    (n : net) (company_name ticker : string) :
  Forall clean_answer
    [ _search_efts n company_name; _search_fmp n ticker;
      _search_transcript_web n company_name ticker; _read_local_transcript n ]
  ∧ (∀ text url,
       _search_efts n company_name = (Some text, url) ->
       ∃ resp, _fetch_url n url = Some resp
               ∧ resp_text resp = text
               ∧ PyStr.contains "question" (PyStr.lower text) = true
               ∧ PyStr.contains "answer" (PyStr.lower text) = true)
  ∧ (∀ text url,
       _search_fmp n ticker = (Some text, url) ->
       net_fmp_key n ≠ EmptyString
       ∧ ∃ header content,
           text = header +:+ content
           ∧ header ≠ EmptyString
           ∧ (500 < PyStr.len content)%nat)
  ∧ (∀ text url,
       _search_transcript_web n company_name ticker = (Some text, url) ->
       ∃ site resp,
         site ∈ transcript_sites
         ∧ PyStr.contains site url = true
         ∧ _fetch_url n url = Some resp
         ∧ net_article n (resp_text resp) = Returned (Some text)
         ∧ (1000 < PyStr.len text)%nat
         ∧ PyStr.contains "question" (PyStr.lower text) = true)
  ∧ (∀ text url,
       _read_local_transcript n = (Some text, url) ->
       net_local n = Some (Returned text)
       ∧ (100 < PyStr.len text)%nat
       ∧ url = "Local file (ms_transcript.txt)").
Proof.
  assert (∀ text url,
            _search_efts n company_name = (Some text, url) ->
            ∃ resp, _fetch_url n url = Some resp
                    ∧ resp_text resp = text
                    ∧ PyStr.contains "question" (PyStr.lower text) = true
                    ∧ PyStr.contains "answer" (PyStr.lower text) = true) as Hefts.
  { intros text url Hresult.
    destruct (search_efts_loop n company_name) as [Hnone|[hits Hloop]]; [congruence|].
    rewrite Hresult in Hloop. by apply (efts_loop_found n hits). }
  assert (∀ text url,
            _search_transcript_web n company_name ticker = (Some text, url) ->
            ∃ site resp,
              site ∈ transcript_sites
              ∧ PyStr.contains site url = true
              ∧ _fetch_url n url = Some resp
              ∧ net_article n (resp_text resp) = Returned (Some text)
              ∧ (1000 < PyStr.len text)%nat
              ∧ PyStr.contains "question" (PyStr.lower text) = true) as Hweb.
  { intros text url Hresult. unfold _search_transcript_web in Hresult.
    destruct (web_queries_loop_spec n (web_queries company_name ticker))
      as [Hnone|(results & text' & url' & Hfound & Hloop)]; [congruence|].
    rewrite Hresult in Hfound. injection Hfound as <- <-.
    by apply (web_results_loop_found n results). }
  assert (∀ text url,
            _read_local_transcript n = (Some text, url) ->
            net_local n = Some (Returned text)
            ∧ (100 < PyStr.len text)%nat
            ∧ url = "Local file (ms_transcript.txt)") as Hlocal.
  { intros text url. unfold _read_local_transcript.
    destruct (net_local n) as [[content|]|]; try done.
    destruct (PyStr.truthy content && _) eqn:Hok; [|done].
    intros [= <- <-]. apply andb_prop in Hok as [_ Hlen%Nat.ltb_lt]. done. }
  split; [|split; [exact Hefts|split; [apply search_fmp_found|split; [exact Hweb|exact Hlocal]]]].
  repeat apply Forall_cons_2; [| | | |constructor].
  - destruct (_search_efts n company_name) as [[text|] url] eqn:Hresult.
    + right. apply has_text_of.
      destruct (Hefts text url eq_refl) as (resp & _ & _ & Hq & _).
      by apply lower_nonempty, (contains_nonempty "question").
    + left. destruct (search_efts_loop n company_name) as [Hnone|[hits Hloop]];
        [congruence|].
      rewrite Hresult in Hloop. by rewrite (efts_loop_nothing n hits url Hloop).
  - destruct (_search_fmp n ticker) as [[text|] url] eqn:Hresult.
    + right. apply has_text_of.
      destruct (search_fmp_found n ticker text url Hresult)
        as (_ & header & content & -> & Hheader & _).
      by apply append_nonempty.
    + left. by rewrite (search_fmp_nothing n ticker url Hresult).
  - destruct (_search_transcript_web n company_name ticker) as [[text|] url] eqn:Hresult.
    + right. apply has_text_of.
      destruct (Hweb text url eq_refl) as (site & resp & _ & _ & _ & _ & Hlen & _).
      by apply (longer_nonempty text 1000).
    + left. unfold _search_transcript_web in Hresult.
      destruct (web_queries_loop_spec n (web_queries company_name ticker))
        as [Hnone|(results & text' & url' & Hfound & _)]; congruence.
  - destruct (_read_local_transcript n) as [[text|] url] eqn:Hresult.
    + right. apply has_text_of.
      destruct (Hlocal text url eq_refl) as (_ & Hlen & _).
      by apply (longer_nonempty text 100).
    + left. revert Hresult. unfold _read_local_transcript.
      destruct (net_local n) as [[content|]|]; try (by intros [= <-]).
      destruct (PyStr.truthy content && _); [done|by intros [= <-]].
Qed.

(** ** The chain without a network *)

Lemma fetch_url_down (n : net) (url : string) : network_down n -> _fetch_url n url = None.
Proof. intros [Hget _]. unfold _fetch_url. by destruct (Hget url []) as [e ->]. Qed.

Lemma search_efts_down (n : net) (company_name : string) :
  network_down n -> _search_efts n company_name = (None, EmptyString).
Proof.
  intros [Hget _]. unfold _search_efts.
  by destruct (Hget "https://efts.sec.gov/LATEST/search-index" (efts_params company_name))
    as [e ->].
Qed.

Lemma search_submissions_down (n : net) (cik : string) :
  network_down n -> _search_submissions n cik = (None, EmptyString).
Proof. intros Hdown. unfold _search_submissions. by rewrite fetch_url_down. Qed.

Lemma search_fmp_down (n : net) (ticker : string) :
  network_down n -> _search_fmp n ticker = (None, EmptyString).
Proof.
  intros [Hget _]. unfold _search_fmp. destruct (negb _); [done|].
  by destruct (Hget (fmp_url ticker) [("apikey", net_fmp_key n)]) as [e ->].
Qed.

Lemma search_web_down (n : net) (company_name ticker : string) :
  network_down n -> _search_transcript_web n company_name ticker = (None, EmptyString).
Proof.
  intros [_ Hddgs]. unfold _search_transcript_web.
  induction (web_queries company_name ticker) as [|query rest IH]; [done|].
  cbn [web_queries_loop]. by destruct (Hddgs query 5) as [e ->].
Qed.

(** X21: without a network, when every request and every search raises,
    the chain runs through all its tiers and ends at the bundled file:
    get_transcript succeeds with tier 5, the text of the file and the
    local-file label as its source when the file can be read and has more
    than 100 characters, and gives the error result otherwise. *)
Theorem chain_without_network_ends_at_the_bundled_file
    (n : net) (w : world) (ticker company_name : string) :
  network_down n ->
  get_transcript (with_tiers n w) ticker company_name
  = match net_local n with
    | Some (Returned text) =>
        if (100 <? PyStr.len text)%nat then
          {| tr_status := "success";
             tr_transcript_text := text;
             tr_source := "Local file (ms_transcript.txt)";
             tr_source_url := EmptyString;
             tr_tier := 5;
             tr_error := None |}
        else all_tiers_failed
    | _ => all_tiers_failed
    end
  ∧ (get_transcript_logged (with_tiers n w) ticker company_name).1
    = tier_chain (with_tiers n w) ticker company_name.
Proof.
  intros Hdown.
  unfold get_transcript, get_transcript_logged, tiers_3_to_5, tier_chain, tier_attempt.
  cbn [with_tiers w_search_efts w_search_submissions w_search_fmp
       w_search_transcript_web w_read_local_transcript].
  rewrite company_cik, search_efts_down, search_fmp_down, search_web_down by done.
  assert (_read_local_transcript n
          = match net_local n with
            | Some (Returned text) =>
                if (100 <? PyStr.len text)%nat
                then (Some text, "Local file (ms_transcript.txt)")
                else (None, EmptyString)
            | _ => (None, EmptyString)
            end) as ->.
  { unfold _read_local_transcript. destruct (net_local n) as [[text|]|]; try done.
    destruct text; [done|]. done. }
  destruct (decide (ticker = "MS")) as [->|Hne];
    rewrite ?search_submissions_down by done;
    (destruct (net_local n) as [[text|]|]; [|done|done]);
    (destruct (100 <? PyStr.len text)%nat eqn:Hlen; [|done]);
    apply Nat.ltb_lt in Hlen;
    (assert (has_text (Some text, "Local file (ms_transcript.txt)") = true) as Htext
       by (apply has_text_of; by apply (longer_nonempty text 100)));
    cbn [has_text fst snd PyStr.truthy] in *; by rewrite ?Htext.
Qed.

Lemma chain_without_network_ends_at_the_bundled_file_witness :
  tr_tier (get_transcript (with_tiers unplugged offline) "MS" "Morgan Stanley") = 5
  ∧ (get_transcript_logged (with_tiers unplugged offline) "MS" "Morgan Stanley").1
    = [1; 2; 3; 4; 5].
Proof.
  destruct (chain_without_network_ends_at_the_bundled_file unplugged offline
              "MS" "Morgan Stanley") as [Hresult Hlog].
  - split; intros; by eexists.
  - split; [by rewrite Hresult|]. rewrite Hlog. reflexivity.
Defined.
